(** * StudyAI backend: a shallow embedding of its decision logic

    The development follows the Python sources

      - [routes/exam_prep.py]  text extraction, chunking, LLM response
        parsing and record normalisation, and the routes with their
        in-memory store,
      - [database.py]          the [users] and [user_data] tables,
      - [routes/auth.py]       the account routes over these tables,
      - [routes/word_editor.py] formatting, DOCX / PDF rendering of a
        document, and the routes that edit and send a stored document.

    Python [str] values are sequences of code points; they are modelled as
    [list ascii], a code point being read as its number (0..255).  Python
    integers are [Z], Python floats are IEEE-754 doubles ([float]),
    dictionaries with string keys are [gmap string _]. *)

From Stdlib Require Import ZArith Ascii String List Floats Lia.
From stdpp Require Import base option list strings pretty gmap.

Set Warnings "-inexact-float".

Local Open Scope Z_scope.

(** ** Python strings *)

Module PyStr.

Abbreviation str := (list ascii).

(** A literal. *)
Definition lit (s : string) : str := list_ascii_of_string s.

Definition len (s : str) : Z := Z.of_nat (length s).

(** [str.isspace] on one code point below 256. *)
Definition is_space (c : ascii) : bool :=
  let n := N_of_ascii c in
  ((9 <=? n) && (n <=? 13) || (28 <=? n) && (n <=? 32)
   || (n =? 133) || (n =? 160))%N.

(** [str.lower] on one code point below 256: A-Z, and the Latin-1 capitals
    other than the multiplication sign. *)
Definition lower_char (c : ascii) : ascii :=
  let n := N_of_ascii c in
  if ((65 <=? n) && (n <=? 90)
      || (192 <=? n) && (n <=? 222) && negb (n =? 215))%N
  then ascii_of_N (n + 32) else c.

Definition lower (s : str) : str := map lower_char s.

Fixpoint lstrip (s : str) : str :=
  match s with
  | c :: s' => if is_space c then lstrip s' else s
  | [] => []
  end.

Definition rstrip (s : str) : str := reverse (lstrip (reverse s)).

Definition strip (s : str) : str := rstrip (lstrip s).

(** Truth value of a string: non-empty. *)
Definition truthy (s : str) : bool :=
  match s with [] => false | _ => true end.

Fixpoint startswith (s p : str) : bool :=
  match p, s with
  | [], _ => true
  | a :: p', b :: s' => if ascii_dec a b then startswith s' p' else false
  | _ :: _, [] => false
  end.

Definition endswith (s p : str) : bool := startswith (reverse s) (reverse p).

(** [s.find(sub)] counted from offset [i]: lowest index, [-1] if absent. *)
Fixpoint find_from (sub s : str) (i : Z) : Z :=
  if startswith s sub then i
  else match s with
       | [] => -1
       | _ :: s' => find_from sub s' (i + 1)
       end.

Definition find (sub s : str) : Z := find_from sub s 0.

(** [s.rfind(sub)] counted from offset [i]: highest index, [-1] if absent. *)
Fixpoint rfind_from (sub s : str) (i : Z) : Z :=
  match s with
  | [] => if startswith [] sub then i else -1
  | _ :: s' =>
      let r := rfind_from sub s' (i + 1) in
      if 0 <=? r then r else if startswith s sub then i else -1
  end.

Definition rfind (sub s : str) : Z := rfind_from sub s 0.

(** [sub in s] *)
Definition contains (sub s : str) : bool := 0 <=? find sub s.

(** A slice bound as Python clips it: negative bounds count from the end. *)
Definition clip (n i : Z) : Z :=
  if i <? 0 then Z.max 0 (n + i) else Z.min i n.

(** [s[lo:hi]] *)
Definition slice (s : str) (lo hi : Z) : str :=
  let l := clip (len s) lo in
  let h := clip (len s) hi in
  take (Z.to_nat (h - l)) (drop (Z.to_nat l) s).

(** [s.replace(old, new)] for a non-empty [old]; [fuel] bounds the scan and
    [length s] is always enough. *)
Fixpoint replace_go (fuel : nat) (old new s : str) : str :=
  match fuel with
  | O => s
  | S fuel' =>
      match s with
      | [] => []
      | c :: s' =>
          if startswith s old
          then new ++ replace_go fuel' old new (drop (length old) s)
          else c :: replace_go fuel' old new s'
      end
  end.

Definition replace (old new s : str) : str :=
  replace_go (length s) old new s.

(** [s.split(sep)] for a one-character separator. *)
Fixpoint split_char (sep : ascii) (s : str) : list str :=
  match s with
  | [] => [[]]
  | c :: s' =>
      if ascii_dec c sep then [] :: split_char sep s'
      else match split_char sep s' with
           | w :: ws => (c :: w) :: ws
           | [] => [[c]]
           end
  end.

Definition newline : ascii := ascii_of_N 10.

(** [u] occurs in [s] as a run of consecutive characters. *)
Definition occurs (u s : str) : Prop := exists pre post, s = pre ++ u ++ post.

End PyStr.

Import PyStr.

(** ** Chunking ([generate_questions_with_groq], lines 167-215) *)

Module Chunking.

Definition MAX_CHUNK_SIZE : Z := 6000.
Definition OVERLAP_SIZE : Z := 800.

(** The boundary chosen by the [if]/[elif] chain (lines 182-199).  The
    [rfind] results are offsets inside [chunk]; [chunk_end] is the window's
    end offset inside the whole text, as in the source. *)
Definition find_boundary (chunk : str) (chunk_end : Z) : Z :=
  let last_question_mark := rfind (lit "?") chunk in
  let last_double_newline := rfind [newline; newline] chunk in
  let last_newline := rfind [newline] chunk in
  let last_period := rfind (lit ".") chunk in
  if last_question_mark >? chunk_end - 1000 then last_question_mark
  else if last_double_newline >? chunk_end - 800 then last_double_newline
  else if last_newline >? chunk_end - 500 then last_newline
  else if last_period >? chunk_end - 300 then last_period
  else -1.

(** One pass through the loop body up to line 209: the window's chunk before
    stripping, and the next value of [i]. *)
Definition window_step (text : str) (i : Z) : str * Z :=
  let chunk_end := Z.min (i + MAX_CHUNK_SIZE) (len text) in
  let chunk := slice text i chunk_end in
  if chunk_end <? len text then
    let boundary := find_boundary chunk chunk_end in
    if boundary >? chunk_end - 1000
    then (slice chunk 0 (boundary + 1), i + boundary + 1 - OVERLAP_SIZE)
    else (chunk, chunk_end - OVERLAP_SIZE)
  else (chunk, chunk_end).

(** A window: where it starts in the text and the chunk cut there (before
    [strip]).  The list of windows is a ghost trace of the loop. *)
Record window := Window { w_start : Z; w_raw : str }.

Definition w_end (w : window) : Z := w_start w + len (w_raw w).

(** Lines 211-212: what a window adds to [chunks]. *)
Definition emitted (w : window) : list str :=
  if truthy (strip (w_raw w)) then [strip (w_raw w)] else [].

(** Number of text positions two windows share. *)
Definition overlap (a b : window) : Z :=
  Z.max 0 (Z.min (w_end a) (w_end b) - Z.max (w_start a) (w_start b)).

Record loop_state := LoopState {
  st_i : Z;
  st_chunks : list str;
  st_windows : list window
}.

Definition loop_body (text : str) (st : loop_state) : loop_state :=
  let '(chunk, i') := window_step text (st_i st) in
  {| st_i := i';
     st_chunks := if truthy (strip chunk)
                  then st_chunks st ++ [strip chunk] else st_chunks st;
     st_windows := st_windows st ++ [Window (st_i st) chunk] |}.

(** [while i < len(text)], with [fuel] bounding the number of passes. *)
Fixpoint chunk_loop (fuel : nat) (text : str) (st : loop_state)
  : option loop_state :=
  match fuel with
  | O => None
  | S fuel' =>
      if st_i st <? len text
      then chunk_loop fuel' text (loop_body text st)
      else Some st
  end.

Definition init_state : loop_state := LoopState 0 [] [].

(** The chunking step as a whole (lines 171-215). *)
Definition chunk_text (text : str) : option (list str) :=
  if len text >? MAX_CHUNK_SIZE
  then st_chunks <$> chunk_loop (S (length text)) text init_state
  else Some [text].

(** The windows the loop visits. *)
Definition chunk_windows (text : str) : option (list window) :=
  st_windows <$> chunk_loop (S (length text)) text init_state.

(** What the loop keeps true. *)
Record loop_inv (text : str) (st : loop_state) : Prop := LoopInv {
  inv_i : 0 <= st_i st <= len text;
  inv_count : Z.of_nat (length (st_windows st)) <= st_i st;
  inv_emitted : (length (st_chunks st) <= length (st_windows st))%nat;
  inv_emit : st_chunks st = flat_map emitted (st_windows st);
  inv_chunks : Forall (fun c => len c <= MAX_CHUNK_SIZE) (st_chunks st);
  inv_windows :
    Forall (fun w => 0 <= w_start w /\ w_end w <= len text
                     /\ w_raw w = slice text (w_start w) (w_end w))
      (st_windows st);
  inv_last :
    forall w, last (st_windows st) = Some w ->
              w_start w < st_i st /\ w_end w - OVERLAP_SIZE <= st_i st;
  inv_adjacent :
    forall (k : nat) a b,
      st_windows st !! k = Some a -> st_windows st !! S k = Some b ->
      overlap a b <= OVERLAP_SIZE
}.

End Chunking.

(** ** Exceptions and results *)

Module Exn.

(** The exceptions the modelled code raises or lets through. *)
Inductive exn :=
| FileNotFoundError (msg : str)
| IsADirectoryError
| ValueError (msg : str)
| TypeError
| AttributeError
| OverflowError
| IntegrityError (msg : str)
| LibraryError (msg : str).

(** A computation that returns a value or raises. *)
Inductive result (A : Type) :=
| Ok (a : A)
| Err (e : exn).

Arguments Ok {A} a.
Arguments Err {A} e.

Definition bind {A B} (m : result A) (k : A -> result B) : result B :=
  match m with
  | Ok a => k a
  | Err e => Err e
  end.

Definition is_ok {A} (m : result A) : bool :=
  match m with Ok _ => true | Err _ => false end.

End Exn.

Import Exn.

Notation "'let*' x := m 'in' k" := (Exn.bind m (fun x => k))
  (at level 10, x name, m at level 200, k at level 200).

(** ** Python values *)

Module Py.

(** What [json.loads] and the request bodies yield. *)
#[warnings="-register-all"]
Inductive pyval :=
| PyNone
| PyBool (b : bool)
| PyInt (z : Z)
| PyFloat (f : float)
| PyStr (s : str)
| PyList (l : list pyval)
| PyDict (d : gmap string pyval).

Abbreviation dict := (gmap string pyval).

(** [d.get(k, dflt)] *)
Definition get (d : dict) (k : string) (dflt : pyval) : pyval :=
  default dflt (d !! k).

(** [float(z)] for an integer: round to nearest even; too large raises. *)
Definition float_of_Z (z : Z) : result float :=
  let f := SF2Prim (binary_normalize prec emax z 0 false) in
  if is_infinity f then Err OverflowError else Ok f.

(** Truth value of an object. *)
Definition truthy_val (v : pyval) : bool :=
  match v with
  | PyNone => false
  | PyBool b => b
  | PyInt z => negb (z =? 0)
  | PyFloat f => negb (is_zero f)
  | PyStr s => truthy s
  | PyList l => match l with [] => false | _ => true end
  | PyDict d => negb (bool_decide (d = ∅))
  end.

Section Builtins.

(** [repr] of floats, lists and dictionaries, and the parser behind
    [float(str)], are the interpreter's; they are taken as given. *)
Variable py_repr : pyval -> str.
Variable float_of_str : str -> option float.

(** [str(v)] *)
Definition py_str (v : pyval) : str :=
  match v with
  | PyStr s => s
  | PyNone => lit "None"
  | PyBool true => lit "True"
  | PyBool false => lit "False"
  | PyInt z => lit (pretty z)
  | _ => py_repr v
  end.

(** [float(v)] *)
Definition py_float (v : pyval) : result float :=
  match v with
  | PyFloat f => Ok f
  | PyInt z => float_of_Z z
  | PyBool true => Ok 1%float
  | PyBool false => Ok 0%float
  | PyStr s =>
      match float_of_str s with
      | Some f => Ok f
      | None => Err (ValueError (lit "could not convert string to float"))
      end
  | PyNone | PyList _ | PyDict _ => Err TypeError
  end.

End Builtins.

End Py.

Import Py.

(** ** Question generation ([routes/exam_prep.py]) *)

Module ExamPrep.

Import Chunking.

(** A normalised question/answer record (the dictionary of lines 397-404). *)
Record qa := QA {
  question : str;
  answer : str;
  importance : str;
  topic : str;
  difficulty : str;
  confidence : float
}.

Definition PLACEHOLDER : str :=
  lit "Answer will be generated based on document content.".

Definition fence : str := lit "```".

(** The literal [0.8]: the double nearest to eight tenths. *)
Definition default_confidence : float := 0x1.999999999999ap-1%float.

(** Lines 317-321: the response without its Markdown code fences. *)
Definition strip_fences (response_content : str) : str :=
  let json_string := strip response_content in
  if startswith json_string fence
  then strip (replace fence [] (replace (lit "```json") [] json_string))
  else json_string.

(** Lines 317-341: the text handed to [json.loads], or the [ValueError]
    raised when a ['['] has neither a [']'] nor a ['}'] after it. *)
Definition json_candidate (response_content : str) : result str :=
  let json_string := strip_fences response_content in
  if contains (lit "[") json_string then
    let start := find (lit "[") json_string in
    if contains (lit "]") json_string then
      let end_ := rfind (lit "]") json_string + 1 in
      Ok (slice json_string start end_)
    else
      let last_brace := rfind (lit "}") json_string in
      if last_brace >? start
      then Ok (slice json_string start (last_brace + 1) ++ lit "]")
      else Err (ValueError (lit "JSON response is too incomplete to parse"))
  else Ok json_string.

(** How the handling of one response ends before normalisation. *)
Inductive parse_outcome :=
| NoContent                     (* line 309: [continue] *)
| ParseFailed (e : exn)         (* lines 341, 351: [ValueError] *)
| NonArray                      (* line 353: [continue] *)
| Parsed (questions : list pyval).

Section Generation.

Variable py_repr : pyval -> str.
Variable float_of_str : str -> option float.
(** [json.loads].  A [ValueError] stands for its subclass
    [JSONDecodeError] and carries the text of that exception; any other
    exception is one that line 346 does not catch. *)
Variable json_loads : str -> result pyval.
(** The chat-completion request for one chunk (lines 267-297): the
    message content of the reply, or the exception raised on the way. *)
Variable groq_chat : str -> result str.
(** [os.getenv('GROQ_API_KEY')] *)
Variable groq_api_key : option str.

(** Lines 309-355. *)
Definition parse_response (response_content : str) : parse_outcome :=
  if negb (truthy response_content) then NoContent
  else match json_candidate response_content with
       | Err e => ParseFailed e
       | Ok json_string =>
           match json_loads json_string with
           | Err (ValueError e) =>
               ParseFailed
                 (ValueError
                    (lit "Failed to parse JSON from Groq response: " ++ e))
           | Err e => ParseFailed e
           | Ok (PyList questions) => Parsed questions
           | Ok _ => NonArray
           end
       end.

(** Lines 359-363: the answer text after the placeholder rule. *)
Definition normalize_answer (answer_text : str) : str :=
  if negb (truthy answer_text)
     || contains (lit "not provided") (lower answer_text)
     || contains (lit "answer not") (lower answer_text)
  then PLACEHOLDER
  else answer_text.

(** Lines 359-404 for one element [q] of the parsed list.  Lines 365-395
    only print diagnostics and are left out.  [q.get] on anything but a
    dictionary raises. *)
Definition normalize_record (q : pyval) : result qa :=
  match q with
  | PyDict q =>
      let question_text :=
        strip (py_str py_repr
                 (get q "question" (get q "Question" (PyStr [])))) in
      let answer_text :=
        strip (py_str py_repr
                 (get q "answer"
                    (get q "Answer" (get q "solution" (PyStr []))))) in
      let answer_text := normalize_answer answer_text in
      let* conf :=
        py_float float_of_str
          (get q "confidence" (get q "Confidence" (PyFloat default_confidence))) in
      Ok {| question := question_text;
            answer := answer_text;
            importance :=
              lower (py_str py_repr
                       (get q "importance"
                          (get q "Importance" (PyStr (lit "medium")))));
            topic :=
              py_str py_repr
                (get q "topic" (get q "Topic" (PyStr (lit "General"))));
            difficulty :=
              lower (py_str py_repr
                       (get q "difficulty"
                          (get q "Difficulty" (PyStr (lit "medium")))));
            confidence := conf |}
  | _ => Err AttributeError
  end.

(** Line 407: [normalized['question'] and len(normalized['question']) > 10] *)
Definition is_valid (normalized : qa) : bool :=
  truthy (question normalized) && (len (question normalized) >? 10).

(** Lines 358-413: the records are appended to [all_questions] one by one;
    an exception stops the loop and keeps what was appended so far. *)
Fixpoint normalize_loop (questions : list pyval) (all_questions : list qa)
  : list qa * option exn :=
  match questions with
  | [] => (all_questions, None)
  | q :: rest =>
      match normalize_record q with
      | Err e => (all_questions, Some e)
      | Ok normalized =>
          normalize_loop rest
            (if is_valid normalized
             then all_questions ++ [normalized] else all_questions)
      end
  end.

(** The records the loop of lines 358-413 gets to normalise: those before
    the first element that raises. *)
Fixpoint normalized_prefix (questions : list pyval) : list qa :=
  match questions with
  | [] => []
  | q :: rest =>
      match normalize_record q with
      | Err _ => []
      | Ok normalized => normalized :: normalized_prefix rest
      end
  end.

(** One pass of the loop over chunks (lines 219-419): every exception is
    caught at line 417. *)
Definition process_chunk (all_questions : list qa) (chunk : str) : list qa :=
  match groq_chat chunk with
  | Err _ => all_questions
  | Ok response_content =>
      match parse_response response_content with
      | Parsed questions => fst (normalize_loop questions all_questions)
      | NoContent | ParseFailed _ | NonArray => all_questions
      end
  end.

(** The records one chunk offers to the filter of line 407: those its
    response parses to, normalised up to the first that raises. *)
Definition chunk_records (chunk : str) : list qa :=
  match groq_chat chunk with
  | Err _ => []
  | Ok response_content =>
      match parse_response response_content with
      | Parsed questions => normalized_prefix questions
      | NoContent | ParseFailed _ | NonArray => []
      end
  end.

Definition generate_questions_with_groq (text filename : str)
  : result (list qa) :=
  match groq_api_key with
  | Some (_ :: _) =>
      Ok (foldl process_chunk [] (default [] (chunk_text text)))
  | _ =>
      Err (ValueError (lit "GROQ_API_KEY not found in environment variables"))
  end.

End Generation.

End ExamPrep.

(** ** Text extraction and the generate-questions pipeline
       ([routes/exam_prep.py], lines 27-159 and 468-583) *)

Module Pipeline.

Import ExamPrep.

(** What a path names on disk. *)
Inductive fsnode :=
| RegularFile (content : str)
| Directory.

(** [os.path.splitext] (POSIX): the extension starts at the last dot of the
    last path component, unless only dots precede it there. *)
Definition splitext (p : str) : str * str :=
  let sepIndex := rfind (lit "/") p in
  let dotIndex := rfind (lit ".") p in
  if (dotIndex >? sepIndex)
     && existsb (fun c => negb (bool_decide (c = "."%char)))
          (slice p (sepIndex + 1) dotIndex)
  then (slice p 0 dotIndex, slice p dotIndex (len p))
  else (p, []).

(** ['\n\n'.join(parts)] *)
Fixpoint join_blank (parts : list str) : str :=
  match parts with
  | [] => []
  | [p] => p
  | p :: rest => p ++ [newline; newline] ++ join_blank rest
  end.

(** [re.sub] of a run of [c] of length at least [limit] by [keep] copies
    of [c]; [run] counts the copies of [c] read since the last other
    character. *)
Fixpoint squeeze (c : ascii) (limit keep run : nat) (s : str) : str :=
  let flush := repeat c (if (limit <=? run)%nat then keep else run) in
  match s with
  | [] => flush
  | x :: s' =>
      if bool_decide (x = c) then squeeze c limit keep (S run) s'
      else flush ++ x :: squeeze c limit keep 0 s'
  end.

(** Lines 531-532. *)
Definition cleanup (extracted_text : str) : str :=
  let clean_text := squeeze newline 3 2 0 extracted_text in
  strip (squeeze " "%char 2 1 0 clean_text).

(** How the handling of one paper ends (lines 500-549). *)
Inductive paper_outcome :=
| PaperSkipped                       (* line 506: no such file *)
| PaperFailed (e : exn)              (* raised before generation *)
| PaperSent (clean_text : str) (r : result (list qa)).
                                     (* line 537 was reached *)

(** A paper of the request: [paper.get('filename')], [paper.get('filePath')]. *)
Record paper := Paper {
  p_filename : option str;
  p_filePath : option str
}.

Section World.

Variable py_repr : pyval -> str.
Variable float_of_str : str -> option float.
Variable json_loads : str -> result pyval.
Variable groq_chat : str -> result str.
Variable groq_api_key : option str.

(** The files on disk. *)
Variable fs : str -> option fsnode.
(** PyMuPDF on a file's bytes: opening may raise; so may each page. *)
Variable pdf_page_texts : str -> result (list (result str)).
(** [mammoth.extract_raw_text] *)
Variable docx_raw_text : str -> result str.
(** Decoding a file read in text mode as UTF-8. *)
Variable utf8_decode : str -> result str.

(** [open(file_path, ...)] and reading all of it. *)
Definition read_file (file_path : str) : result str :=
  match fs file_path with
  | Some (RegularFile content) => Ok content
  | Some Directory => Err IsADirectoryError
  | None => Err (FileNotFoundError file_path)
  end.

(** Lines 73-113: pages whose text is blank, or whose extraction raised,
    contribute nothing. *)
Definition page_parts (pages : list (result str)) : list str :=
  flat_map (fun page =>
              match page with
              | Ok text => if truthy (strip text) then [text] else []
              | Err _ => []
              end) pages.

(** Lines 27-159. *)
Definition extract_text_from_file (file_path filename : str) : result str :=
  let ext := lower (snd (splitext filename)) in
  match fs file_path with
  | None => Err (FileNotFoundError (lit "File not found: " ++ file_path))
  | Some _ =>
      if bool_decide (ext = lit ".pdf") then
        let* bytes := read_file file_path in
        let* pages := pdf_page_texts bytes in
        Ok (join_blank (page_parts pages))
      else if bool_decide (ext = lit ".docx") || bool_decide (ext = lit ".doc")
      then
        let* bytes := read_file file_path in
        docx_raw_text bytes
      else if bool_decide (ext = lit ".txt") then
        let* bytes := read_file file_path in
        utf8_decode bytes
      else Err (ValueError (lit "Unsupported file type: " ++ ext))
  end.

(** Lines 519 and 525: the two length tests on the extracted text. *)
Definition insufficient (extracted_text : str) (limit : Z) : bool :=
  negb (truthy extracted_text) || (len (strip extracted_text) <? limit).

(** Lines 500-549 for one paper. *)
Definition process_paper (p : paper) : paper_outcome :=
  let filename := default (lit "unknown") (p_filename p) in
  match p_filePath p with
  | Some ((_ :: _) as file_path) =>
      match fs file_path with
      | None => PaperSkipped
      | Some _ =>
          match extract_text_from_file file_path filename with
          | Err e => PaperFailed e
          | Ok extracted_text =>
              if insufficient extracted_text 50
                 && insufficient extracted_text 10
              then PaperFailed
                     (ValueError
                        (lit "Could not extract any readable text from "
                           ++ filename
                           ++ lit ". The PDF may be corrupted, scanned "
                           ++ lit "(image-based), or encrypted."))
              else
                let clean_text := cleanup extracted_text in
                PaperSent clean_text
                  (generate_questions_with_groq py_repr float_of_str
                     json_loads groq_chat groq_api_key clean_text filename)
          end
      end
  | _ => PaperSkipped
  end.

(** The questions one paper adds to [all_questions] (lines 539-549). *)
Definition paper_questions (p : paper) : list qa :=
  match process_paper p with
  | PaperSent _ (Ok questions) => questions
  | _ => []
  end.

End World.

End Pipeline.

(** ** The user store ([database.py]) *)

Module UserStore.

(** A row of the [users] table (lines 21-33). *)
Record user_row := UserRow {
  id : str;
  clerk_id : str;
  email : str;
  first_name : option str;
  last_name : option str;
  full_name : option str;
  image_url : option str;
  created_at : Z;
  updated_at : Z
}.

(** The table, in row order. *)
Abbreviation table := (list user_row).

(** [id TEXT PRIMARY KEY], [clerk_id TEXT UNIQUE], [email TEXT UNIQUE]. *)
Definition constraints_ok (db : table) : bool :=
  bool_decide (NoDup (id <$> db))
  && bool_decide (NoDup (clerk_id <$> db))
  && bool_decide (NoDup (email <$> db)).

(** [SELECT ... WHERE clerk_id = ?] followed by [fetchone]. *)
Definition select_by_clerk_id (db : table) (cid : str) : option user_row :=
  List.find (fun r => bool_decide (clerk_id r = cid)) db.

(** [SELECT * FROM users WHERE id = ?] followed by [fetchone]. *)
Definition select_by_id (db : table) (uid : str) : option user_row :=
  List.find (fun r => bool_decide (id r = uid)) db.

Definition set_fields (e : str) (fn ln full img : option str) (now : Z)
    (r : user_row) : user_row :=
  {| id := id r; clerk_id := clerk_id r; email := e;
     first_name := fn; last_name := ln; full_name := full; image_url := img;
     created_at := created_at r; updated_at := now |}.

(** The [UPDATE] of lines 77-82: a statement that would break a constraint
    raises and changes nothing.  The statement writes no [id] and no
    [clerk_id], so the constraint it can break is that of [email]. *)
Definition sql_update (db : table) (cid e : str) (fn ln full img : option str)
    (now : Z) : result table :=
  let db' :=
    (fun r => if bool_decide (clerk_id r = cid)
              then set_fields e fn ln full img now r else r) <$> db in
  if constraints_ok db' then Ok db'
  else Err (IntegrityError (lit "UNIQUE constraint failed: users.email")).

(** The [INSERT] of lines 87-90.  It follows a [SELECT] that found no row
    of the [clerk_id], which is also the new [id]; in a table whose rows
    all have their [clerk_id] for [id], as the rows this statement makes
    do, the constraint it can break is that of [email]. *)
Definition sql_insert (db : table) (r : user_row) : result table :=
  let db' := db ++ [r] in
  if constraints_ok db' then Ok db'
  else Err (IntegrityError (lit "UNIQUE constraint failed: users.email")).

(** Lines 64-99.  [now] is [CURRENT_TIMESTAMP].  The new table is the
    committed one; when a statement raises nothing was committed. *)
Definition create_or_update_user (db : table) (now : Z) (cid e : str)
    (fn ln full img : option str) : table * result (option user_row) :=
  let existing := select_by_clerk_id db cid in
  let step :=
    match existing with
    | Some row =>
        let* db' := sql_update db cid e fn ln full img now in
        Ok (db', id row)
    | None =>
        let user_id := cid in
        let* db' :=
          sql_insert db
            {| id := user_id; clerk_id := cid; email := e;
               first_name := fn; last_name := ln; full_name := full;
               image_url := img; created_at := now; updated_at := now |} in
        Ok (db', user_id)
    end in
  match step with
  | Ok (db', user_id) => (db', Ok (select_by_id db' user_id))
  | Err ex => (db, Err ex)
  end.

(** The rows a [clerk_id] has. *)
Definition rows_of (db : table) (cid : str) : list user_row :=
  List.filter (fun r => bool_decide (clerk_id r = cid)) db.

End UserStore.

(** ** Document export ([routes/word_editor.py]) *)

Module WordEditor.

Definition DEFAULT_MARGINS : dict :=
  list_to_map
    [("top", PyInt 1); ("bottom", PyInt 1); ("left", PyInt 1);
     ("right", PyInt 1)]%string.

(** Lines 21-37. *)
Definition DEFAULT_FORMATTING : dict :=
  list_to_map
    [("fontFamily", PyStr (lit "Arial"));
     ("fontSize", PyInt 12);
     ("fontColor", PyStr (lit "#000000"));
     ("bold", PyBool false);
     ("italic", PyBool false);
     ("underline", PyBool false);
     ("margins", PyDict DEFAULT_MARGINS);
     ("alignment", PyStr (lit "left"));
     ("lineSpacing", PyFloat 1.5%float);
     ("pageNumbers", PyBool false)]%string.

(** [int(f)]: truncation towards zero. *)
Definition int_of_float (f : float) : result Z :=
  match Prim2SF f with
  | S754_nan => Err (ValueError (lit "cannot convert float NaN to integer"))
  | S754_infinity _ => Err OverflowError
  | S754_zero _ => Ok 0
  | S754_finite s m e =>
      let a := if 0 <=? e then Z.pos m * 2 ^ e else Z.pos m / 2 ^ (- e) in
      Ok (if s then - a else a)
  end.

(** [docx.shared.Inches] and [Pt]: a length in English Metric Units. *)
Definition Inches (x : float) : result Z := int_of_float (x * 914400)%float.
Definition Pt (x : float) : result Z := int_of_float (x * 12700)%float.

Inductive alignment := AlignLeft | AlignCenter | AlignRight | AlignJustify.

(** The two [alignment_map.get(alignment, LEFT)] lookups; a key that is
    not hashable raises. *)
Definition lookup_alignment (v : pyval) : result alignment :=
  match v with
  | PyList _ | PyDict _ => Err TypeError
  | PyStr s =>
      Ok (if bool_decide (s = lit "left") then AlignLeft
          else if bool_decide (s = lit "center") then AlignCenter
          else if bool_decide (s = lit "right") then AlignRight
          else if bool_decide (s = lit "justify") then AlignJustify
          else AlignLeft)
  | _ => Ok AlignLeft
  end.

(** [e] is one of [(TypeError, ValueError)]. *)
Definition type_or_value_error (e : exn) : bool :=
  match e with
  | TypeError | ValueError _ => true
  | _ => false
  end.

(** A paragraph of the DOCX body with its single run. *)
Record docx_paragraph := DocxParagraph {
  run_text : str;
  font_name : pyval;
  font_size : Z;
  font_color : option (Z * Z * Z);
  run_bold : bool;
  run_italic : bool;
  run_underline : bool;
  par_alignment : alignment;
  par_line_spacing : float
}.

Record docx_document := DocxDocument {
  top_margin : Z;
  bottom_margin : Z;
  left_margin : Z;
  right_margin : Z;
  paragraphs : list docx_paragraph;
  page_number_footer : bool
}.

(** A ReportLab paragraph style (lines 222-230). *)
Record pdf_style := PdfStyle {
  fontName : str;
  fontSize : float;
  leading : float;
  style_alignment : alignment;
  textColor : Z * Z * Z;
  style_underline : bool
}.

Inductive flowable :=
| Paragraph (text : str) (style : pdf_style)
| Spacer (width height : float).

Record pdf_document := PdfDocument {
  leftMargin : float;
  rightMargin : float;
  topMargin : float;
  bottomMargin : float;
  elements : list flowable
}.

(** The [dict] behind a value, for [.get], [.items] and [.copy]. *)
Definition as_dict (v : pyval) : result dict :=
  match v with
  | PyDict d => Ok d
  | _ => Err AttributeError
  end.

(** The [str] behind a value, for [.split], [.strip] and [.lstrip]. *)
Definition as_str (v : pyval) : result str :=
  match v with
  | PyStr s => Ok s
  | _ => Err AttributeError
  end.

(** [s.lstrip(c)] for one character. *)
Fixpoint lstrip_char (c : ascii) (s : str) : str :=
  match s with
  | x :: s' => if bool_decide (x = c) then lstrip_char c s' else s
  | [] => []
  end.

(** [str.upper] on one code point below 256 whose capital is below 256. *)
Definition upper_char (c : ascii) : ascii :=
  let n := N_of_ascii c in
  if ((97 <=? n) && (n <=? 122)
      || (224 <=? n) && (n <=? 254) && negb (n =? 247))%N
  then ascii_of_N (n - 32) else c.

(** [s] holds no control character, that is, none below 32. *)
Definition printable (s : str) : bool :=
  forallb (fun c => (32 <=? N_of_ascii c)%N) s.

(** [s] holds no markup: neither ['<'] nor ['&']. *)
Definition markup_free (s : str) : bool :=
  forallb (fun c => negb (bool_decide (c = "<"%char))
                    && negb (bool_decide (c = "&"%char))) s.

(** The largest size python-docx keeps: sizes are unsigned 64-bit numbers
    of English Metric Units. *)
Definition MAX_SIZE : Z := 18446744073709551615.

Section Rendering.

Variable float_of_str : str -> option float.
(** [RGBColor.from_string] of python-docx; [None] for its [ValueError]. *)
Variable rgb_from_string : str -> option (Z * Z * Z).
(** [HexColor] of ReportLab. *)
Variable HexColor : pyval -> result (Z * Z * Z).
(** python-docx on a run text that holds a control character: what
    [add_run] raises, if it raises. *)
Variable run_text_error : str -> option exn.
(** python-docx on a font name that holds a control character: what the
    assignment to [font.name] raises, if it raises. *)
Variable font_name_error : str -> option exn.
(** ReportLab on a paragraph text that holds ['<'] or ['&']: what
    [Paragraph] raises when it reads the text as markup, if it raises. *)
Variable markup_error : str -> option exn.

Let to_float := py_float float_of_str.

(** Line 48: [{k: float(v) for k, v in value.items() if v is not None}].
    Which of several failing conversions raises depends on the iteration
    order, which a [gmap] does not record. *)
Definition float_items (value : dict) : result dict :=
  map_fold
    (fun k v acc =>
       let* m := acc in
       match v with
       | PyNone => Ok m
       | _ => let* f := to_float v in Ok (<[k := PyFloat f]> m)
       end)
    (Ok ∅) value.

(** Lines 40-52. *)
Definition merge_formatting (existing : dict) (new_values : pyval)
  : result dict :=
  let formatting := existing in
  if negb (truthy_val new_values) then Ok formatting
  else
    let* items := as_dict new_values in
    map_fold
      (fun key value acc =>
         let* formatting := acc in
         match value with
         | PyDict value =>
             if bool_decide (key = "margins"%string) then
               let* merged_margins :=
                 as_dict (get formatting "margins" (PyDict DEFAULT_MARGINS)) in
               let* floats := float_items value in
               Ok (<["margins"%string := PyDict (floats ∪ merged_margins)]>
                     formatting)
             else Ok (<[key := PyDict value]> formatting)
         | _ => Ok (<[key := value]> formatting)
         end)
      (Ok formatting) items.

(** Lines 55-59. *)
Definition inches (value : pyval) (dflt : float) : result Z :=
  match (let* f := to_float value in Inches f) with
  | Ok n => Ok n
  | Err e => if type_or_value_error e then Inches dflt else Err e
  end.

(** Lines 62-71. *)
Definition parse_color (color_str : pyval) : result (option (Z * Z * Z)) :=
  if negb (truthy_val color_str) then Ok None
  else
    let* s := as_str color_str in
    let color := lstrip_char "#"%char s in
    if negb (len color =? 6) then Ok None
    else Ok (rgb_from_string (map upper_char color)).

(** Lines 78-82: the run's font size.  The assignment to [font.size]
    stands inside the [try]: python-docx refuses a size below 0 or above
    [MAX_SIZE] with a [ValueError], which line 81 catches. *)
Definition run_font_size (formatting : dict) : result Z :=
  match (let* f := to_float (get formatting "fontSize" PyNone) in
         let* size := Pt f in
         if (0 <=? size) && (size <=? MAX_SIZE) then Ok size
         else Err (ValueError (lit "value out of range"))) with
  | Ok n => Ok n
  | Err e => if type_or_value_error e then Pt 12 else Err e
  end.

(** Lines 104-108: the paragraph's line spacing.  python-docx stores a
    multiple as a whole number of English Metric Units, 152400 to the
    line, so the assignment raises where [int] does. *)
Definition par_spacing (formatting : dict) : result float :=
  match (let* f := to_float (get formatting "lineSpacing" (PyFloat 1.5%float)) in
         let* _ := int_of_float (f * 152400)%float in
         Ok f) with
  | Ok f => Ok f
  | Err e => if type_or_value_error e then Ok 1.5%float else Err e
  end.

(** [x or y] *)
Definition py_or (x y : pyval) : pyval := if truthy_val x then x else y.

(** [paragraph.add_run(text)] (lines 148-151): a text without control
    character is taken as it is; python-docx decides on any other. *)
Definition add_run (text : str) : result str :=
  if printable text then Ok text
  else match run_text_error text with
       | Some e => Err e
       | None => Ok text
       end.

(** [font.name = name] (line 76): a name that is no string raises
    [TypeError]; python-docx decides on one with a control character. *)
Definition set_font_name (name : pyval) : result pyval :=
  match name with
  | PyStr s =>
      if printable s then Ok name
      else match font_name_error s with
           | Some e => Err e
           | None => Ok name
           end
  | _ => Err TypeError
  end.

(** Lines 146-153: one paragraph, its run, and the formatting of both
    ([apply_run_formatting], [apply_paragraph_formatting]). *)
Definition docx_paragraph_of (formatting : dict) (para : str)
  : result docx_paragraph :=
  let text := rstrip para in
  let* run := add_run (if truthy (strip text) then text else lit " ") in
  let* name :=
    set_font_name
      (py_or (get formatting "fontFamily" PyNone) (PyStr (lit "Arial"))) in
  let* size := run_font_size formatting in
  let* color := parse_color (get formatting "fontColor" PyNone) in
  let* align :=
    lookup_alignment (get formatting "alignment" (PyStr (lit "left"))) in
  let* spacing := par_spacing formatting in
  Ok {| run_text := run;
        font_name := name;
        font_size := size;
        font_color := color;
        run_bold := truthy_val (get formatting "bold" PyNone);
        run_italic := truthy_val (get formatting "italic" PyNone);
        run_underline := truthy_val (get formatting "underline" PyNone);
        par_alignment := align;
        par_line_spacing := spacing |}.

(** [for para in paragraphs: ...], stopping at the first exception. *)
Fixpoint docx_body (formatting : dict) (paras : list str)
  : result (list docx_paragraph) :=
  match paras with
  | [] => Ok []
  | para :: rest =>
      let* p := docx_paragraph_of formatting para in
      let* ps := docx_body formatting rest in
      Ok (p :: ps)
  end.

(** Lines 131-161: the document handed to [document.save]. *)
Definition build_docx_document (doc : dict) : result docx_document :=
  let* formatting := as_dict (get doc "formatting" (PyDict DEFAULT_FORMATTING)) in
  let* margins := as_dict (get formatting "margins" (PyDict DEFAULT_MARGINS)) in
  let* top := inches (get margins "top" (PyInt 1)) 1 in
  let* bottom := inches (get margins "bottom" (PyInt 1)) 1 in
  let* left := inches (get margins "left" (PyInt 1)) 1 in
  let* right := inches (get margins "right" (PyInt 1)) 1 in
  let* content := as_str (get doc "content" (PyStr [])) in
  let* body := docx_body formatting (split_char newline content) in
  Ok {| top_margin := top; bottom_margin := bottom;
        left_margin := left; right_margin := right;
        paragraphs := body;
        page_number_footer := truthy_val (get formatting "pageNumbers" PyNone) |}.

(** Lines 183-190: [font_family_map.get(fontFamily, 'Helvetica')]. *)
Definition base_font_of (family : pyval) : result str :=
  match family with
  | PyList _ | PyDict _ => Err TypeError
  | PyStr s =>
      Ok (if bool_decide (s = lit "Arial") || bool_decide (s = lit "Calibri")
          then lit "Helvetica"
          else if bool_decide (s = lit "Georgia")
                  || bool_decide (s = lit "Times New Roman")
          then lit "Times-Roman"
          else lit "Helvetica")
  | _ => Ok (lit "Helvetica")
  end.

(** Lines 191-210. *)
Definition font_variant_of (base_font : str) (bold italic : bool) : str :=
  if bool_decide (base_font = lit "Times-Roman") then
    if bold && italic then lit "Times-BoldItalic"
    else if bold then lit "Times-Bold"
    else if italic then lit "Times-Italic"
    else base_font
  else
    if bold && italic then base_font ++ lit "-BoldOblique"
    else if bold then base_font ++ lit "-Bold"
    else if italic then base_font ++ lit "-Oblique"
    else base_font.

(** [Paragraph(text, style)] (line 238): a text without markup is taken
    as it is; ReportLab decides on any other. *)
Definition make_paragraph (text : str) (style : pdf_style)
  : result flowable :=
  if markup_free text then Ok (Paragraph text style)
  else match markup_error text with
       | Some e => Err e
       | None => Ok (Paragraph text style)
       end.

(** Lines 234-239 for one line of the content. *)
Definition line_elements (para : str) (font_size : float)
    (style : pdf_style) : result (list flowable) :=
  let text := strip para in
  if negb (truthy text) then Ok [Spacer 1 (font_size * 0.6)%float]
  else
    let* paragraph :=
      make_paragraph (replace [newline] (lit "<br/>") text) style in
    Ok [paragraph; Spacer 1 (font_size * 0.3)%float].

(** [for para in ...: ...], stopping at the first exception. *)
Fixpoint pdf_lines (paras : list str) (font_size : float)
    (style : pdf_style) : result (list flowable) :=
  match paras with
  | [] => Ok []
  | para :: rest =>
      let* here := line_elements para font_size style in
      let* there := pdf_lines rest font_size style in
      Ok (here ++ there)
  end.

(** Lines 232-239. *)
Definition pdf_elements (content : str) (font_size : float)
    (style : pdf_style) : result (list flowable) :=
  pdf_lines (split_char newline content) font_size style.

(** Lines 164-243: the template and the flowables handed to
    [pdf_doc.build]. *)
Definition build_pdf_document (doc : dict) : result pdf_document :=
  let* formatting := as_dict (get doc "formatting" (PyDict DEFAULT_FORMATTING)) in
  let* margins := as_dict (get formatting "margins" (PyDict DEFAULT_MARGINS)) in
  let* left := to_float (get margins "left" (PyInt 1)) in
  let* right := to_float (get margins "right" (PyInt 1)) in
  let* top := to_float (get margins "top" (PyInt 1)) in
  let* bottom := to_float (get margins "bottom" (PyInt 1)) in
  let* base_font := base_font_of (get formatting "fontFamily" PyNone) in
  let bold := truthy_val (get formatting "bold" PyNone) in
  let italic := truthy_val (get formatting "italic" PyNone) in
  let font_variant := font_variant_of base_font bold italic in
  let* line_spacing :=
    to_float (get formatting "lineSpacing" (PyFloat 1.5%float)) in
  let* font_size := to_float (get formatting "fontSize" (PyInt 12)) in
  let* align :=
    lookup_alignment (get formatting "alignment" (PyStr (lit "left"))) in
  let* color := HexColor (get formatting "fontColor" (PyStr (lit "#000000"))) in
  let style :=
    {| fontName := font_variant;
       fontSize := font_size;
       leading := (font_size * line_spacing)%float;
       style_alignment := align;
       textColor := color;
       style_underline := truthy_val (get formatting "underline" PyNone) |} in
  let* content := as_str (get doc "content" (PyStr [])) in
  let* elements := pdf_elements content font_size style in
  Ok {| leftMargin := (left * 72)%float;
        rightMargin := (right * 72)%float;
        topMargin := (top * 72)%float;
        bottomMargin := (bottom * 72)%float;
        elements :=
          match elements with
          | [] => [Paragraph (lit " ") style]
          | _ => elements
          end |}.

(** The document as [edit_doc] leaves it (lines 415-417) when the request
    carries [formatting] and no new content. *)
Definition edit_formatting (doc : dict) (formatting : pyval) : result dict :=
  let* existing := as_dict (get doc "formatting" (PyDict DEFAULT_FORMATTING)) in
  let* merged := merge_formatting existing formatting in
  Ok (<["formatting"%string := PyDict merged]> doc).

End Rendering.

End WordEditor.

(** ** Concrete worlds for the examples *)

Module Examples.

Import Exn Py ExamPrep Pipeline UserStore WordEditor.

(** [repr] and [float(str)] of a world in which neither is needed. *)
Definition no_repr (v : pyval) : str := [].
Definition no_float (s : str) : option float := None.

(** A [json.loads] that knows one text: [{}], the empty dictionary. *)
Definition loads_object (s : str) : result pyval :=
  if bool_decide (s = lit "{}") then Ok (PyDict ∅)
  else Err (ValueError (lit "Expecting value: line 1 column 1 (char 0)")).

(** A chat endpoint that cannot be reached. *)
Definition groq_down (chunk : str) : result str :=
  Err (LibraryError (lit "connection refused")).

(** A disk with one text file of 20 characters. *)
Definition notes_text : str := lit "Chapter 1: Overview.".
Definition notes_path : str := lit "/tmp/notes.txt".
Definition notes_disk (p : str) : option fsnode :=
  if bool_decide (p = notes_path) then Some (RegularFile notes_text) else None.
Definition notes_paper : paper :=
  {| p_filename := Some (lit "notes.txt"); p_filePath := Some notes_path |}.

Definition no_pdf (bytes : str) : result (list (result str)) :=
  Err (LibraryError (lit "not a PDF")).
Definition no_docx (bytes : str) : result str :=
  Err (LibraryError (lit "not a DOCX")).
Definition utf8_ascii (bytes : str) : result str := Ok bytes.

(** A record without importance, topic, difficulty and confidence. *)
Definition bare_record : dict :=
  list_to_map
    [("question", PyStr (lit "What is the capital of France?"));
     ("answer", PyStr (lit "Answer NOT Provided in the text"))]%string.

(** What [bare_record] normalises to. *)
Definition bare_normalized : qa :=
  {| question := lit "What is the capital of France?";
     answer := PLACEHOLDER;
     importance := lit "medium";
     topic := lit "General";
     difficulty := lit "medium";
     confidence := 0.8 |}.

(** Two users. *)
Definition alice : user_row :=
  {| id := lit "user_a"; clerk_id := lit "user_a"; email := lit "a@x.org";
     first_name := None; last_name := None; full_name := None;
     image_url := None; created_at := 1; updated_at := 1 |}.
Definition bob : user_row :=
  {| id := lit "user_b"; clerk_id := lit "user_b"; email := lit "b@x.org";
     first_name := None; last_name := None; full_name := None;
     image_url := None; created_at := 0; updated_at := 0 |}.

(** The document of the export example. *)
Definition hello_world : str := lit "Hello" ++ [newline; newline] ++ lit "World".
Definition hello_doc : dict :=
  list_to_map
    [("id", PyStr (lit "1"));
     ("filename", PyStr (lit "hello.docx"));
     ("content", PyStr hello_world);
     ("formatting", PyDict DEFAULT_FORMATTING)]%string.
Definition top_two_inches : pyval :=
  PyDict (list_to_map
            [("margins", PyDict (list_to_map [("top", PyInt 2)]))]%string).

Definition black_rgb (s : str) : option (Z * Z * Z) :=
  if bool_decide (s = lit "000000") then Some (0, 0, 0) else None.
Definition black_hex (v : pyval) : result (Z * Z * Z) :=
  match v with
  | PyStr s =>
      if bool_decide (s = lit "#000000") then Ok (0, 0, 0)
      else Err (ValueError (lit "Invalid color value"))
  | _ => Err TypeError
  end.

(** A python-docx that refuses the control characters XML has no place
    for, and a ReportLab that refuses every text it is asked about. *)
Definition lxml_error (s : str) : option exn :=
  if forallb (fun c => let n := N_of_ascii c in
                       (32 <=? n) || (n =? 9) || (n =? 10) || (n =? 13))%N s
  then None
  else Some (ValueError (lit "All strings must be XML compatible")).
Definition strict_markup (s : str) : option exn :=
  Some (ValueError (lit "paragraph text cannot be parsed")).

End Examples.

(** ** What the chunking loop covers *)

Module ChunkingCover.

Import Chunking.

(** What the loop keeps true of the text its windows cover. *)
Record cover_inv (text : str) (st : loop_state) : Prop := CoverInv {
  cov_empty : st_windows st = [] -> st_i st = 0;
  cov_first : forall w, st_windows st !! 0%nat = Some w -> w_start w = 0;
  cov_last :
    forall w, last (st_windows st) = Some w ->
      (w_end w = len text /\ st_i st = len text)
      \/ (w_end w < len text /\ st_i st = w_end w - OVERLAP_SIZE
          /\ 5002 <= len (w_raw w));
  cov_adjacent :
    forall (k : nat) a b,
      st_windows st !! k = Some a -> st_windows st !! S k = Some b ->
      w_start b = w_end a - OVERLAP_SIZE
      /\ 5002 <= len (w_raw a)
      /\ w_end a < w_end b;
  cov_starts :
    forall (k : nat) w,
      st_windows st !! k = Some w -> 4202 * Z.of_nat k <= w_start w < len text;
  cov_next :
    4202 * Z.of_nat (length (st_windows st)) <= st_i st
    \/ st_i st = len text
}.

End ChunkingCover.

(** ** Runs of one character, and blank pages *)

Module TextRuns.

(** The length of the longest run of [c] in [s], a run of [cur] copies
    standing just before [s]. *)
Fixpoint longest_run_from (c : ascii) (cur : nat) (s : str) : nat :=
  match s with
  | [] => cur
  | x :: s' =>
      if bool_decide (x = c) then longest_run_from c (S cur) s'
      else Nat.max cur (longest_run_from c 0 s')
  end.

Definition longest_run (c : ascii) (s : str) : nat := longest_run_from c 0 s.

(** A page whose text PyMuPDF cannot read, or reads as white space. *)
Definition blank_page (page : Exn.result str) : Prop :=
  match page with
  | Exn.Ok text => strip text = []
  | Exn.Err _ => True
  end.

End TextRuns.

(** ** The rest of [database.py] *)

Module Database.

Import Exn Py UserStore.

(** Lines 101-108. *)
Definition get_user_by_clerk_id (db : table) (clerk_id : str)
  : option user_row :=
  select_by_clerk_id db clerk_id.

(** Lines 110-117. *)
Definition get_user_by_email (db : table) (e : str) : option user_row :=
  List.find (fun r => bool_decide (email r = e)) db.

(** Lines 119-127: the table after the [DELETE], and [cursor.rowcount > 0].
    Foreign keys are not enforced (no [PRAGMA foreign_keys]), so the
    statement cannot fail and touches no other table. *)
Definition delete_user (db : table) (cid : str) : table * bool :=
  let rowcount := Z.of_nat (length (rows_of db cid)) in
  (List.filter (fun r => negb (bool_decide (clerk_id r = cid))) db,
   0 <? rowcount).

(** A row of the [user_data] table (lines 47-58). *)
Record data_row := DataRow {
  row_id : Z;
  user_id : str;
  key : str;
  value : str;
  data_created_at : Z;
  data_updated_at : Z
}.

(** The table in [rowid] order, and the largest [rowid] its sequence
    records ([AUTOINCREMENT]). *)
Record data_table := DataTable {
  data_rows : list data_row;
  last_row_id : Z
}.

(** The largest [rowid] ever used: the one the sequence records, or that
    of a row if one is larger. *)
Definition largest_row_id (t : data_table) : Z :=
  foldr Z.max (last_row_id t) (row_id <$> data_rows t).

(** The rows of one [(user_id, key)] pair. *)
Definition keyed (uid k : str) (r : data_row) : bool :=
  bool_decide (user_id r = uid) && bool_decide (key r = k).

(** [UNIQUE(user_id, key)] *)
Definition data_ok (t : data_table) : bool :=
  bool_decide (NoDup ((fun r => (user_id r, key r)) <$> data_rows t)).

(** Lines 129-138: [INSERT OR REPLACE] deletes the rows that stand in the
    way of the unique pair, then inserts the new row under a [rowid] one
    larger than the largest ever used. *)
Definition set_user_data (t : data_table) (now : Z) (uid k v : str)
  : data_table :=
  let kept := List.filter (fun r => negb (keyed uid k r)) (data_rows t) in
  let rowid := largest_row_id t + 1 in
  {| data_rows :=
       kept ++ [{| row_id := rowid; user_id := uid; key := k; value := v;
                   data_created_at := now; data_updated_at := now |}];
     last_row_id := rowid |}.

(** Lines 140-147. *)
Definition get_user_data (t : data_table) (uid k : str) : option str :=
  value <$> List.find (keyed uid k) (data_rows t).

(** Lines 149-156: in the dictionary a later row wins. *)
Definition get_all_user_data (t : data_table) (uid : str) : gmap str str :=
  foldl (fun d row => <[key row := value row]> d) ∅
    (List.filter (fun r => bool_decide (user_id r = uid)) (data_rows t)).

End Database.

(** ** The account routes ([routes/auth.py]) *)

Module Auth.

Import Exn Py UserStore Database.

(** The two tables the routes reach. *)
Record tables := Tables {
  users_table : table;
  user_data_table : data_table
}.

(** The body of a sync request: each field is a string, or is missing
    (or [null]). *)
Record sync_body := SyncBody {
  b_clerk_id : option str;
  b_email : option str;
  b_first_name : option str;
  b_last_name : option str;
  b_full_name : option str;
  b_name : option str;
  b_image_url : option str
}.

(** Truth value of [data.get(...)]. *)
Definition given (field : option str) : bool :=
  match field with
  | Some s => truthy s
  | None => false
  end.

(** The six fields of a row that [sync_user] sends back (lines 45-52). *)
Record user_summary := UserSummary {
  s_id : str;
  s_clerk_id : str;
  s_email : str;
  s_full_name : option str;
  s_first_name : option str;
  s_last_name : option str
}.

Definition summary (user : user_row) : user_summary :=
  {| s_id := id user; s_clerk_id := clerk_id user; s_email := email user;
     s_full_name := full_name user; s_first_name := first_name user;
     s_last_name := last_name user |}.

Inductive sync_reply :=
| SyncOk (user : user_summary)   (* 200 *)
| SyncBadRequest                 (* 400: clerk_id and email are required *)
| SyncNoUser                     (* 500: Failed to sync user *)
| SyncError (e : exn).           (* 500: Internal server error *)

Definition sync_status (reply : sync_reply) : Z :=
  match reply with
  | SyncOk _ => 200
  | SyncBadRequest => 400
  | SyncNoUser | SyncError _ => 500
  end.

(** Lines 11-65.  [data] is [None] when the body is no JSON object, so
    that [data.get] raises. *)
Definition sync_user (db : table) (now : Z) (data : option sync_body)
  : table * sync_reply :=
  match data with
  | None => (db, SyncError AttributeError)
  | Some data =>
      if negb (given (b_clerk_id data)) || negb (given (b_email data))
      then (db, SyncBadRequest)
      else
        let clerk_id := default [] (b_clerk_id data) in
        let email := default [] (b_email data) in
        let full_name :=
          if given (b_full_name data) then b_full_name data
          else b_name data in
        match create_or_update_user db now clerk_id email
                (b_first_name data) (b_last_name data) full_name
                (b_image_url data) with
        | (db', Ok (Some user)) => (db', SyncOk (summary user))
        | (db', Ok None) => (db', SyncNoUser)
        | (db', Err e) => (db', SyncError e)
        end
  end.

Inductive get_reply :=
| GetOk (user : user_row)        (* 200 *)
| GetNotFound.                   (* 404 *)

(** Lines 67-99. *)
Definition get_user (db : table) (clerk_id : str) : get_reply :=
  match get_user_by_clerk_id db clerk_id with
  | Some user => GetOk user
  | None => GetNotFound
  end.

Inductive delete_reply :=
| DeleteOk                       (* 200 *)
| DeleteNotFound.                (* 404 *)

(** Lines 101-123. *)
Definition delete_user_endpoint (db : table) (clerk_id : str)
  : table * delete_reply :=
  let '(db', deleted) := delete_user db clerk_id in
  (db', if deleted then DeleteOk else DeleteNotFound).

Inductive http_method := GET | POST | PUT.

Inductive data_reply :=
| DataNoUser                     (* 404 *)
| DataAll (data : gmap str str)  (* 200 *)
| DataMissing                    (* 400: No data provided *)
| DataUpdated                    (* 200 *)
| DataError (e : exn).           (* 500 *)

Section Routes.

Variable py_repr : pyval -> str.

(** Lines 156-157: one [set_user_data] for each item of the body.  The
    order of the items, which a [gmap] does not record, shows only in the
    order of the rows. *)
Definition store_items (t : data_table) (now : Z) (user_id : str)
    (data : dict) : data_table :=
  map_fold
    (fun key value t => set_user_data t now user_id (lit key)
                          (py_str py_repr value))
    t data.

(** Lines 125-169.  [body] is what [request.get_json()] returns. *)
Definition user_data (st : tables) (now : Z) (clerk_id : str)
    (method : http_method) (body : pyval) : tables * data_reply :=
  match get_user_by_clerk_id (users_table st) clerk_id with
  | None => (st, DataNoUser)
  | Some user =>
      let user_id := id user in
      match method with
      | GET => (st, DataAll (get_all_user_data (user_data_table st) user_id))
      | POST | PUT =>
          if negb (truthy_val body) then (st, DataMissing)
          else
            match body with
            | PyDict data =>
                ({| users_table := users_table st;
                    user_data_table :=
                      store_items (user_data_table st) now user_id data |},
                 DataUpdated)
            | _ => (st, DataError AttributeError)
            end
      end
  end.

End Routes.

End Auth.

(** ** The ids of the in-memory stores *)

Module Ids.

(** [str(n)] for an integer. *)
Definition str_of_int (n : Z) : str := lit (pretty n).

(** The entries of a list are numbered 1, 2, ... in order, and [counter]
    is the next number: what holds of every list of a store from the
    start. *)
Definition numbered {A} (get_id : A -> str) (counter : Z) (l : list A)
  : Prop :=
  1 <= counter /\ get_id <$> l = str_of_int <$> seqZ 1 (counter - 1).

End Ids.

(** ** The routes of [routes/exam_prep.py] and their in-memory store *)

Module ExamRoutes.

Import Exn Py ExamPrep Pipeline Ids.

(** An entry of [uploaded_papers] (lines 445-450). *)
Record stored_paper := StoredPaper {
  sp_id : str;
  sp_filename : pyval;
  sp_content : str;
  sp_uploaded_at : Z
}.

(** An entry of [generated_questions] (lines 559-563). *)
Record questions_record := QuestionsRecord {
  qr_id : str;
  qr_questions : list qa;
  qr_generated_at : Z
}.

(** The module's globals (lines 18-21). *)
Record store := Store {
  uploaded_papers : list stored_paper;
  generated_questions : list questions_record;
  paper_id_counter : Z;
  questions_id_counter : Z
}.

(** What [for file in files] walks through.  A dictionary yields its
    keys; in which order is not recorded, and does not matter to a loop
    that fails on the first of them. *)
Definition iterate (files : pyval) : result (list pyval) :=
  match files with
  | PyList items => Ok items
  | PyStr s => Ok ((fun c => PyStr [c]) <$> s)
  | PyDict d => Ok ((fun kv => PyStr (lit kv.1)) <$> map_to_list d)
  | PyNone | PyBool _ | PyInt _ | PyFloat _ => Err TypeError
  end.

(** Line 440: [data.get('files', []) if data else []]. *)
Definition request_files (data : pyval) : result pyval :=
  if negb (truthy_val data) then Ok (PyList [])
  else
    match data with
    | PyDict data => Ok (get data "files" (PyList []))
    | _ => Err AttributeError
    end.

(** Lines 444-454: the loop over the files.  What was appended before an
    element raises stays appended. *)
Fixpoint upload_loop (now : Z) (files : list pyval) (st : store)
    (uploaded_files : list stored_paper)
  : store * result (list stored_paper) :=
  match files with
  | [] => (st, Ok uploaded_files)
  | PyDict file :: rest =>
      let n := paper_id_counter st in
      let paper :=
        {| sp_id := str_of_int n;
           sp_filename :=
             get file "filename"
               (PyStr (lit "previous_year_paper_" ++ str_of_int n
                         ++ lit ".pdf"));
           sp_content := lit "Sample question paper content";
           sp_uploaded_at := now |} in
      upload_loop now rest
        {| uploaded_papers := uploaded_papers st ++ [paper];
           generated_questions := generated_questions st;
           paper_id_counter := n + 1;
           questions_id_counter := questions_id_counter st |}
        (uploaded_files ++ [paper])
  | _ :: _ => (st, Err AttributeError)
  end.

Inductive upload_reply :=
| UploadOk (message : str) (uploadedFiles : list (str * pyval))  (* 200 *)
| UploadFailed.                                                  (* 500 *)

(** Lines 432-466. *)
Definition upload_papers (st : store) (now : Z) (data : pyval)
  : store * upload_reply :=
  match (let* files := request_files data in iterate files) with
  | Err _ => (st, UploadFailed)
  | Ok files =>
      match upload_loop now files st [] with
      | (st', Ok uploaded_files) =>
          (st',
           UploadOk
             (lit "Successfully uploaded "
                ++ str_of_int (Z.of_nat (length uploaded_files))
                ++ lit " question papers")
             ((fun f => (sp_id f, sp_filename f)) <$> uploaded_files))
      | (st', Err _) => (st', UploadFailed)
      end
  end.

(** A stored paper as the loop of lines 500-549 reads it.  It has no
    ['filePath'], so line 506 skips it before its file name is used. *)
Definition paper_of_stored (p : stored_paper) : paper :=
  {| p_filename := match sp_filename p with
                   | PyStr s => Some s
                   | _ => None
                   end;
     p_filePath := None |}.

Inductive generate_reply :=
| GenerateOk (message : str) (questions : list qa)   (* 200 *)
| GenerateNoPapers                                   (* 404 *)
| GenerateNothing.                                   (* 500 *)

Inductive download_reply :=
| DownloadFile (download_name : str) (file : str)    (* 200 *)
| DownloadNotFound                                   (* 404 *)
| DownloadError (e : exn).                           (* 500 *)

Section World.

Variable py_repr : pyval -> str.
Variable float_of_str : str -> option float.
Variable json_loads : str -> result pyval.
Variable groq_chat : str -> result str.
Variable groq_api_key : option str.
Variable fs : str -> option fsnode.
Variable pdf_page_texts : str -> result (list (result str)).
Variable docx_raw_text : str -> result str.
Variable utf8_decode : str -> result str.
(** python-docx on the record of lines 597-620: the bytes of the saved
    document, or what it raised. *)
Variable questions_docx : questions_record -> result str.

Let paper_questions :=
  paper_questions py_repr float_of_str json_loads groq_chat groq_api_key fs
    pdf_page_texts docx_raw_text utf8_decode.

(** Lines 481-487: the papers of the request, or else the stored papers
    the request names, all of them if it names none. *)
Definition papers_data (st : store) (papers : list paper)
    (paper_ids : list str) : list paper :=
  match papers with
  | _ :: _ => papers
  | [] =>
      paper_of_stored
        <$> List.filter
              (fun p => match paper_ids with
                        | [] => true
                        | _ => bool_decide (sp_id p ∈ paper_ids)
                        end)
              (uploaded_papers st)
  end.

(** Lines 468-583, for a body whose ['papers'] are objects with string
    (or missing) ['filename'] and ['filePath'], and whose ['paperIds'] is
    a list of strings; a missing field is the empty list. *)
Definition generate_questions (st : store) (now : Z) (papers : list paper)
    (paper_ids : list str) : store * generate_reply :=
  let papers_data := papers_data st papers paper_ids in
  match papers_data with
  | [] => (st, GenerateNoPapers)
  | _ =>
      let all_questions := flat_map paper_questions papers_data in
      match all_questions with
      | [] => (st, GenerateNothing)
      | _ =>
          let questions_record :=
            {| qr_id := str_of_int (questions_id_counter st);
               qr_questions := all_questions;
               qr_generated_at := now |} in
          ({| uploaded_papers := uploaded_papers st;
              generated_questions :=
                generated_questions st ++ [questions_record];
              paper_id_counter := paper_id_counter st;
              questions_id_counter := questions_id_counter st + 1 |},
           GenerateOk
             (lit "Generated " ++ str_of_int (Z.of_nat (length all_questions))
                ++ lit " questions from "
                ++ str_of_int (Z.of_nat (length papers_data)) ++ lit " papers")
             all_questions)
      end
  end.

(** Lines 585-634. *)
Definition download_questions (st : store) (questions_id : str)
  : download_reply :=
  match List.find (fun q => bool_decide (qr_id q = questions_id))
          (generated_questions st) with
  | None => DownloadNotFound
  | Some questions_record =>
      match questions_docx questions_record with
      | Ok file =>
          DownloadFile (lit "exam_questions_" ++ questions_id ++ lit ".docx")
            file
      | Err e => DownloadError e
      end
  end.

End World.

End ExamRoutes.

(** ** The fonts of the PDF export *)

Module PdfFonts.

(** The eight fonts of the two families the PDF export maps to. *)
Definition STANDARD_FONTS : list str :=
  [lit "Helvetica"; lit "Helvetica-Bold"; lit "Helvetica-Oblique";
   lit "Helvetica-BoldOblique"; lit "Times-Roman"; lit "Times-Bold";
   lit "Times-Italic"; lit "Times-BoldItalic"].

End PdfFonts.

(** ** The routes of [routes/word_editor.py] that edit and send a stored
       document *)

Module EditorRoutes.

Import Exn Py WordEditor.

(** An entry of [documents] (lines 372-378).  The file name and the
    content are strings and the formatting is a dictionary in every entry
    the routes make. *)
Record document := Document {
  doc_id : str;
  doc_filename : str;
  doc_content : str;
  doc_uploaded_at : Z;
  doc_formatting : dict
}.

(** The dictionary an entry is, as the builders read it. *)
Definition as_doc (d : document) : dict :=
  list_to_map
    [("id", PyStr (doc_id d));
     ("filename", PyStr (doc_filename d));
     ("content", PyStr (doc_content d));
     ("uploaded_at", PyInt (doc_uploaded_at d));
     ("formatting", PyDict (doc_formatting d))]%string.

(** The module's globals (lines 18-19). *)
Record store := Store {
  documents : list document;
  doc_id_counter : Z
}.

(** [s == v] for a string [s]. *)
Definition is_str (v : pyval) (s : str) : bool :=
  match v with
  | PyStr s' => bool_decide (s = s')
  | _ => false
  end.

(** [next((d for d in documents if d['id'] == document_id), None)], with
    the position of the entry found. *)
Fixpoint find_document (documents : list document) (document_id : pyval)
  : option (nat * document) :=
  match documents with
  | [] => None
  | d :: rest =>
      if is_str document_id (doc_id d) then Some (0%nat, d)
      else
        match find_document rest document_id with
        | Some (k, d') => Some (S k, d')
        | None => None
        end
  end.

(** [name.rsplit('.', 1)[0]] *)
Definition rsplit_dot (name : str) : str :=
  let dot := rfind (lit ".") name in
  if 0 <=? dot then slice name 0 dot else name.

Inductive edit_reply :=
| EditOk (preview : str)                   (* 200 *)
| EditNotFound                             (* 404 *)
| EditError (e : exn).                     (* 500 *)

Inductive file_reply :=
| SendDocx (download_name : str) (file : docx_document)   (* 200 *)
| SendPdf (download_name : str) (file : pdf_document)     (* 200 *)
| FileNotFound                                            (* 404 *)
| FileError (e : exn).                                    (* 500 *)



Section Routes.

Variable float_of_str : str -> option float.
Variable rgb_from_string : str -> option (Z * Z * Z).
Variable HexColor : pyval -> result (Z * Z * Z).
Variable run_text_error : str -> option exn.
Variable font_name_error : str -> option exn.
Variable markup_error : str -> option exn.

(** Lines 399-436. *)
Definition edit_doc (st : store) (data : pyval) : store * edit_reply :=
  match as_dict data with
  | Err e => (st, EditError e)
  | Ok data =>
      let document_id := get data "documentId" PyNone in
      let formatting := get data "formatting" (PyDict ∅) in
      let content := get data "content" PyNone in
      match find_document (documents st) document_id with
      | None => (st, EditNotFound)
      | Some (k, doc) =>
          match merge_formatting float_of_str (doc_formatting doc)
                  formatting with
          | Err e => (st, EditError e)
          | Ok merged =>
              let doc' :=
                {| doc_id := doc_id doc;
                   doc_filename := doc_filename doc;
                   doc_content := match content with
                                  | PyStr content => content
                                  | _ => doc_content doc
                                  end;
                   doc_uploaded_at := doc_uploaded_at doc;
                   doc_formatting := merged |} in
              ({| documents := <[k := doc']> (documents st);
                  doc_id_counter := doc_id_counter st |},
               EditOk (doc_content doc'))
          end
      end
  end.

(** Lines 438-479.  [format] is the query parameter, if any. *)
Definition download_doc (st : store) (document_id : str)
    (format : option str) : file_reply :=
  match find_document (documents st) (PyStr document_id) with
  | None => FileNotFound
  | Some (_, doc) =>
      let export_format := lower (default (lit "docx") format) in
      let original_name := doc_filename doc in
      if bool_decide (export_format = lit "pdf") then
        match build_pdf_document float_of_str HexColor markup_error
                (as_doc doc) with
        | Ok file_buffer =>
            SendPdf (rsplit_dot original_name ++ lit "_edited.pdf")
              file_buffer
        | Err e => FileError e
        end
      else
        match build_docx_document float_of_str rgb_from_string
                run_text_error font_name_error (as_doc doc) with
        | Ok file_buffer =>
            SendDocx (rsplit_dot original_name ++ lit "_edited.docx")
              file_buffer
        | Err e => FileError e
        end
  end.

End Routes.

End EditorRoutes.

(** ** More concrete worlds for the examples *)

Module MoreExamples.

Import Exn Py ExamPrep Pipeline UserStore WordEditor Examples.
Import Database Auth Ids.

(** A text of 7000 characters, cut into two windows. *)
Definition two_window_text : str := repeat "a"%char (Z.to_nat 7000).

(** A response with text around its array. *)
Definition chatty_response : str := lit "Here you are: [1, 2] Enjoy!".

(** A scanned PDF of two pages: one blank, one that cannot be read. *)
Definition scan_path : str := lit "/tmp/scan.pdf".
Definition scan_bytes : str := lit "%PDF-1.4".
Definition scan_disk (p : str) : option fsnode :=
  if bool_decide (p = scan_path) then Some (RegularFile scan_bytes) else None.
Definition scan_pages (bytes : str) : result (list (result str)) :=
  Ok [Ok (lit "  "); Err (LibraryError (lit "page cannot be read"))].
Definition scan_paper : paper :=
  {| p_filename := Some (lit "Scan.PDF"); p_filePath := Some scan_path |}.


(** A chat endpoint with one reply, and a [json.loads] that knows that
    reply: the array of the one object [bare_record]. *)
Definition canned_reply : str := lit "[{...}]".
Definition groq_canned (chunk : str) : result str := Ok canned_reply.
Definition loads_canned (s : str) : result pyval :=
  if bool_decide (s = canned_reply) then Ok (PyList [PyDict bare_record])
  else Err (ValueError (lit "Expecting value: line 1 column 1 (char 0)")).
(** A python-docx that writes two bytes. *)
Definition docx_stub (r : ExamRoutes.questions_record) : result str :=
  Ok (lit "PK").

(** The store of the exam routes at start, and after one generation. *)
Definition empty_store : ExamRoutes.store :=
  {| ExamRoutes.uploaded_papers := [];
     ExamRoutes.generated_questions := [];
     ExamRoutes.paper_id_counter := 1;
     ExamRoutes.questions_id_counter := 1 |}.
Definition one_record_store : ExamRoutes.store :=
  {| ExamRoutes.uploaded_papers := [];
     ExamRoutes.generated_questions :=
       [{| ExamRoutes.qr_id := lit "1";
           ExamRoutes.qr_questions := [bare_normalized];
           ExamRoutes.qr_generated_at := 5 |}];
     ExamRoutes.paper_id_counter := 1;
     ExamRoutes.questions_id_counter := 2 |}.

(** An upload of two files, the second without a name; and one whose
    second file is a number. *)
Definition two_files : pyval :=
  PyDict {[ "files"%string :=
              PyList [PyDict {[ "filename"%string := PyStr (lit "a.pdf") ]};
                      PyDict ∅] ]}.
Definition broken_files : dict :=
  {[ "files"%string := PyList [PyDict ∅; PyInt 5] ]}.

(** One stored preference of [alice]. *)
Definition theme_row : data_row :=
  {| row_id := 1; user_id := lit "user_a"; key := lit "theme";
     value := lit "dark"; data_created_at := 1; data_updated_at := 1 |}.
Definition prefs : data_table :=
  {| data_rows := [theme_row]; last_row_id := 1 |}.
Definition alice_tables : tables :=
  {| users_table := [alice]; user_data_table := prefs |}.
Definition light_theme : dict := {[ "theme"%string := PyStr (lit "light") ]}.
Definition alice_body : sync_body :=
  {| b_clerk_id := Some (lit "user_a"); b_email := Some (lit "a@x.org");
     b_first_name := None; b_last_name := None; b_full_name := None;
     b_name := None; b_image_url := None |}.

(** Margins before, in a request, and after the merge. *)
Definition narrow_top : dict :=
  {[ "margins"%string := PyDict {[ "top"%string := PyInt 1 ]} ]}.
Definition wide_top : dict :=
  {[ "margins"%string := PyDict {[ "top"%string := PyInt 2 ]} ]}.
Definition merged_top : dict :=
  {[ "margins"%string := PyDict {[ "top"%string := PyFloat 2 ]} ]}.

(** A stored document of two lines and a blank one between them, under
    the default formatting, and the store that holds it. *)
Definition cv_content : str :=
  lit "RESUME" ++ [newline; newline] ++ lit "John Doe".
Definition cv_document : EditorRoutes.document :=
  {| EditorRoutes.doc_id := lit "1";
     EditorRoutes.doc_filename := lit "My_CV.docx";
     EditorRoutes.doc_content := cv_content;
     EditorRoutes.doc_uploaded_at := 7;
     EditorRoutes.doc_formatting := DEFAULT_FORMATTING |}.
Definition cv_store : EditorRoutes.store :=
  {| EditorRoutes.documents := [cv_document];
     EditorRoutes.doc_id_counter := 2 |}.
Definition unknown_request : dict :=
  {[ "documentId"%string := PyStr (lit "7") ]}.

(** A line with a tag that is never closed, and a document whose
    content ends in a control character. *)
Definition unclosed_tag : str := lit "a <b>bold".
Definition bell_document : EditorRoutes.document :=
  {| EditorRoutes.doc_id := lit "2";
     EditorRoutes.doc_filename := lit "bell.txt";
     EditorRoutes.doc_content := lit "ring" ++ [ascii_of_N 7];
     EditorRoutes.doc_uploaded_at := 8;
     EditorRoutes.doc_formatting := DEFAULT_FORMATTING |}.
Definition bell_store : EditorRoutes.store :=
  {| EditorRoutes.documents := [cv_document; bell_document];
     EditorRoutes.doc_id_counter := 3 |}.

End MoreExamples.

(** * Properties *)

(** ** Facts about the string helpers *)

Module PyStrFacts.

Lemma length_lstrip (s : str) : (length (lstrip s) <= length s)%nat.
Proof.
  induction s as [|c s IH]; simpl; [lia|].
  destruct (is_space c); simpl; lia.
Qed.

Lemma length_rstrip (s : str) : (length (rstrip s) <= length s)%nat.
Proof.
  unfold rstrip. rewrite length_reverse.
  etransitivity; [apply length_lstrip|]. by rewrite length_reverse.
Qed.

Lemma len_strip (s : str) : len (strip s) <= len s.
Proof.
  unfold len, strip. apply inj_le.
  etransitivity; [apply length_rstrip|apply length_lstrip].
Qed.

Lemma len_nonneg (s : str) : 0 <= len s.
Proof. unfold len. lia. Qed.

Lemma clip_range (n i : Z) : 0 <= n -> 0 <= clip n i <= n.
Proof. unfold clip. destruct (Z.ltb_spec i 0); lia. Qed.

Lemma clip_id (n i : Z) : 0 <= i <= n -> clip n i = i.
Proof. unfold clip. destruct (Z.ltb_spec i 0); lia. Qed.

Lemma clip_above (n i : Z) : 0 <= n <= i -> clip n i = n.
Proof. unfold clip. destruct (Z.ltb_spec i 0); lia. Qed.

(** A slice is never longer than its bounds allow. *)
Lemma len_slice_le (s : str) (lo hi : Z) :
  0 <= lo -> 0 <= hi -> len (slice s lo hi) <= Z.max 0 (hi - lo).
Proof.
  intros Hlo Hhi. unfold slice, len, clip.
  rewrite length_take, length_drop.
  destruct (Z.ltb_spec lo 0), (Z.ltb_spec hi 0); lia.
Qed.

Lemma len_slice_le_len (s : str) (lo hi : Z) : len (slice s lo hi) <= len s.
Proof.
  unfold slice, len. rewrite length_take, length_drop. lia.
Qed.

(** Inside the string, a slice has exactly the length of its bounds. *)
Lemma len_slice (s : str) (lo hi : Z) :
  0 <= lo <= hi -> hi <= len s -> len (slice s lo hi) = hi - lo.
Proof.
  intros Hlo Hhi. unfold slice.
  rewrite !clip_id by lia. unfold len in *.
  rewrite length_take, length_drop. lia.
Qed.

(** A prefix of a slice is a slice. *)
Lemma slice_slice_prefix (s : str) (lo hi n : Z) :
  0 <= lo <= hi -> hi <= len s -> 0 <= n ->
  slice (slice s lo hi) 0 n = slice s lo (lo + Z.min n (hi - lo)).
Proof.
  intros Hlo Hhi Hn.
  assert (Hlen := len_slice s lo hi Hlo Hhi).
  unfold slice at 1. rewrite Hlen.
  rewrite (clip_id _ 0) by lia.
  assert (clip (hi - lo) n = Z.min n (hi - lo)) as ->
    by (unfold clip; destruct (Z.ltb_spec n 0); lia).
  unfold slice. rewrite !clip_id by lia.
  rewrite drop_0, take_take. f_equal. lia.
Qed.

Lemma startswith_length (s p : str) :
  startswith s p = true -> (length p <= length s)%nat.
Proof.
  revert s. induction p as [|a p IH]; intros [|b s] E; simpl in *;
    try lia; try discriminate.
  destruct (ascii_dec a b); [|discriminate].
  specialize (IH s E). lia.
Qed.

Lemma rfind_from_range (sub s : str) (i : Z) :
  rfind_from sub s i = -1
  \/ i <= rfind_from sub s i <= i + len s - len sub.
Proof.
  revert i. induction s as [|c s IH]; intros i; cbn [rfind_from].
  - destruct (startswith [] sub) eqn:E; [right | by left].
    apply startswith_length in E. unfold len. lia.
  - destruct (IH (i + 1)) as [H | H].
    + rewrite H. cbn [Z.leb Z.compare].
      destruct (startswith (c :: s) sub) eqn:E; [right | by left].
      apply startswith_length in E. unfold len. lia.
    + destruct (Z.leb_spec 0 (rfind_from sub s (i + 1))).
      * right. unfold len in *. simpl length. lia.
      * destruct (startswith (c :: s) sub) eqn:E; [right | by left].
        apply startswith_length in E. unfold len. lia.
Qed.

(** [rfind] answers [-1] or an offset at which [sub] fits. *)
Lemma rfind_range (sub s : str) :
  rfind sub s = -1 \/ 0 <= rfind sub s <= len s - len sub.
Proof. apply (rfind_from_range sub s 0). Qed.





Lemma startswith_app (u post : str) : startswith (u ++ post) u = true.
Proof.
  induction u as [|a u IH]; simpl; [by destruct post|].
  by destruct (ascii_dec a a).
Qed.

Lemma find_from_occurs (u pre post : str) (i : Z) :
  i <= find_from u (pre ++ u ++ post) i.
Proof.
  revert i. induction pre as [|c pre IH]; intros i.
  - simpl app. destruct (u ++ post) eqn:E; cbn [find_from];
      rewrite <- E, startswith_app; lia.
  - simpl app. cbn [find_from].
    destruct (startswith (c :: pre ++ u ++ post) u); [lia|].
    specialize (IH (i + 1)). lia.
Qed.

(** [sub in s] holds of every string in which [sub] occurs. *)
Lemma contains_occurs (u s : str) : occurs u s -> contains u s = true.
Proof.
  intros (pre & post & ->). unfold contains, find.
  pose proof (find_from_occurs u pre post 0). by apply Z.leb_le.
Qed.








Lemma startswith_prefix (s p : str) :
  startswith s p = true <-> exists post, s = p ++ post.
Proof.
  split.
  - revert s. induction p as [|a p IH]; intros s H; [by exists s|].
    destruct s as [|b s]; [done|]. simpl in H.
    destruct (ascii_dec a b) as [->|]; [|done].
    destruct (IH s H) as [post ->]. by exists post.
  - intros [post ->]. apply startswith_app.
Qed.

(** [find] answers [-1] when [sub] starts nowhere in [s], and otherwise
    the first offset at which it starts. *)
Lemma find_from_first (sub s : str) (i : Z) :
  (find_from sub s i = -1
   /\ forall j : nat, (j <= length s)%nat -> startswith (drop j s) sub = false)
  \/ exists k : nat,
       find_from sub s i = i + Z.of_nat k
       /\ (k <= length s)%nat
       /\ startswith (drop k s) sub = true
       /\ forall j : nat, (j < k)%nat -> startswith (drop j s) sub = false.
Proof.
  revert i. induction s as [|c s IH]; intros i.
  - cbn [find_from]. destruct (startswith [] sub) eqn:E.
    + right. exists 0%nat. repeat split; [lia|done|done|lia].
    + left. split; [done|]. intros j Hj. by rewrite drop_nil.
  - cbn [find_from]. destruct (startswith (c :: s) sub) eqn:E.
    + right. exists 0%nat. repeat split; [lia|simpl; lia|done|lia].
    + destruct (IH (i + 1)) as [[Hr Hnone] | (k & Hr & Hk & Hat & Hbefore)].
      * left. split; [done|]. intros [|j] Hj; [done|].
        apply Hnone. simpl in Hj. lia.
      * right. exists (S k). repeat split; [lia|simpl; lia|done|].
        intros [|j] Hj; [done|]. apply Hbefore. lia.
Qed.

Lemma find_first (sub s : str) :
  (find sub s = -1
   /\ forall j : nat, (j <= length s)%nat -> startswith (drop j s) sub = false)
  \/ exists k : nat,
       find sub s = Z.of_nat k
       /\ (k <= length s)%nat
       /\ startswith (drop k s) sub = true
       /\ forall j : nat, (j < k)%nat -> startswith (drop j s) sub = false.
Proof. apply (find_from_first sub s 0). Qed.

(** [rfind] answers [-1] when [sub] starts nowhere in [s], and otherwise
    the last offset at which it starts. *)
Lemma rfind_from_last (sub s : str) (i : Z) :
  0 <= i ->
  (rfind_from sub s i = -1
   /\ forall j : nat, (j <= length s)%nat -> startswith (drop j s) sub = false)
  \/ exists k : nat,
       rfind_from sub s i = i + Z.of_nat k
       /\ (k <= length s)%nat
       /\ startswith (drop k s) sub = true
       /\ forall j : nat,
            (k < j <= length s)%nat -> startswith (drop j s) sub = false.
Proof.
  revert i. induction s as [|c s IH]; intros i Hi.
  - cbn [rfind_from]. destruct (startswith [] sub) eqn:E.
    + right. exists 0%nat. repeat split; [lia|done|done|].
      simpl. lia.
    + left. split; [done|]. intros j Hj. by rewrite drop_nil.
  - cbn [rfind_from].
    destruct (IH (i + 1) ltac:(lia))
      as [[Hr Hnone] | (k & Hr & Hk & Hat & Hafter)].
    + rewrite Hr. cbn [Z.leb Z.compare].
      destruct (startswith (c :: s) sub) eqn:E.
      * right. exists 0%nat. repeat split; [lia|simpl; lia|done|].
        intros [|j] Hj; [lia|]. apply Hnone. simpl in Hj. lia.
      * left. split; [done|]. intros [|j] Hj; [done|].
        apply Hnone. simpl in Hj. lia.
    + rewrite Hr. destruct (Z.leb_spec 0 (i + 1 + Z.of_nat k)); [|lia].
      right. exists (S k). repeat split; [lia|simpl; lia|done|].
      intros [|j] Hj; [lia|]. apply Hafter. simpl in Hj. lia.
Qed.

Lemma rfind_last (sub s : str) :
  (rfind sub s = -1
   /\ forall j : nat, (j <= length s)%nat -> startswith (drop j s) sub = false)
  \/ exists k : nat,
       rfind sub s = Z.of_nat k
       /\ (k <= length s)%nat
       /\ startswith (drop k s) sub = true
       /\ forall j : nat,
            (k < j <= length s)%nat -> startswith (drop j s) sub = false.
Proof. apply (rfind_from_last sub s 0). lia. Qed.

(** [sub in s] holds exactly of the strings in which [sub] occurs. *)
Lemma contains_iff (u s : str) : contains u s = true <-> occurs u s.
Proof.
  split; [|apply contains_occurs].
  unfold contains. intros H. apply Z.leb_le in H.
  destruct (find_first u s) as [[Hr _] | (k & _ & Hk & Hat & _)]; [lia|].
  apply startswith_prefix in Hat as [post Hpost].
  exists (take k s), post. by rewrite <- Hpost, take_drop.
Qed.

End PyStrFacts.

(** ** Chunking: bounds, overlap and termination *)

Module ChunkingProps.

Import Chunking PyStrFacts.

Lemma find_boundary_range (chunk : str) (chunk_end : Z) :
  find_boundary chunk chunk_end = -1
  \/ 0 <= find_boundary chunk chunk_end <= len chunk - 1.
Proof.
  unfold find_boundary.
  repeat match goal with
         | |- context [if ?b then _ else _] => destruct b
         end;
    try (by left);
    match goal with
    | |- context [rfind ?sub chunk] =>
        destruct (rfind_range sub chunk) as [H | H];
        [by left | right; unfold len in *; simpl in *; lia]
    end.
Qed.

(** The three ways through the loop body. *)
Lemma window_step_final (text : str) (i : Z) :
  len text <= i + MAX_CHUNK_SIZE ->
  window_step text i = (slice text i (len text), len text).
Proof.
  intros H. unfold window_step.
  rewrite Z.min_r by lia.
  by rewrite Z.ltb_irrefl.
Qed.

Lemma window_step_raw (text : str) (i : Z) :
  let chunk_end := i + MAX_CHUNK_SIZE in
  chunk_end < len text ->
  find_boundary (slice text i chunk_end) chunk_end <= chunk_end - 1000 ->
  window_step text i = (slice text i chunk_end, chunk_end - OVERLAP_SIZE).
Proof.
  intros chunk_end H Hb. unfold window_step.
  rewrite Z.min_l by (subst chunk_end; lia). fold chunk_end.
  destruct (Z.ltb_spec chunk_end (len text)); [|lia].
  destruct (Z.gtb_spec (find_boundary (slice text i chunk_end) chunk_end)
              (chunk_end - 1000)); [lia|done].
Qed.

Lemma window_step_boundary (text : str) (i : Z) :
  let chunk_end := i + MAX_CHUNK_SIZE in
  let chunk := slice text i chunk_end in
  let boundary := find_boundary chunk chunk_end in
  chunk_end < len text ->
  chunk_end - 1000 < boundary ->
  window_step text i
  = (slice chunk 0 (boundary + 1), i + boundary + 1 - OVERLAP_SIZE).
Proof.
  intros chunk_end chunk boundary H Hb. unfold window_step.
  rewrite Z.min_l by (subst chunk_end; lia).
  fold chunk_end. fold chunk. fold boundary.
  destruct (Z.ltb_spec chunk_end (len text)); [|lia].
  destruct (Z.gtb_spec boundary (chunk_end - 1000)); [done|lia].
Qed.

(** What one pass guarantees about the chunk it cuts and the next start. *)
Lemma window_step_spec (text : str) (i : Z) :
  0 <= i < len text ->
  let chunk := (window_step text i).1 in
  let i' := (window_step text i).2 in
  i < i' <= len text
  /\ len chunk <= MAX_CHUNK_SIZE
  /\ i + len chunk <= len text
  /\ i + len chunk - OVERLAP_SIZE <= i'
  /\ chunk = slice text i (i + len chunk).
Proof.
  intros Hi. unfold MAX_CHUNK_SIZE, OVERLAP_SIZE in *.
  destruct (Z.le_gt_cases (len text) (i + MAX_CHUNK_SIZE)) as [Hfin | Hmore].
  - rewrite (window_step_final text i Hfin). cbn [fst snd].
    unfold MAX_CHUNK_SIZE in *.
    rewrite (len_slice text i (len text)) by lia.
    repeat split; try lia. f_equal. lia.
  - set (chunk_end := i + MAX_CHUNK_SIZE) in *.
    set (chunk := slice text i chunk_end).
    set (boundary := find_boundary chunk chunk_end).
    assert (len chunk = 6000) as Hlen
      by (unfold chunk, chunk_end, MAX_CHUNK_SIZE in *;
          rewrite len_slice; lia).
    destruct (Z.le_gt_cases boundary (chunk_end - 1000)) as [Hno | Hyes].
    + rewrite (window_step_raw text i Hmore Hno). cbn [fst snd].
      fold chunk_end. fold chunk.
      unfold chunk_end, MAX_CHUNK_SIZE, OVERLAP_SIZE in *.
      repeat split; try lia. rewrite Hlen. done.
    + rewrite (window_step_boundary text i Hmore Hyes). cbn [fst snd].
      fold chunk_end. fold chunk. fold boundary.
      destruct (find_boundary_range chunk chunk_end) as [Hb | Hb];
        fold boundary in Hb;
        unfold chunk_end, MAX_CHUNK_SIZE, OVERLAP_SIZE in *; [lia|].
      assert (slice chunk 0 (boundary + 1)
              = slice text i (i + (boundary + 1))) as Hcut.
      { unfold chunk. rewrite slice_slice_prefix by lia.
        f_equal. lia. }
      rewrite Hcut.
      rewrite (len_slice text i (i + (boundary + 1))) by lia.
      repeat split; try lia. f_equal. lia.
Qed.

Lemma loop_inv_init (text : str) : loop_inv text init_state.
Proof.
  split; simpl; try done; try lia.
  pose proof (len_nonneg text). lia.
Qed.

Lemma loop_body_inv (text : str) (st : loop_state) :
  loop_inv text st -> st_i st < len text ->
  loop_inv text (loop_body text st) /\ st_i st < st_i (loop_body text st).
Proof.
  intros [Hi Hcount Hemit Hflat Hchunks Hwin Hlast Hadj] Hlt.
  destruct (window_step_spec text (st_i st) ltac:(lia))
    as (Hprog & Hlen & Hend & Hnext & Hraw).
  unfold loop_body.
  destruct (window_step text (st_i st)) as [chunk i'] eqn:E.
  cbn [fst snd] in *. split; [|cbn; lia].
  pose proof (len_nonneg chunk) as Hnn.
  split; cbn [st_i st_chunks st_windows].
  - lia.
  - rewrite length_app. simpl. lia.
  - rewrite length_app. simpl.
    destruct (truthy (strip chunk)); [rewrite length_app; simpl|]; lia.
  - rewrite flat_map_app, <- Hflat. cbn [flat_map]. unfold emitted.
    cbn [w_raw]. rewrite app_nil_r.
    destruct (truthy (strip chunk)); [done|by rewrite app_nil_r].
  - destruct (truthy (strip chunk)); [|done].
    apply Forall_app; split; [done|].
    apply Forall_singleton. pose proof (len_strip chunk). lia.
  - apply Forall_app; split; [done|].
    apply Forall_singleton. unfold w_end. cbn. repeat split; [lia|lia|done].
  - intros w. rewrite last_snoc. intros [= <-]. unfold w_end. cbn. lia.
  - intros k a b Ha Hb.
    destruct (decide (S k < length (st_windows st))%nat) as [Hk | Hk].
    + rewrite lookup_app_l in Ha by lia.
      rewrite lookup_app_l in Hb by lia. eauto.
    + assert (S k = length (st_windows st)) as Hk'.
      { apply lookup_lt_Some in Hb. rewrite length_app in Hb.
        simpl in Hb. lia. }
      rewrite lookup_app_l in Ha by lia.
      rewrite lookup_app_r in Hb by lia.
      rewrite Hk', Nat.sub_diag in Hb. simpl in Hb. injection Hb as <-.
      assert (last (st_windows st) = Some a) as Hla.
      { rewrite last_lookup. rewrite <- Hk'. simpl. done. }
      destruct (Hlast a Hla) as [Hs He].
      unfold overlap, w_end in *. cbn. unfold OVERLAP_SIZE in *. lia.
Qed.

Lemma chunk_loop_inv (fuel : nat) (text : str) (st st' : loop_state) :
  loop_inv text st -> chunk_loop fuel text st = Some st' ->
  loop_inv text st' /\ st_i st' = len text.
Proof.
  revert st. induction fuel as [|fuel IH]; intros st Hinv Hrun; [done|].
  cbn [chunk_loop] in Hrun.
  destruct (Z.ltb_spec (st_i st) (len text)) as [Hlt | Hge].
  - apply (IH (loop_body text st)); [|done].
    by apply loop_body_inv.
  - injection Hrun as <-. split; [done|]. destruct Hinv. lia.
Qed.

Lemma chunk_loop_total (fuel : nat) (text : str) (st : loop_state) :
  loop_inv text st ->
  (Z.to_nat (len text - st_i st) < fuel)%nat ->
  is_Some (chunk_loop fuel text st).
Proof.
  revert st. induction fuel as [|fuel IH]; intros st Hinv Hfuel; [lia|].
  cbn [chunk_loop].
  destruct (Z.ltb_spec (st_i st) (len text)) as [Hlt | Hge]; [|done].
  destruct (loop_body_inv text st Hinv Hlt) as [Hinv' Hprog].
  apply IH; [done|]. lia.
Qed.

Lemma chunk_loop_init_total (text : str) :
  exists st, chunk_loop (S (length text)) text init_state = Some st.
Proof.
  apply (chunk_loop_total _ text init_state (loop_inv_init text)).
  unfold len. simpl. lia.
Qed.

(** The chunking step always returns. *)
Lemma chunk_text_total (text : str) :
  exists chunks, chunk_text text = Some chunks.
Proof.
  unfold chunk_text. destruct (len text >? MAX_CHUNK_SIZE); [|by eexists].
  destruct (chunk_loop_init_total text) as [st ->]. by eexists.
Qed.

(** Past offset 999 a window that is not the last one is always cut at
    the raw limit: the offsets [rfind] returns are below 6000, and they are
    compared with [chunk_end - 1000], which is at least 6000 there. *)
Lemma later_windows_cut_raw (text : str) (i : Z) :
  999 <= i -> i + MAX_CHUNK_SIZE < len text ->
  window_step text i
  = (slice text i (i + MAX_CHUNK_SIZE), i + MAX_CHUNK_SIZE - OVERLAP_SIZE).
Proof.
  intros Hi Hmore. apply window_step_raw; [done|].
  pose proof (len_slice_le text i (i + MAX_CHUNK_SIZE)) as Hlen.
  destruct (find_boundary_range (slice text i (i + MAX_CHUNK_SIZE))
              (i + MAX_CHUNK_SIZE)) as [-> | Hb];
    unfold MAX_CHUNK_SIZE in *; lia.
Qed.

(** C1 (code evaluated at the failing input): in a text of 11000 letters,
    a question mark and 999 more letters, the second window starts at
    offset 5200 and holds the question mark at its offset 5800, inside its
    last 1000 characters; the window is nevertheless cut at the raw limit
    of 6000 characters and the third window starts at 10400. *)
Example second_window_ignores_question_mark :
  option_map
    (map (fun w => (w_start w, len (w_raw w), rfind (lit "?") (w_raw w))))
    (chunk_windows
       (repeat "a"%char (Z.to_nat 11000) ++ lit "?" ++ repeat "a"%char 999))
  = Some [(0, 6000, -1); (5200, 6000, 5800); (10400, 1600, 600)].
Proof. vm_compute. reflexivity. Qed.

(** C2: a text of at most 6000 characters is its own single chunk; a
    longer text yields chunks of at most 6000 characters each, every chunk
    being the stripped text of a window, and two consecutive windows share
    at most 800 positions of the text. *)
Theorem chunk_text_bounds (text : str) :
  (len text <= 6000 -> chunk_text text = Some [text])
  /\ (6000 < len text ->
      exists chunks windows,
        chunk_text text = Some chunks
        /\ chunk_windows text = Some windows
        /\ chunks = flat_map emitted windows
        /\ Forall (fun w => w_raw w = slice text (w_start w) (w_end w)) windows
        /\ Forall (fun c => len c <= 6000) chunks
        /\ forall (k : nat) a b,
             windows !! k = Some a -> windows !! S k = Some b ->
             overlap a b <= 800).
Proof.
  split; intros Hlen; unfold chunk_text, chunk_windows, MAX_CHUNK_SIZE.
  - destruct (Z.gtb_spec (len text) 6000); [lia|done].
  - destruct (Z.gtb_spec (len text) 6000); [|lia].
    destruct (chunk_loop_init_total text) as [st Hst].
    destruct (chunk_loop_inv _ _ _ _ (loop_inv_init text) Hst)
      as [[_ _ _ Hflat Hchunks Hwin _ Hadj] _].
    exists (st_chunks st), (st_windows st). rewrite Hst.
    repeat split; try done.
    eapply Forall_impl; [exact Hwin|]. by intros w (_ & _ & ?).
Qed.

(** C3: every pass through the loop body moves the window start forward:
    by 5200 when no boundary is taken, by [boundary + 1 - 800 > 0] when one
    is, and to the end of the text on the last window.  Hence the loop,
    run from [i = 0], stops within [len(text)] passes, and yields at most
    that many windows and chunks. *)
Theorem chunk_loop_terminates (text : str) :
  (forall i, 0 <= i < len text ->
     let chunk_end := Z.min (i + MAX_CHUNK_SIZE) (len text) in
     let boundary := find_boundary (slice text i chunk_end) chunk_end in
     let i' := (window_step text i).2 in
     i < i'
     /\ (chunk_end < len text -> boundary <= chunk_end - 1000 ->
         i' = i + (MAX_CHUNK_SIZE - OVERLAP_SIZE) /\ i' = i + 5200)
     /\ (chunk_end < len text -> chunk_end - 1000 < boundary ->
         i' = i + (boundary + 1 - OVERLAP_SIZE)
         /\ 0 < boundary + 1 - OVERLAP_SIZE)
     /\ (len text <= chunk_end -> i' = len text))
  /\ exists st,
       chunk_loop (S (length text)) text init_state = Some st
       /\ (length (st_chunks st) <= length (st_windows st) <= length text)%nat.
Proof.
  split.
  - intros i Hi chunk_end boundary i'.
    destruct (window_step_spec text i Hi) as (Hprog & _).
    split; [subst i'; lia|].
    subst chunk_end boundary i'. unfold MAX_CHUNK_SIZE, OVERLAP_SIZE.
    split; [|split].
    + intros Hmore Hno.
      assert (Z.min (i + 6000) (len text) = i + 6000) as Hmin by lia.
      rewrite Hmin in *.
      rewrite (window_step_raw text i Hmore Hno). cbn.
      unfold OVERLAP_SIZE, MAX_CHUNK_SIZE. lia.
    + intros Hmore Hyes.
      assert (Z.min (i + 6000) (len text) = i + 6000) as Hmin by lia.
      rewrite Hmin in *.
      rewrite (window_step_boundary text i Hmore Hyes). cbn.
      unfold OVERLAP_SIZE, MAX_CHUNK_SIZE. lia.
    + intros Hfin. rewrite window_step_final; [done|].
      unfold MAX_CHUNK_SIZE. lia.
  - destruct (chunk_loop_init_total text) as [st Hst].
    exists st. split; [done|].
    destruct (chunk_loop_inv _ _ _ _ (loop_inv_init text) Hst)
      as [[_ Hcount Hemit _ _ _ _ _] Hend].
    unfold len in *. lia.
Qed.

End ChunkingProps.

(** ** Response parsing and normalisation *)

Module ExamPrepProps.

Import Exn Py ExamPrep Chunking PyStrFacts Examples.




Lemma is_valid_spec (n : qa) :
  is_valid n = true <-> 10 < len (question n).
Proof.
  unfold is_valid. rewrite andb_true_iff, Z.gtb_lt.
  split; [by intros [_ ?]|]. intros H. split; [|lia].
  destruct (question n); [unfold len in H; simpl in H; lia|done].
Qed.

Section Normalisation.

Variable py_repr : pyval -> str.
Variable float_of_str : str -> option float.
Variable json_loads : str -> result pyval.
Variable groq_chat : str -> result str.
Variable groq_api_key : option str.

Local Abbreviation normalize_record := (normalize_record py_repr float_of_str).
Local Abbreviation normalize_loop := (normalize_loop py_repr float_of_str).
Local Abbreviation normalized_prefix := (normalized_prefix py_repr float_of_str).
Local Abbreviation parse_response := (parse_response json_loads).
Local Abbreviation process_chunk :=
  (process_chunk py_repr float_of_str json_loads groq_chat).
Local Abbreviation chunk_records :=
  (chunk_records py_repr float_of_str json_loads groq_chat).
Local Abbreviation generate_questions_with_groq :=
  (generate_questions_with_groq py_repr float_of_str json_loads groq_chat
     groq_api_key).


Lemma normalize_loop_spec (questions : list pyval) (all_questions : list qa) :
  (normalize_loop questions all_questions).1
  = all_questions
      ++ filter (fun n => 10 < len (question n)) (normalized_prefix questions).
Proof.
  revert all_questions.
  induction questions as [|q rest IH]; intros acc;
    cbn [ExamPrep.normalize_loop ExamPrep.normalized_prefix].
  - cbn. by rewrite app_nil_r.
  - destruct (normalize_record q) as [n|e]; [|cbn; by rewrite app_nil_r].
    rewrite IH, filter_cons.
    destruct (is_valid n) eqn:E.
    + apply is_valid_spec in E. rewrite decide_True by done.
      by rewrite <- app_assoc.
    + rewrite decide_False; [done|].
      intros H. apply is_valid_spec in H. congruence.
Qed.

Lemma process_chunk_spec (all_questions : list qa) (chunk : str) :
  process_chunk all_questions chunk
  = all_questions
      ++ filter (fun n => 10 < len (question n)) (chunk_records chunk).
Proof.
  unfold ExamPrep.process_chunk, ExamPrep.chunk_records.
  destruct (groq_chat chunk) as [r|]; [|by rewrite app_nil_r].
  destruct (parse_response r); try (by rewrite app_nil_r).
  apply normalize_loop_spec.
Qed.

Lemma foldl_process_chunk (chunks : list str) (all_questions : list qa) :
  foldl process_chunk all_questions chunks
  = all_questions
      ++ flat_map (fun chunk => filter (fun n => 10 < len (question n))
                                  (chunk_records chunk)) chunks.
Proof.
  revert all_questions.
  induction chunks as [|c chunks IH]; intros acc; cbn [foldl flat_map].
  - by rewrite app_nil_r.
  - by rewrite IH, process_chunk_spec, <- app_assoc.
Qed.

(** C5: the loop over the parsed records appends exactly those normalised
    records whose question is longer than 10 characters, in order: a
    record the loop normalises is in the result if and only if its
    question is that long, and one whose question is empty or has at most
    10 characters is dropped.  The list [generate_questions_with_groq]
    returns is made of these records, chunk by chunk: a record is in it if
    and only if some chunk offers it and its question is longer than 10
    characters. *)
Theorem valid_questions_kept (questions : list pyval) (all_questions : list qa) :
  (normalize_loop questions all_questions).1
  = all_questions
      ++ filter (fun n => 10 < len (question n)) (normalized_prefix questions)
  /\ (forall n, n ∈ normalized_prefix questions ->
        (n ∈ (normalize_loop questions []).1 <-> 10 < len (question n)))
  /\ (forall n, n ∈ normalized_prefix questions ->
        question n = [] \/ len (question n) <= 10 ->
        n ∉ (normalize_loop questions []).1)
  /\ (forall text filename result,
        generate_questions_with_groq text filename = Ok result ->
        exists chunks,
          Chunking.chunk_text text = Some chunks
          /\ forall n,
               n ∈ result
               <-> 10 < len (question n)
                   /\ exists chunk, chunk ∈ chunks /\ n ∈ chunk_records chunk).
Proof.
  split; [apply normalize_loop_spec|].
  split; [|split].
  - intros n Hn. rewrite normalize_loop_spec, app_nil_l, list_elem_of_filter.
    tauto.
  - intros n Hn Hshort. rewrite normalize_loop_spec, app_nil_l.
    rewrite list_elem_of_filter. intros [Hlong _].
    destruct Hshort as [Hempty | Hle]; [|lia].
    rewrite Hempty in Hlong. unfold len in Hlong. simpl in Hlong. lia.
  - intros text filename result. unfold ExamPrep.generate_questions_with_groq.
    destruct groq_api_key as [[|? ?]|]; try done.
    intros [= <-].
    destruct (ChunkingProps.chunk_text_total text) as [chunks Hchunks].
    exists chunks. split; [done|]. rewrite Hchunks. cbn [default from_option].
    intros n. rewrite foldl_process_chunk, app_nil_l.
    rewrite list_elem_of_In, in_flat_map. split.
    + intros (chunk & Hc & Hn). apply list_elem_of_In in Hc, Hn.
      apply list_elem_of_filter in Hn as [Hlong Hn]. eauto.
    + intros (Hlong & chunk & Hc & Hn). exists chunk.
      rewrite <- !list_elem_of_In. split; [done|].
      by apply list_elem_of_filter.
Qed.

Lemma json_candidate_cases (response_content : str) :
  let json_string := strip_fences response_content in
  let start := find (lit "[") json_string in
  (contains (lit "[") json_string = true ->
   contains (lit "]") json_string = true ->
   json_candidate response_content
   = Ok (slice json_string start (rfind (lit "]") json_string + 1)))
  /\ (contains (lit "[") json_string = true ->
      contains (lit "]") json_string = false ->
      start < rfind (lit "}") json_string ->
      json_candidate response_content
      = Ok (slice json_string start (rfind (lit "}") json_string + 1)
              ++ lit "]"))
  /\ (contains (lit "[") json_string = true ->
      contains (lit "]") json_string = false ->
      rfind (lit "}") json_string <= start ->
      exists msg, json_candidate response_content = Err (ValueError msg))
  /\ (contains (lit "[") json_string = false ->
      json_candidate response_content = Ok json_string).
Proof.
  intros json_string start. unfold json_candidate.
  fold json_string. fold start.
  split; [by intros -> ->|].
  split.
  { intros -> -> H.
    by destruct (Z.gtb_spec (rfind (lit "}") json_string) start); [|lia]. }
  split; [|by intros ->].
  intros -> -> H.
  destruct (Z.gtb_spec (rfind (lit "}") json_string) start); [lia|].
  by eexists.
Qed.

(** C8 (as the code has it): the response is stripped, and freed of its
    code fences when it starts with one; the text parsed runs from the
    first ['['] to the last [']'], or, when there is a ['['] and no [']'],
    from the first ['['] to the last ['}'] behind it with a [']'] appended.
    The chunk fails with a parse error exactly when the response is not
    empty and either a ['['] has neither a [']'] nor a ['}'] behind it or
    [json.loads] raises on the text; for a text that is not JSON the
    error is the [ValueError] of line 351, which ends in the decoder's
    message.  An empty response, and one whose text parses to something
    other than a list, are skipped without an error.  In all those cases
    the chunk adds no record.  When the text parses to a list the chunk
    goes on to normalise its elements and adds what that loop keeps,
    which may be nothing. *)
Theorem parse_response_outcomes (response_content : str) :
  let stripped := strip response_content in
  let json_string := strip_fences response_content in
  let start := find (lit "[") json_string in
  (json_string
   = if startswith stripped fence
     then strip (replace fence [] (replace (lit "```json") [] stripped))
     else stripped)
  /\ (contains (lit "[") json_string = true ->
      contains (lit "]") json_string = true ->
      json_candidate response_content
      = Ok (slice json_string start (rfind (lit "]") json_string + 1)))
  /\ (contains (lit "[") json_string = true ->
      contains (lit "]") json_string = false ->
      start < rfind (lit "}") json_string ->
      json_candidate response_content
      = Ok (slice json_string start (rfind (lit "}") json_string + 1)
              ++ lit "]"))
  /\ (contains (lit "[") json_string = true ->
      contains (lit "]") json_string = false ->
      rfind (lit "}") json_string <= start ->
      exists msg, json_candidate response_content = Err (ValueError msg))
  /\ (forall questions,
        parse_response response_content = Parsed questions
        <-> response_content <> []
            /\ exists text, json_candidate response_content = Ok text
                            /\ json_loads text = Ok (PyList questions))
  /\ ((exists e, parse_response response_content = ParseFailed e)
      <-> response_content <> []
          /\ ((exists e, json_candidate response_content = Err e)
              \/ exists text e, json_candidate response_content = Ok text
                                /\ json_loads text = Err e))
  /\ (forall text msg,
        response_content <> [] ->
        json_candidate response_content = Ok text ->
        json_loads text = Err (ValueError msg) ->
        parse_response response_content
        = ParseFailed
            (ValueError
               (lit "Failed to parse JSON from Groq response: " ++ msg)))
  /\ (parse_response response_content = NonArray
      <-> response_content <> []
          /\ exists text v, json_candidate response_content = Ok text
                            /\ json_loads text = Ok v
                            /\ forall questions, v <> PyList questions)
  /\ (parse_response response_content = NoContent <-> response_content = [])
  /\ (forall all_questions chunk,
        groq_chat chunk = Ok response_content ->
        (forall questions,
           parse_response response_content <> Parsed questions) ->
        process_chunk all_questions chunk = all_questions)
  /\ (forall all_questions chunk questions,
        groq_chat chunk = Ok response_content ->
        parse_response response_content = Parsed questions ->
        process_chunk all_questions chunk
        = (normalize_loop questions all_questions).1).
Proof.
  intros stripped json_string start.
  destruct (json_candidate_cases response_content) as (Hc1 & Hc2 & Hc3 & _).
  split; [done|]. split; [exact Hc1|]. split; [exact Hc2|].
  split; [exact Hc3|].
  assert (forall all_questions chunk questions,
            groq_chat chunk = Ok response_content ->
            parse_response response_content = Parsed questions ->
            process_chunk all_questions chunk
            = (normalize_loop questions all_questions).1) as Hparsed.
  { intros acc chunk qs Hchat Hp. unfold ExamPrep.process_chunk.
    by rewrite Hchat, Hp. }
  assert (forall all_questions chunk,
            groq_chat chunk = Ok response_content ->
            (forall questions,
               parse_response response_content <> Parsed questions) ->
            process_chunk all_questions chunk = all_questions) as Hskip.
  { intros acc chunk Hchat Hnot. unfold ExamPrep.process_chunk.
    rewrite Hchat.
    destruct (parse_response response_content) as [|e| |qs] eqn:Hp;
      try done. by destruct (Hnot qs). }
  unfold ExamPrep.parse_response in *.
  destruct response_content as [|c r]; cbn [truthy negb].
  { split; [|split; [|split; [|split; [|split; [|split]]]]]; try done.
    - intros qs. split; [done|]. by intros [? _].
    - split; [by intros [? ?]|]. by intros [? _].
    - split; [done|]. by intros [? _]. }
  destruct (json_candidate (c :: r)) as [text|e] eqn:Hcand.
  2:{ split; [|split; [|split; [|split; [|split; [|split]]]]]; try done.
      - intros qs. split; [done|]. by intros [_ (? & ? & _)].
      - split; [|by eexists]. intros _. split; [done|]. left. by eexists.
      - split; [done|]. by intros [_ (? & ? & ? & _)]. }
  destruct (json_loads text) as [v|e] eqn:Hloads.
  2:{ split; [|split; [|split; [|split; [|split; [|split]]]]]; try done.
      - intros qs. split; [by destruct e|].
        intros [_ (t & [= <-] & Ht)]. congruence.
      - split; [|destruct e; by eexists]. intros _. split; [done|].
        right. by exists text, e.
      - intros t msg _ [= <-] Ht. rewrite Hloads in Ht.
        by injection Ht as ->.
      - split; [by destruct e|].
        intros [_ (t & v & [= <-] & Ht & _)]. congruence.
      - split; [by destruct e|done]. }
  split; [|split; [|split; [|split; [|split; [|split]]]]]; try done.
  - intros qs. split.
    + intros H. split; [done|]. exists text. split; [done|].
      destruct v; try done. by injection H as ->.
    + intros [_ (t & [= <-] & Ht)]. rewrite Hloads in Ht.
      by injection Ht as ->.
  - split.
    + intros [e H]. by destruct v.
    + intros [_ [[e [=]] | (t & e & [= <-] & Ht)]]. congruence.
  - intros t msg _ [= <-] Ht. congruence.
  - split.
    + intros H. split; [done|]. exists text, v.
      split; [done|]. split; [done|]. intros qs ->. done.
    + intros [_ (t & v' & [= <-] & Ht & Hn)]. rewrite Hloads in Ht.
      injection Ht as <-. destruct v; try done. by destruct (Hn l).
  - split; [by destruct v|done].
Qed.

End Normalisation.


(** C8, the claim refuted: the response [{}] is valid JSON and holds no
    array, so no usable array is recovered from it; the chunk is skipped
    as a non-array (line 353) and no parse error is raised. *)
Lemma non_array_response_is_no_parse_error :
  parse_response loads_object (lit "{}") = NonArray
  /\ ~ (exists text questions,
          json_candidate (lit "{}") = Ok text
          /\ loads_object text = Ok (PyList questions)).
Proof.
  split; [vm_compute; reflexivity|].
  intros (text & questions & Hc & Hl).
  vm_compute in Hc. injection Hc as <-. vm_compute in Hl. discriminate.
Qed.

End ExamPrepProps.

(** ** Extraction and the per-paper pipeline *)

Module PipelineProps.

Import Exn Py ExamPrep Pipeline Examples.

Section World.

Variable py_repr : pyval -> str.
Variable float_of_str : str -> option float.
Variable json_loads : str -> result pyval.
Variable groq_chat : str -> result str.
Variable groq_api_key : option str.
Variable fs : str -> option fsnode.
Variable pdf_page_texts : str -> result (list (result str)).
Variable docx_raw_text : str -> result str.
Variable utf8_decode : str -> result str.

Local Abbreviation extract_text_from_file :=
  (extract_text_from_file fs pdf_page_texts docx_raw_text utf8_decode).
Local Abbreviation generate_questions_with_groq :=
  (generate_questions_with_groq py_repr float_of_str json_loads groq_chat
     groq_api_key).
Local Abbreviation process_paper :=
  (process_paper py_repr float_of_str json_loads groq_chat groq_api_key fs
     pdf_page_texts docx_raw_text utf8_decode).

(** C6: a path that does not exist makes the call raise
    [FileNotFoundError]; a path that exists, with a file name whose
    extension (as the code reads it: [splitext], lower-cased) is none of
    .pdf, .docx, .doc, .txt, makes it raise the [ValueError]
    "Unsupported file type", never return a text. *)
Theorem extract_text_errors (file_path filename : str) :
  let ext := lower (splitext filename).2 in
  (fs file_path = None ->
   extract_text_from_file file_path filename
   = Err (FileNotFoundError (lit "File not found: " ++ file_path)))
  /\ (fs file_path <> None ->
      ext ∉ [lit ".pdf"; lit ".docx"; lit ".doc"; lit ".txt"] ->
      extract_text_from_file file_path filename
      = Err (ValueError (lit "Unsupported file type: " ++ ext)))
  /\ (fs file_path <> None ->
      ext ∉ [lit ".pdf"; lit ".docx"; lit ".doc"; lit ".txt"] ->
      forall text, extract_text_from_file file_path filename <> Ok text).
Proof.
  intros ext.
  assert (fs file_path <> None ->
          ext ∉ [lit ".pdf"; lit ".docx"; lit ".doc"; lit ".txt"] ->
          extract_text_from_file file_path filename
          = Err (ValueError (lit "Unsupported file type: " ++ ext))) as Hext.
  { intros Hex Hnot. unfold Pipeline.extract_text_from_file. fold ext.
    destruct (fs file_path); [|done].
    rewrite !bool_decide_eq_false_2; [done|..];
      intros Heq; apply Hnot; rewrite Heq; set_solver. }
  split; [|split].
  - intros Hnone. unfold Pipeline.extract_text_from_file. by rewrite Hnone.
  - exact Hext.
  - intros Hex Hnot text. by rewrite Hext.
Qed.

Lemma insufficient_spec (extracted_text : str) (limit : Z) :
  0 < limit ->
  insufficient extracted_text limit = true
  <-> len (strip extracted_text) < limit.
Proof.
  intros Hlim. unfold insufficient.
  rewrite orb_true_iff, Z.ltb_lt, negb_true_iff.
  split; [|tauto]. intros [Hempty | H]; [|done].
  destruct extracted_text; [|done]. vm_compute. by destruct limit.
Qed.

(** C7 (as the code has it): once a text was extracted for a paper, the
    paper is treated as an extraction failure, and nothing is sent to
    question generation, when the stripped text has fewer than 10
    characters; a stripped text of 10 characters or more, and so one of
    10 to 49 characters too, is cleaned up and sent to question
    generation. *)
Theorem short_text_threshold (p : paper) (file_path extracted_text : str) :
  let filename := default (lit "unknown") (p_filename p) in
  p_filePath p = Some file_path ->
  file_path <> [] ->
  fs file_path <> None ->
  extract_text_from_file file_path filename = Ok extracted_text ->
  (len (strip extracted_text) < 10 ->
   process_paper p
   = PaperFailed
       (ValueError
          (lit "Could not extract any readable text from " ++ filename
             ++ lit ". The PDF may be corrupted, scanned "
             ++ lit "(image-based), or encrypted.")))
  /\ (10 <= len (strip extracted_text) ->
      process_paper p
      = PaperSent (cleanup extracted_text)
          (generate_questions_with_groq (cleanup extracted_text) filename)).
Proof.
  intros filename Hpath Hne Hex Hext.
  unfold Pipeline.process_paper. rewrite Hpath. fold filename.
  destruct file_path as [|c file_path]; [done|].
  destruct (fs (c :: file_path)); [|done].
  rewrite Hext.
  split; intros Hlen.
  - rewrite (proj2 (insufficient_spec extracted_text 50 ltac:(lia)))
      by lia.
    by rewrite (proj2 (insufficient_spec extracted_text 10 ltac:(lia))).
  - destruct (insufficient extracted_text 10) eqn:E.
    + apply insufficient_spec in E; lia.
    + by rewrite andb_false_r.
Qed.

End World.

(** [short_text_threshold] at a text file of 20 characters. *)
Lemma short_text_threshold_witness :
  len (strip notes_text) = 20
  /\ process_paper no_repr no_float loads_object groq_down
       (Some (lit "key")) notes_disk no_pdf no_docx utf8_ascii notes_paper
     = PaperSent (cleanup notes_text)
         (generate_questions_with_groq no_repr no_float loads_object
            groq_down (Some (lit "key")) (cleanup notes_text)
            (lit "notes.txt")).
Proof.
  split; [vm_compute; reflexivity|].
  refine (proj2 (short_text_threshold no_repr no_float loads_object
                   groq_down (Some (lit "key")) notes_disk no_pdf no_docx
                   utf8_ascii notes_paper notes_path notes_text
                   _ _ _ _) _).
  - reflexivity.
  - discriminate.
  - vm_compute. discriminate.
  - vm_compute. reflexivity.
  - vm_compute. discriminate.
Defined.

(** C7, the claim refuted: a text of 20 characters, fewer than 50, is
    extracted, and the paper is sent on to question generation. *)
Lemma short_text_is_still_sent :
  len (strip notes_text) < 50
  /\ process_paper no_repr no_float loads_object groq_down
       (Some (lit "key")) notes_disk no_pdf no_docx utf8_ascii notes_paper
     = PaperSent notes_text (Ok []).
Proof.
  split; vm_compute; reflexivity.
Qed.

End PipelineProps.

(** ** The user store *)

Module UserStoreProps.

Import Exn UserStore Examples.

Section Keys.

Context {A : Type} (key : A -> str).

(** A key that is unique in the list identifies its row. *)
Lemma NoDup_key_inj (l : list A) (x y : A) :
  NoDup (key <$> l) -> x ∈ l -> y ∈ l -> key x = key y -> x = y.
Proof.
  intros Hnd Hx Hy Hk.
  apply list_elem_of_lookup in Hx as [i Hi].
  apply list_elem_of_lookup in Hy as [j Hj].
  assert (i = j) as ->; [|congruence].
  eapply NoDup_lookup; [exact Hnd| |];
    rewrite list_lookup_fmap; [by rewrite Hi | by rewrite Hj, Hk].
Qed.

Lemma find_key_Some (l : list A) (k : str) (x : A) :
  List.find (fun r => bool_decide (key r = k)) l = Some x ->
  x ∈ l /\ key x = k.
Proof.
  intros H. apply find_some in H as [Hin Hk].
  split; [by apply list_elem_of_In|]. by apply bool_decide_eq_true in Hk.
Qed.

Lemma find_key_unique (l : list A) (x : A) :
  NoDup (key <$> l) -> x ∈ l ->
  List.find (fun r => bool_decide (key r = key x)) l = Some x.
Proof.
  intros Hnd Hx.
  destruct (List.find (fun r => bool_decide (key r = key x)) l) as [y|] eqn:E.
  - apply find_key_Some in E as [Hy Hk]. f_equal.
    by apply (NoDup_key_inj l).
  - apply list_elem_of_In in Hx.
    pose proof (find_none _ _ E x Hx) as H. cbn in H.
    by rewrite bool_decide_eq_true_2 in H.
Qed.

Lemma filter_key_unique (l : list A) (x : A) :
  NoDup (key <$> l) -> x ∈ l ->
  List.filter (fun r => bool_decide (key r = key x)) l = [x].
Proof.
  induction l as [|a l IH]; intros Hnd Hx; [by apply not_elem_of_nil in Hx|].
  rewrite fmap_cons in Hnd. apply NoDup_cons in Hnd as [Ha Hnd].
  cbn [List.filter].
  assert (forall y, y ∈ l -> key y <> key a) as Hother.
  { intros y Hy Heq. apply Ha. rewrite <- Heq. by apply list_elem_of_fmap_2. }
  apply elem_of_cons in Hx as [-> | Hx].
  - rewrite bool_decide_eq_true_2 by done. f_equal.
    clear IH. induction l as [|b l IHl]; [done|]. cbn [List.filter].
    rewrite bool_decide_eq_false_2 by (apply Hother; left).
    apply IHl.
    + intros Hin. apply Ha. rewrite fmap_cons. by right.
    + rewrite fmap_cons in Hnd. by apply NoDup_cons in Hnd as [_ ?].
    + intros y Hy. apply Hother. by right.
  - rewrite bool_decide_eq_false_2 by (intros Heq; by apply (Hother x)).
    by apply IH.
Qed.

(** Rewriting the one row that has a key is an update at its position. *)
Lemma fmap_key_insert (g : A -> A) (l : list A) (k : nat) (x : A) :
  NoDup (key <$> l) -> l !! k = Some x ->
  (fun r => if bool_decide (key r = key x) then g r else r) <$> l
  = <[k := g x]> l.
Proof.
  intros Hnd Hk. apply list_eq. intros j.
  rewrite list_lookup_fmap.
  destruct (decide (j = k)) as [-> | Hne].
  - rewrite list_lookup_insert_eq by (by eapply lookup_lt_Some).
    rewrite Hk. cbn. by rewrite bool_decide_eq_true_2.
  - rewrite list_lookup_insert_ne by done.
    destruct (l !! j) as [y|] eqn:Hj; [|done]. cbn.
    rewrite bool_decide_eq_false_2; [done|].
    intros Heq. apply Hne.
    eapply NoDup_lookup; [exact Hnd| |];
      rewrite list_lookup_fmap; [by rewrite Hj | by rewrite Hk, Heq].
Qed.

End Keys.

Lemma NoDup_insert_fresh {A} (l : list A) (k : nat) (x : A) :
  NoDup l ->
  (forall j y, l !! j = Some y -> j <> k -> y <> x) ->
  NoDup (<[k := x]> l).
Proof.
  intros Hnd Hfresh. apply NoDup_alt. intros i j z Hi Hj.
  apply list_lookup_insert_Some in Hi as [(-> & -> & Hlt) | (Hne & Hi)];
    apply list_lookup_insert_Some in Hj as [(-> & Hx & Hlt') | (Hne' & Hj)];
    try done.
  - by destruct (Hfresh j z Hj ltac:(done)).
  - subst. by destruct (Hfresh i _ Hi ltac:(done)).
  - by eapply NoDup_lookup.
Qed.

Lemma constraints_ok_spec (db : table) :
  constraints_ok db = true
  <-> NoDup (id <$> db) /\ NoDup (clerk_id <$> db) /\ NoDup (email <$> db).
Proof.
  unfold constraints_ok. rewrite !andb_true_iff, !bool_decide_eq_true. tauto.
Qed.

(** What a call that returns a row guarantees. *)
Lemma create_or_update_user_ok (db db' : table) (now : Z) (cid e : str)
    (fn ln full img : option str) (u : user_row) :
  create_or_update_user db now cid e fn ln full img = (db', Ok (Some u)) ->
  constraints_ok db' = true /\ u ∈ db' /\ clerk_id u = cid.
Proof.
  unfold create_or_update_user.
  destruct (select_by_clerk_id db cid) as [row|] eqn:Hsel.
  - unfold sql_update.
    set (upd := fun r => if bool_decide (clerk_id r = cid)
                         then set_fields e fn ln full img now r else r).
    destruct (constraints_ok (upd <$> db)) eqn:Hok; cbn; [|done].
    intros [= <- Hu]. split; [done|].
    apply (find_key_Some id) in Hu as [Hin Hid]. split; [done|].
    apply list_elem_of_fmap in Hin as (r & -> & Hr).
    unfold upd. destruct (bool_decide (clerk_id r = cid)) eqn:E;
      [cbn; by apply bool_decide_eq_true in E|].
    apply bool_decide_eq_false in E.
    apply (find_key_Some clerk_id) in Hsel as [Hrow Hcid].
    apply constraints_ok_spec in Hok as (Hids & _ & _).
    assert (id <$> (upd <$> db) = id <$> db) as Hsame.
    { rewrite <- list_fmap_compose. apply list_fmap_ext.
      intros ? x _. cbn. unfold upd. by destruct (bool_decide _). }
    rewrite Hsame in Hids. unfold upd in Hid.
    rewrite bool_decide_eq_false_2 in Hid by done.
    assert (r = row) as -> by (by apply (NoDup_key_inj id db)). done.
  - unfold sql_insert.
    set (new := {| id := cid; clerk_id := cid; email := e; first_name := fn;
                   last_name := ln; full_name := full; image_url := img;
                   created_at := now; updated_at := now |}).
    destruct (constraints_ok (db ++ [new])) eqn:Hok; cbn; [|done].
    intros [= <- Hu]. split; [done|].
    apply (find_key_Some id) in Hu as [Hin Hid]. split; [done|].
    apply constraints_ok_spec in Hok as (Hids & _ & _).
    assert (u = new) as ->; [|done].
    apply (NoDup_key_inj id (db ++ [new])); try done.
    apply elem_of_app. right. by apply list_elem_of_singleton.
Qed.

(** C9 (as the code has it): after a call that returned the row [u1] for
    [cid], a second call with the same [cid] and another email
    - when no other row holds that email: rewrites [u1] where it stands
      (email, names, image and [updated_at] change, [id], [clerk_id] and
      [created_at] stay), leaves exactly one row for [cid], and returns the
      row under the [id] of the first call;
    - when another row holds that email: raises [IntegrityError] and leaves
      the table as it was. *)
Theorem upsert_twice (db db1 : table) (now1 now2 : Z) (cid e1 e2 : str)
    (fn1 ln1 full1 img1 fn2 ln2 full2 img2 : option str) (u1 : user_row) :
  create_or_update_user db now1 cid e1 fn1 ln1 full1 img1
  = (db1, Ok (Some u1)) ->
  ((forall r, r ∈ db1 -> clerk_id r <> cid -> email r <> e2) ->
   exists (k : nat) u2,
     create_or_update_user db1 now2 cid e2 fn2 ln2 full2 img2
     = (<[k := u2]> db1, Ok (Some u2))
     /\ db1 !! k = Some u1
     /\ u2 = set_fields e2 fn2 ln2 full2 img2 now2 u1
     /\ id u2 = id u1
     /\ email u2 = e2
     /\ rows_of (<[k := u2]> db1) cid = [u2]
     /\ length (<[k := u2]> db1) = length db1)
  /\ ((exists r, r ∈ db1 /\ clerk_id r <> cid /\ email r = e2) ->
      exists msg,
        create_or_update_user db1 now2 cid e2 fn2 ln2 full2 img2
        = (db1, Err (IntegrityError msg))).
Proof.
  intros Hfirst.
  destruct (create_or_update_user_ok _ _ _ _ _ _ _ _ _ _ Hfirst)
    as (Hok & Hu1 & Hcid).
  apply constraints_ok_spec in Hok as (Hids & Hcids & Hemails).
  assert (select_by_clerk_id db1 cid = Some u1) as Hsel.
  { unfold select_by_clerk_id. rewrite <- Hcid.
    by apply (find_key_unique clerk_id). }
  apply list_elem_of_lookup in Hu1 as [k Hk].
  set (upd := fun r => if bool_decide (clerk_id r = cid)
                       then set_fields e2 fn2 ln2 full2 img2 now2 r else r).
  set (u2 := set_fields e2 fn2 ln2 full2 img2 now2 u1).
  assert (upd <$> db1 = <[k := u2]> db1) as Hupd.
  { unfold upd. rewrite <- Hcid.
    by rewrite (fmap_key_insert clerk_id
                  (set_fields e2 fn2 ln2 full2 img2 now2) db1 k u1). }
  assert (id <$> <[k := u2]> db1 = id <$> db1) as Hid2.
  { rewrite list_fmap_insert.
    by apply list_insert_id; rewrite list_lookup_fmap, Hk. }
  assert (clerk_id <$> <[k := u2]> db1 = clerk_id <$> db1) as Hcid2.
  { rewrite list_fmap_insert.
    by apply list_insert_id; rewrite list_lookup_fmap, Hk. }
  assert (u2 ∈ <[k := u2]> db1) as Hu2.
  { apply list_elem_of_lookup. exists k.
    apply list_lookup_insert_eq. by eapply lookup_lt_Some. }
  split.
  - intros Hfree. exists k, u2.
    assert (constraints_ok (<[k := u2]> db1) = true) as Hok2.
    { apply constraints_ok_spec. rewrite Hid2, Hcid2.
      split; [done|]. split; [done|].
      rewrite list_fmap_insert. apply NoDup_insert_fresh; [done|].
      intros j y Hj Hne Hy. rewrite list_lookup_fmap in Hj.
      destruct (db1 !! j) as [r|] eqn:Hr; [|done]. injection Hj as <-.
      apply (Hfree r); [by eapply list_elem_of_lookup_2| |done].
      intros Hrc. apply Hne.
      eapply NoDup_lookup; [exact Hcids| |];
        rewrite list_lookup_fmap;
        [by rewrite Hr | by rewrite Hk; cbn; rewrite Hcid, Hrc]. }
    split.
    { unfold create_or_update_user. rewrite Hsel.
      unfold sql_update. fold upd. rewrite Hupd, Hok2. cbn.
      f_equal. f_equal. unfold select_by_id.
      change (id u1) with (id u2).
      apply (find_key_unique id); [by rewrite Hid2|done]. }
    split; [done|]. split; [done|]. split; [done|]. split; [done|].
    split; [|by rewrite length_insert].
    unfold rows_of. rewrite <- Hcid. change (clerk_id u1) with (clerk_id u2).
    apply (filter_key_unique clerk_id); [by rewrite Hcid2|done].
  - intros (r & Hr & Hrc & Hre). eexists.
    unfold create_or_update_user. rewrite Hsel.
    unfold sql_update. fold upd. rewrite Hupd.
    destruct (constraints_ok (<[k := u2]> db1)) eqn:Hok2; [|done].
    exfalso. apply constraints_ok_spec in Hok2 as (_ & _ & Hem2).
    assert (r ∈ <[k := u2]> db1) as Hr2.
    { rewrite <- Hupd. apply list_elem_of_fmap. exists r. split; [|done].
      unfold upd. by rewrite bool_decide_eq_false_2. }
    apply Hrc.
    rewrite (NoDup_key_inj email _ r u2 Hem2 Hr2 Hu2); [by cbn|].
    by rewrite Hre.
Qed.

(** [upsert_twice] for [alice], added to a table that holds [bob]. *)
Lemma upsert_twice_witness :
  create_or_update_user [bob] 1 (lit "user_a") (lit "a@x.org")
    None None None None
  = ([bob; alice], Ok (Some alice))
  /\ exists (k : nat) u2,
       create_or_update_user [bob; alice] 2 (lit "user_a") (lit "a2@x.org")
         (Some (lit "Alice")) None None None
       = (<[k := u2]> [bob; alice], Ok (Some u2))
       /\ [bob; alice] !! k = Some alice
       /\ u2 = set_fields (lit "a2@x.org") (Some (lit "Alice")) None None None
                 2 alice
       /\ id u2 = id alice
       /\ email u2 = lit "a2@x.org"
       /\ rows_of (<[k := u2]> [bob; alice]) (lit "user_a") = [u2]
       /\ length (<[k := u2]> [bob; alice]) = length [bob; alice].
Proof.
  assert (create_or_update_user [bob] 1 (lit "user_a") (lit "a@x.org")
            None None None None
          = ([bob; alice], Ok (Some alice))) as H
    by (vm_compute; reflexivity).
  split; [exact H|].
  apply (proj1 (upsert_twice [bob] [bob; alice] 1 2 (lit "user_a")
                  (lit "a@x.org") (lit "a2@x.org") None None None None
                  (Some (lit "Alice")) None None None alice H)).
  intros r Hr Hcid.
  apply elem_of_cons in Hr as [-> | Hr]; [vm_compute; discriminate|].
  apply list_elem_of_singleton in Hr as ->. by destruct Hcid.
Defined.

(** C9, the claim refuted: [alice] is created next to [bob]; a second
    call for [alice] with the email [bob] holds raises [IntegrityError]
    and updates nothing. *)
Lemma upsert_email_taken :
  create_or_update_user [bob] 1 (lit "user_a") (lit "a@x.org")
    None None None None
  = ([bob; alice], Ok (Some alice))
  /\ create_or_update_user [bob; alice] 2 (lit "user_a") (lit "b@x.org")
       None None None None
     = ([bob; alice],
        Err (IntegrityError (lit "UNIQUE constraint failed: users.email"))).
Proof.
  split; vm_compute; reflexivity.
Qed.

End UserStoreProps.

(** ** Document export *)

Module WordEditorProps.

Import Exn Py WordEditor Examples.

Section Rendering.

Variable float_of_str : str -> option float.
Variable rgb_from_string : str -> option (Z * Z * Z).
Variable HexColor : pyval -> result (Z * Z * Z).
Variable run_text_error : str -> option exn.
Variable font_name_error : str -> option exn.
Variable markup_error : str -> option exn.

Local Abbreviation build_docx_document :=
  (build_docx_document float_of_str rgb_from_string run_text_error
     font_name_error).
Local Abbreviation build_pdf_document :=
  (build_pdf_document float_of_str HexColor markup_error).
Local Abbreviation edit_formatting := (edit_formatting float_of_str).

(** C10: a document whose content is the lines "Hello", "" and "World",
    under the default formatting, renders in the DOCX path as three
    paragraphs whose runs read "Hello", " " and "World", and in the PDF
    path as the two paragraphs "Hello" and "World" with the spacer of the
    empty line between them (each paragraph is also followed by its own,
    smaller spacer); after a margins request of [{top: 2}] the PDF top
    margin is 2 * 72 = 144 points. *)
Theorem hello_world_export (doc : dict) (color : Z * Z * Z) :
  doc !! "content"%string = Some (PyStr hello_world) ->
  doc !! "formatting"%string = Some (PyDict DEFAULT_FORMATTING) ->
  HexColor (PyStr (lit "#000000")) = Ok color ->
  let style :=
    {| fontName := lit "Helvetica"; fontSize := 12; leading := 18;
       style_alignment := AlignLeft; textColor := color;
       style_underline := false |} in
  (exists docx,
     build_docx_document doc = Ok docx
     /\ run_text <$> paragraphs docx = [lit "Hello"; lit " "; lit "World"])
  /\ build_pdf_document doc
     = Ok {| leftMargin := 72; rightMargin := 72; topMargin := 72;
             bottomMargin := 72;
             elements :=
               [Paragraph (lit "Hello") style;
                Spacer 1 (12 * 0.3);
                Spacer 1 (12 * 0.6);
                Paragraph (lit "World") style;
                Spacer 1 (12 * 0.3)] |}
  /\ (exists doc' pdf,
        edit_formatting doc top_two_inches = Ok doc'
        /\ build_pdf_document doc' = Ok pdf
        /\ topMargin pdf = (2 * 72)%float
        /\ topMargin pdf = 144%float
        /\ elements pdf
           = [Paragraph (lit "Hello") style;
              Spacer 1 (12 * 0.3);
              Spacer 1 (12 * 0.6);
              Paragraph (lit "World") style;
              Spacer 1 (12 * 0.3)]).
Proof.
  intros Hcontent Hfmt Hcolor style.
  assert (HexColor (PyStr (lit "#000000")) = Ok color) as Hcolor' by done.
  vm_compute in Hcolor'.
  split; [|split].
  - unfold WordEditor.build_docx_document, get. rewrite Hcontent, Hfmt.
    eexists. split; [vm_compute; reflexivity|]. vm_compute. reflexivity.
  - unfold WordEditor.build_pdf_document, get. rewrite Hcontent, Hfmt.
    vm_compute. rewrite Hcolor'. vm_compute. reflexivity.
  - set (merged := <["margins"%string :=
                      PyDict (<["top"%string := PyFloat 2]> DEFAULT_MARGINS)]>
                    DEFAULT_FORMATTING).
    assert (merge_formatting float_of_str DEFAULT_FORMATTING top_two_inches
            = Ok merged) as Hmerge by (vm_compute; reflexivity).
    exists (<["formatting"%string := PyDict merged]> doc). eexists.
    split.
    { unfold WordEditor.edit_formatting, get. rewrite Hfmt.
      cbv [default from_option as_dict Exn.bind id]. by rewrite Hmerge. }
    assert (build_pdf_document (<["formatting"%string := PyDict merged]> doc)
            = Ok {| leftMargin := 72; rightMargin := 72; topMargin := 144;
                    bottomMargin := 72;
                    elements :=
                      [Paragraph (lit "Hello") style;
                       Spacer 1 (12 * 0.3);
                       Spacer 1 (12 * 0.6);
                       Paragraph (lit "World") style;
                       Spacer 1 (12 * 0.3)] |}) as ->.
    { unfold WordEditor.build_pdf_document, get.
      rewrite lookup_insert_eq, lookup_insert_ne, Hcontent by done.
      vm_compute. rewrite Hcolor'. vm_compute. reflexivity. }
    split; [reflexivity|]. cbn [topMargin elements].
    split; [vm_compute; reflexivity|]. split; reflexivity.
Qed.

End Rendering.

(** [hello_world_export] at [hello_doc]. *)
Lemma hello_world_export_witness :
  hello_doc !! "content"%string = Some (PyStr hello_world)
  /\ hello_doc !! "formatting"%string = Some (PyDict DEFAULT_FORMATTING)
  /\ black_hex (PyStr (lit "#000000")) = Ok (0, 0, 0)
  /\ exists docx,
       build_docx_document no_float black_rgb lxml_error lxml_error hello_doc
       = Ok docx
       /\ run_text <$> paragraphs docx = [lit "Hello"; lit " "; lit "World"].
Proof.
  assert (hello_doc !! "content"%string = Some (PyStr hello_world)) as Hc
    by (vm_compute; reflexivity).
  assert (hello_doc !! "formatting"%string
          = Some (PyDict DEFAULT_FORMATTING)) as Hf
    by (vm_compute; reflexivity).
  assert (black_hex (PyStr (lit "#000000")) = Ok (0, 0, 0)) as Hx
    by (vm_compute; reflexivity).
  split; [exact Hc|]. split; [exact Hf|]. split; [exact Hx|].
  exact (proj1 (hello_world_export no_float black_rgb black_hex lxml_error
                  lxml_error strict_markup hello_doc (0, 0, 0) Hc Hf Hx)).
Defined.

End WordEditorProps.

(** ** What the chunking loop covers *)

Module ChunkingCoverProps.

Import Chunking ChunkingProps ChunkingCover PyStrFacts.

(** A pass either cuts the last window, which ends where the text ends,
    or a window of at least 5002 characters after which the next one
    starts 800 characters before the cut. *)
Lemma window_step_advance (text : str) (i : Z) :
  0 <= i < len text ->
  let chunk := (window_step text i).1 in
  let i' := (window_step text i).2 in
  (i + len chunk = len text /\ i' = len text)
  \/ (i + len chunk < len text /\ i' = i + len chunk - OVERLAP_SIZE
      /\ 5002 <= len chunk).
Proof.
  intros Hi. unfold OVERLAP_SIZE.
  destruct (Z.le_gt_cases (len text) (i + MAX_CHUNK_SIZE)) as [Hfin | Hmore].
  - rewrite (window_step_final text i Hfin). cbn [fst snd]. left.
    unfold MAX_CHUNK_SIZE in *.
    rewrite (len_slice text i (len text)) by lia. lia.
  - right.
    set (chunk_end := i + MAX_CHUNK_SIZE) in *.
    set (chunk := slice text i chunk_end).
    set (boundary := find_boundary chunk chunk_end).
    assert (len chunk = 6000) as Hlen
      by (unfold chunk, chunk_end, MAX_CHUNK_SIZE in *;
          rewrite len_slice; lia).
    destruct (Z.le_gt_cases boundary (chunk_end - 1000)) as [Hno | Hyes].
    + rewrite (window_step_raw text i Hmore Hno). cbn [fst snd].
      fold chunk_end. fold chunk.
      unfold chunk_end, MAX_CHUNK_SIZE, OVERLAP_SIZE in *. lia.
    + rewrite (window_step_boundary text i Hmore Hyes). cbn [fst snd].
      fold chunk_end. fold chunk. fold boundary.
      destruct (find_boundary_range chunk chunk_end) as [Hb | Hb];
        fold boundary in Hb;
        unfold chunk_end, MAX_CHUNK_SIZE, OVERLAP_SIZE in *; [lia|].
      assert (len (slice chunk 0 (boundary + 1)) = boundary + 1) as ->
        by (rewrite len_slice; lia).
      lia.
Qed.

Lemma cover_inv_init (text : str) : cover_inv text init_state.
Proof. split; cbn; try done. by left. Qed.

Lemma loop_body_cover (text : str) (st : loop_state) :
  loop_inv text st -> cover_inv text st -> st_i st < len text ->
  cover_inv text (loop_body text st).
Proof.
  intros Hinv [Hempty Hfirst Hlast Hadj Hstarts Hnext] Hlt.
  pose proof (inv_i _ _ Hinv) as Hi.
  pose proof (window_step_advance text (st_i st) ltac:(lia)) as Hstep.
  unfold loop_body.
  destruct (window_step text (st_i st)) as [chunk i'] eqn:E.
  cbn [fst snd] in Hstep.
  pose proof (len_nonneg chunk) as Hnn.
  destruct Hnext as [Hnext | Hnext]; [|lia].
  split; cbn [st_i st_chunks st_windows].
  - intros H. by destruct (st_windows st).
  - intros w Hw. destruct (st_windows st) as [|w0 ws] eqn:Hws.
    + injection Hw as <-. cbn. by apply Hempty.
    + apply Hfirst. by rewrite <- Hw.
  - intros w. rewrite last_snoc. intros [= <-]. unfold w_end. cbn.
    unfold OVERLAP_SIZE in *. lia.
  - intros k a b Ha Hb.
    destruct (decide (S k < length (st_windows st))%nat) as [Hk | Hk].
    + rewrite lookup_app_l in Ha by lia.
      rewrite lookup_app_l in Hb by lia. eauto.
    + assert (S k = length (st_windows st)) as Hk'.
      { apply lookup_lt_Some in Hb. rewrite length_app in Hb.
        simpl in Hb. lia. }
      rewrite lookup_app_l in Ha by lia.
      rewrite lookup_app_r in Hb by lia.
      rewrite Hk', Nat.sub_diag in Hb. simpl in Hb. injection Hb as <-.
      assert (last (st_windows st) = Some a) as Hla.
      { rewrite last_lookup. rewrite <- Hk'. simpl. done. }
      destruct (Hlast a Hla) as [[_ He] | (Hea & Hsa & Hla')]; [lia|].
      unfold w_end in *. cbn. unfold OVERLAP_SIZE in *. lia.
  - intros k w Hw.
    destruct (decide (k < length (st_windows st))%nat) as [Hk | Hk].
    + rewrite lookup_app_l in Hw by lia. eauto.
    + assert (k = length (st_windows st)) as ->.
      { apply lookup_lt_Some in Hw. rewrite length_app in Hw.
        simpl in Hw. lia. }
      rewrite lookup_app_r in Hw by lia.
      rewrite Nat.sub_diag in Hw. simpl in Hw. injection Hw as <-. cbn. lia.
  - rewrite length_app. simpl. unfold OVERLAP_SIZE in *.
    destruct Hstep as [[_ ->] | (_ & -> & Hlen)]; [by right|left]. lia.
Qed.

Lemma chunk_loop_cover (fuel : nat) (text : str) (st st' : loop_state) :
  loop_inv text st -> cover_inv text st ->
  chunk_loop fuel text st = Some st' -> cover_inv text st'.
Proof.
  revert st. induction fuel as [|fuel IH]; intros st Hinv Hcov Hrun; [done|].
  cbn [chunk_loop] in Hrun.
  destruct (Z.ltb_spec (st_i st) (len text)) as [Hlt | Hge].
  - apply (IH (loop_body text st)); [| |done].
    + by apply loop_body_inv.
    + by apply loop_body_cover.
  - by injection Hrun as <-.
Qed.

(** The windows of a non-empty text cover it without a gap: the first
    starts at offset 0, the last ends where the text ends, and each next
    one starts exactly 800 characters before the end of the one before
    it, which is also the number of positions the two share. *)
Theorem windows_cover_text (text : str) :
  0 < len text ->
  exists windows first_window last_window,
    chunk_windows text = Some windows
    /\ windows !! 0%nat = Some first_window
    /\ w_start first_window = 0
    /\ last windows = Some last_window
    /\ w_end last_window = len text
    /\ forall (k : nat) a b,
         windows !! k = Some a -> windows !! S k = Some b ->
         w_start b = w_end a - 800 /\ overlap a b = 800.
Proof.
  intros Hpos. unfold chunk_windows.
  destruct (chunk_loop_init_total text) as [st Hst]. rewrite Hst. cbn.
  destruct (chunk_loop_inv _ _ _ _ (loop_inv_init text) Hst) as [Hinv Hend].
  pose proof (chunk_loop_cover _ _ _ _ (loop_inv_init text)
                (cover_inv_init text) Hst)
    as [Hempty Hfirst Hlast Hadj Hstarts Hnext].
  destruct (st_windows st) as [|w0 ws] eqn:Hws;
    [specialize (Hempty eq_refl); lia|].
  destruct (last (w0 :: ws)) as [wl|] eqn:Hl;
    [|by apply last_None in Hl].
  exists (w0 :: ws), w0, wl.
  split; [done|]. split; [done|]. split; [by apply Hfirst|].
  split; [done|]. split.
  { destruct (Hlast wl eq_refl) as [[? _] | (? & ? & _)]; [done|].
    unfold OVERLAP_SIZE in *. lia. }
  intros k a b Ha Hb.
  destruct (Hadj k a b Ha Hb) as (Hs & Hla & He).
  unfold OVERLAP_SIZE in *. split; [done|].
  unfold overlap, w_end in *. lia.
Qed.

(** The number of chunks, and so of requests to the model, is bounded by
    the length of the text: every chunk but the last accounts for at
    least 4202 characters of progress. *)
Theorem chunk_count_bound (text : str) :
  exists chunks,
    chunk_text text = Some chunks
    /\ 4202 * (Z.of_nat (length chunks) - 1) <= len text.
Proof.
  unfold chunk_text.
  destruct (len text >? MAX_CHUNK_SIZE).
  2:{ eexists. split; [done|]. pose proof (len_nonneg text). cbn. lia. }
  destruct (chunk_loop_init_total text) as [st Hst]. rewrite Hst. cbn.
  exists (st_chunks st). split; [done|].
  destruct (chunk_loop_inv _ _ _ _ (loop_inv_init text) Hst) as [Hinv Hend].
  pose proof (chunk_loop_cover _ _ _ _ (loop_inv_init text)
                (cover_inv_init text) Hst)
    as [_ _ _ _ Hstarts _].
  pose proof (inv_emitted _ _ Hinv) as Hem.
  pose proof (len_nonneg text).
  destruct (st_windows st) as [|w0 ws] eqn:Hws using rev_ind.
  - simpl in Hem. lia.
  - clear IHws. rewrite length_app in Hem. simpl in Hem.
    destruct (Hstarts (length ws) w0) as [Hlo Hhi].
    { rewrite lookup_app_r by lia. by rewrite Nat.sub_diag. }
    lia.
Qed.

(** [windows_cover_text] at a text of 7000 characters. *)
Lemma windows_cover_text_witness :
  exists windows first_window last_window,
    chunk_windows MoreExamples.two_window_text = Some windows
    /\ windows !! 0%nat = Some first_window
    /\ w_start first_window = 0
    /\ last windows = Some last_window
    /\ w_end last_window = len MoreExamples.two_window_text
    /\ forall (k : nat) a b,
         windows !! k = Some a -> windows !! S k = Some b ->
         w_start b = w_end a - 800 /\ overlap a b = 800.
Proof.
  apply (windows_cover_text MoreExamples.two_window_text).
  vm_compute. reflexivity.
Defined.

End ChunkingCoverProps.

(** ** Facts about [strip] *)

Module StripFacts.

Import PyStrFacts.

Lemma lstrip_idem (s : str) : lstrip (lstrip s) = lstrip s.
Proof.
  induction s as [|c s IH]; simpl; [done|].
  destruct (is_space c) eqn:E; [done|]. simpl. by rewrite E.
Qed.

Lemma lstrip_snoc (s : str) (c : ascii) :
  is_space c = false -> lstrip (s ++ [c]) = lstrip s ++ [c].
Proof.
  intros Hc. induction s as [|x s IH]; simpl; [by rewrite Hc|].
  by destruct (is_space x).
Qed.

Lemma rstrip_cons (c : ascii) (s : str) :
  is_space c = false -> rstrip (c :: s) = c :: rstrip s.
Proof.
  intros Hc. unfold rstrip.
  rewrite reverse_cons, lstrip_snoc, reverse_app by done. done.
Qed.

Lemma rstrip_idem (s : str) : rstrip (rstrip s) = rstrip s.
Proof.
  unfold rstrip. by rewrite reverse_involutive, lstrip_idem.
Qed.

(** Stripping is idempotent: what [strip] returns has no white space at
    either end. *)
Lemma strip_idem (s : str) : strip (strip s) = strip s.
Proof.
  unfold strip.
  destruct (lstrip s) as [|c t] eqn:E; [done|].
  assert (is_space c = false) as Hc.
  { clear -E. induction s as [|x s IH]; simpl in E; [done|].
    destruct (is_space x) eqn:Hx; [by apply IH|]. by injection E as <- _. }
  rewrite (rstrip_cons c t Hc). simpl. rewrite Hc.
  by rewrite (rstrip_cons c _ Hc), rstrip_idem.
Qed.

End StripFacts.

(** ** Normalised records *)

Module NormaliseMore.

Import Exn Py ExamPrep StripFacts PyStrFacts.

Section Normalisation.

Variable py_repr : pyval -> str.
Variable float_of_str : str -> option float.

Local Abbreviation normalize_record := (normalize_record py_repr float_of_str).
Local Abbreviation normalize_loop := (normalize_loop py_repr float_of_str).

Lemma normalize_record_dict (q : pyval) (n : qa) :
  normalize_record q = Ok n -> exists d, q = PyDict d.
Proof. destruct q; try done. by eexists. Qed.

(** No normalised record carries an empty answer, or one that says
    "not provided" or "answer not" in any mix of letter cases: such an
    answer has been replaced by the placeholder. *)
Theorem normalized_answer_is_usable (q : pyval) (n : qa) :
  normalize_record q = Ok n ->
  answer n <> []
  /\ contains (lit "not provided") (lower (answer n)) = false
  /\ contains (lit "answer not") (lower (answer n)) = false.
Proof.
  intros Hn. destruct (normalize_record_dict q n Hn) as [d ->].
  cbn [ExamPrep.normalize_record] in Hn.
  destruct (py_float float_of_str _) as [conf|]; [|done].
  cbn [Exn.bind] in Hn. injection Hn as <-. cbn [answer].
  unfold normalize_answer.
  set (a := strip _).
  destruct (negb (truthy a)) eqn:E1; cbn [orb];
    [by vm_compute|].
  destruct (contains (lit "not provided") (lower a)) eqn:E2; cbn [orb];
    [by vm_compute|].
  destruct (contains (lit "answer not") (lower a)) eqn:E3;
    [by vm_compute|].
  repeat split; try done. intros Ha. by rewrite Ha in E1.
Qed.

(** The question and the answer of a normalised record have no white
    space at either end. *)
Theorem normalized_texts_are_stripped (q : pyval) (n : qa) :
  normalize_record q = Ok n ->
  strip (question n) = question n /\ strip (answer n) = answer n.
Proof.
  intros Hn. destruct (normalize_record_dict q n Hn) as [d ->].
  cbn [ExamPrep.normalize_record] in Hn.
  destruct (py_float float_of_str _) as [conf|]; [|done].
  cbn [Exn.bind] in Hn. injection Hn as <-. cbn [question answer].
  split; [apply strip_idem|].
  unfold normalize_answer.
  destruct (_ || _ || _); [by vm_compute|apply strip_idem].
Qed.

(** An element that cannot be normalised ends the handling of its
    response: the records before it are kept as if the list ended there,
    the elements after it are never looked at, and the exception is the
    one that element raised. *)
Theorem malformed_element_cuts_the_list
    (before after : list pyval) (bad : pyval) (e : exn)
    (all_questions : list qa) :
  Forall (fun q => is_ok (normalize_record q) = true) before ->
  normalize_record bad = Err e ->
  normalize_loop (before ++ bad :: after) all_questions
  = ((normalize_loop before all_questions).1, Some e).
Proof.
  intros Hbefore Hbad. revert all_questions.
  induction Hbefore as [|q before Hq _ IH]; intros acc.
  - cbn. by rewrite Hbad.
  - cbn [app ExamPrep.normalize_loop].
    destruct (normalize_record q) as [n|]; [|done]. apply IH.
Qed.

(** An element that is not an object cannot be normalised. *)
Lemma normalize_record_not_dict (q : pyval) :
  (forall d, q <> PyDict d) -> normalize_record q = Err AttributeError.
Proof. intros H. destruct q; try done. by destruct (H d). Qed.

End Normalisation.

(** [normalized_answer_is_usable] at [bare_record], whose answer says
    "NOT Provided". *)
Lemma normalized_answer_is_usable_witness :
  normalize_record Examples.no_repr Examples.no_float
    (PyDict Examples.bare_record)
  = Ok Examples.bare_normalized
  /\ answer Examples.bare_normalized <> []
  /\ contains (lit "not provided") (lower (answer Examples.bare_normalized))
     = false
  /\ contains (lit "answer not") (lower (answer Examples.bare_normalized))
     = false.
Proof.
  assert (normalize_record Examples.no_repr Examples.no_float
            (PyDict Examples.bare_record)
          = Ok Examples.bare_normalized) as H by (vm_compute; reflexivity).
  split; [exact H|].
  exact (normalized_answer_is_usable Examples.no_repr Examples.no_float
           (PyDict Examples.bare_record) Examples.bare_normalized H).
Defined.

(** [normalized_texts_are_stripped] at [bare_record]. *)
Lemma normalized_texts_are_stripped_witness :
  strip (question Examples.bare_normalized) = question Examples.bare_normalized
  /\ strip (answer Examples.bare_normalized) = answer Examples.bare_normalized.
Proof.
  apply (normalized_texts_are_stripped Examples.no_repr Examples.no_float
           (PyDict Examples.bare_record) Examples.bare_normalized).
  vm_compute. reflexivity.
Defined.

(** [malformed_element_cuts_the_list] at a list whose second element is
    a string. *)
Lemma malformed_element_cuts_the_list_witness :
  normalize_loop Examples.no_repr Examples.no_float
    ([PyDict Examples.bare_record]
       ++ PyStr (lit "oops") :: [PyDict Examples.bare_record]) []
  = ((normalize_loop Examples.no_repr Examples.no_float
        [PyDict Examples.bare_record] []).1,
     Some AttributeError).
Proof.
  apply (malformed_element_cuts_the_list Examples.no_repr Examples.no_float).
  - constructor; [vm_compute; reflexivity|constructor].
  - reflexivity.
Defined.

End NormaliseMore.

(** ** The text handed to [json.loads] *)

Module CandidateProps.

Import Exn Py ExamPrep PyStrFacts.

Lemma startswith_char_lookup (s : str) (k : nat) (c : ascii) :
  startswith (drop k s) [c] = true -> s !! k = Some c.
Proof.
  intros H. apply startswith_prefix in H as [post Hpost].
  rewrite <- (take_drop k s), Hpost.
  assert (k <= length s)%nat as Hk.
  { destruct (decide (k <= length s)%nat); [done|].
    rewrite drop_ge in Hpost by lia. done. }
  rewrite lookup_app_r by (rewrite length_take; lia).
  rewrite length_take, Nat.min_l, Nat.sub_diag by lia. done.
Qed.

(** The slice from one character to a later one starts and ends with
    them. *)
Lemma slice_between (s : str) (k m : nat) (a b : ascii) :
  s !! k = Some a -> s !! m = Some b -> (k < m)%nat ->
  exists mid, slice s (Z.of_nat k) (Z.of_nat m + 1) = a :: mid ++ [b].
Proof.
  intros Hk Hm Hlt.
  pose proof (lookup_lt_Some _ _ _ Hk). pose proof (lookup_lt_Some _ _ _ Hm).
  unfold slice. rewrite !clip_id by (unfold len; lia).
  replace (Z.to_nat (Z.of_nat m + 1 - Z.of_nat k)) with (S (m - k)) by lia.
  rewrite Nat2Z.id.
  rewrite (take_S_r _ _ b)
    by (rewrite lookup_drop; rewrite <- Hm; f_equal; lia).
  destruct (m - k)%nat as [|j] eqn:Hj; [lia|].
  rewrite (drop_S _ a) by done. cbn [take]. by eexists.
Qed.

(** Whenever the response holds a ['['], the text handed to [json.loads]
    is empty (the only [']'] stand before the first ['[']) or runs from a
    ['['] to a [']']. *)
Theorem json_candidate_is_bracketed (response_content text : str) :
  let json_string := strip_fences response_content in
  contains (lit "[") json_string = true ->
  json_candidate response_content = Ok text ->
  (text = []
   /\ 0 <= rfind (lit "]") json_string < find (lit "[") json_string)
  \/ exists mid, text = lit "[" ++ mid ++ lit "]".
Proof.
  intros json_string Hopen. unfold json_candidate. fold json_string.
  clearbody json_string. rewrite Hopen.
  assert (0 <= find (lit "[") json_string) as Hfind
    by (by apply Z.leb_le).
  destruct (find_first (lit "[") json_string)
    as [[Hr _] | (k & Hk & Hkl & Hat & _)]; [lia|].
  apply startswith_char_lookup in Hat. rewrite Hk.
  destruct (contains (lit "]") json_string) eqn:Hclose.
  - assert (0 <= find (lit "]") json_string) as Hfc by (by apply Z.leb_le).
    destruct (rfind_last (lit "]") json_string)
      as [[_ Hnone] | (m & Hm & Hml & Hatm & _)].
    { destruct (find_first (lit "]") json_string)
        as [[Hr _] | (j & _ & Hjl & Hatj & _)]; [lia|].
      by rewrite Hnone in Hatj. }
    apply startswith_char_lookup in Hatm. rewrite Hm.
    intros [= <-].
    destruct (decide (m < k)%nat) as [Hlt | Hge].
    + left. split; [|lia]. unfold slice.
      rewrite !clip_id by (unfold len; lia).
      replace (Z.to_nat (Z.of_nat m + 1 - Z.of_nat k)) with 0%nat by lia.
      done.
    + right. assert (k <> m) by (intros ->; congruence).
      destruct (slice_between json_string k m _ _ Hat Hatm ltac:(lia))
        as [mid ->].
      by exists mid.
  - destruct (Z.gtb_spec (rfind (lit "}") json_string) (Z.of_nat k));
      [|done].
    intros [= <-]. right.
    destruct (rfind_last (lit "}") json_string)
      as [[Hr _] | (m & Hm & Hml & Hatm & _)]; [lia|].
    apply startswith_char_lookup in Hatm.
    change (lit "}") with ["}"%char] in *. rewrite Hm in *.
    destruct (slice_between json_string k m _ _ Hat Hatm ltac:(lia))
      as [mid ->].
    exists (mid ++ lit "}"). cbn. by rewrite <- app_assoc.
Qed.

(** [json_candidate_is_bracketed] at a response with text around its
    array. *)
Lemma json_candidate_is_bracketed_witness :
  json_candidate MoreExamples.chatty_response = Ok (lit "[1, 2]")
  /\ ((lit "[1, 2]" = []
       /\ 0 <= rfind (lit "]") (strip_fences MoreExamples.chatty_response)
            < find (lit "[") (strip_fences MoreExamples.chatty_response))
      \/ exists mid, lit "[1, 2]" = lit "[" ++ mid ++ lit "]").
Proof.
  assert (json_candidate MoreExamples.chatty_response = Ok (lit "[1, 2]"))
    as H by (vm_compute; reflexivity).
  split; [exact H|].
  apply (json_candidate_is_bracketed MoreExamples.chatty_response
           (lit "[1, 2]")); [vm_compute; reflexivity|exact H].
Defined.

End CandidateProps.

(** ** The cleaned text *)

Module CleanupProps.

Import Exn Py ExamPrep Pipeline TextRuns StripFacts PyStrFacts.

Local Open Scope nat_scope.

Lemma longest_run_from_ge (c : ascii) (cur : nat) (s : str) :
  cur <= longest_run_from c cur s.
Proof.
  revert cur. induction s as [|x s IH]; intros cur; simpl; [done|].
  case_bool_decide; [specialize (IH (S cur))|]; lia.
Qed.

Lemma longest_run_from_mono (c : ascii) (cur cur' : nat) (s : str) :
  cur <= cur' -> longest_run_from c cur s <= longest_run_from c cur' s.
Proof.
  revert cur cur'. induction s as [|x s IH]; intros cur cur' H; simpl; [done|].
  case_bool_decide; [apply IH|]; lia.
Qed.

Lemma longest_run_from_repeat (c : ascii) (cur n : nat) (s : str) :
  longest_run_from c cur (repeat c n ++ s) = longest_run_from c (cur + n) s.
Proof.
  revert cur. induction n as [|n IH]; intros cur; simpl.
  - by rewrite Nat.add_0_r.
  - rewrite bool_decide_eq_true_2 by done. rewrite IH. f_equal. lia.
Qed.

Lemma longest_run_from_other (c d : ascii) (cur n : nat) (s : str) :
  c <> d ->
  longest_run_from d cur (repeat c n ++ s)
  = if decide (n = 0) then longest_run_from d cur s
    else Nat.max cur (longest_run_from d 0 s).
Proof.
  intros Hne. destruct n as [|n]; [done|]. simpl.
  rewrite bool_decide_eq_false_2 by done. f_equal.
  induction n as [|n IH]; [done|]. simpl.
  rewrite bool_decide_eq_false_2 by done. rewrite IH.
  pose proof (longest_run_from_ge d 0 s). lia.
Qed.

(** A run that occurs is no longer than the longest run. *)
Lemma occurs_run_le (c : ascii) (n : nat) (s : str) :
  occurs (repeat c n) s -> n <= longest_run c s.
Proof.
  intros (pre & post & ->). unfold longest_run. generalize 0.
  induction pre as [|x pre IH]; intros cur; simpl.
  - rewrite longest_run_from_repeat.
    pose proof (longest_run_from_ge c (cur + n) post). lia.
  - case_bool_decide; [apply IH|].
    specialize (IH 0). lia.
Qed.

Lemma squeeze_flush_lt (limit keep run : nat) :
  keep < limit -> (if limit <=? run then keep else run) < limit.
Proof. intros H. destruct (Nat.leb_spec limit run); lia. Qed.

(** After [re.sub] no run reaches the length the pattern asks for. *)
Lemma squeeze_longest_run (c : ascii) (limit keep run : nat) (s : str) :
  keep < limit ->
  longest_run c (squeeze c limit keep run s) < limit.
Proof.
  intros Hk. unfold longest_run. revert run.
  induction s as [|x s IH]; intros run; cbn [squeeze].
  - set (f := if limit <=? run then keep else run).
    pose proof (longest_run_from_repeat c 0 f []) as Hf.
    rewrite app_nil_r in Hf. rewrite Hf. simpl.
    by apply squeeze_flush_lt.
  - case_bool_decide; [apply IH|].
    rewrite longest_run_from_repeat. simpl.
    rewrite bool_decide_eq_false_2 by done.
    pose proof (squeeze_flush_lt limit keep run Hk). specialize (IH 0). lia.
Qed.

(** Squeezing the runs of one character to at least one copy does not
    lengthen the runs of another. *)
Lemma squeeze_other_run (c d : ascii) (limit keep run cur : nat) (s : str) :
  c <> d -> 0 < keep -> 0 < limit ->
  longest_run_from d cur (squeeze c limit keep run s)
  <= longest_run_from d cur (repeat c run ++ s).
Proof.
  intros Hne Hkeep Hlimit. revert run cur.
  induction s as [|x s IH]; intros run cur; cbn [squeeze].
  - set (f := if limit <=? run then keep else run).
    pose proof (longest_run_from_other c d cur f [] Hne) as Hf.
    pose proof (longest_run_from_other c d cur run [] Hne) as Hr.
    rewrite app_nil_r in Hf. rewrite Hf, Hr. simpl. subst f.
    destruct (Nat.leb_spec limit run); repeat case_decide; lia.
  - case_bool_decide as Hx.
    + subst x. etransitivity; [apply IH|].
      replace (repeat c (S run) ++ s) with (repeat c run ++ c :: s); [done|].
      cbn [repeat]. by rewrite (repeat_cons run c), <- app_assoc.
    + rewrite !(longest_run_from_other c d) by done.
      assert (forall cur',
                longest_run_from d cur' (x :: squeeze c limit keep 0 s)
                <= longest_run_from d cur' (x :: s)) as Hstep.
      { intros cur'. simpl. specialize (IH 0).
        case_bool_decide; [apply (IH (S cur'))|].
        specialize (IH 0). simpl in IH. lia. }
      pose proof (Hstep cur). pose proof (Hstep 0).
      destruct (Nat.leb_spec limit run); repeat case_decide; lia.
Qed.

Lemma lstrip_suffix (s : str) : exists pre, s = pre ++ lstrip s.
Proof.
  induction s as [|x s [pre IH]]; [by exists []|]. simpl.
  destruct (is_space x); [|by exists []].
  exists (x :: pre). simpl. by f_equal.
Qed.

(** What [strip] returns occurs in what it was given. *)
Lemma strip_occurs_in (s : str) : occurs (strip s) s.
Proof.
  unfold strip, rstrip.
  destruct (lstrip_suffix s) as [pre Hpre].
  destruct (lstrip_suffix (reverse (lstrip s))) as [post Hpost].
  exists pre, (reverse post).
  rewrite <- reverse_app, <- Hpost, reverse_involutive. done.
Qed.

Lemma occurs_trans (u v s : str) : occurs u v -> occurs v s -> occurs u s.
Proof.
  intros (p1 & q1 & ->) (p2 & q2 & ->).
  exists (p2 ++ p1), (q1 ++ q2). by rewrite <- !app_assoc.
Qed.

(** The cleaned text holds no two spaces in a row, no three line breaks
    in a row, and no white space at either end. *)
Theorem cleanup_is_tidy (extracted_text : str) :
  ~ occurs (lit "  ") (cleanup extracted_text)
  /\ ~ occurs [newline; newline; newline] (cleanup extracted_text)
  /\ strip (cleanup extracted_text) = cleanup extracted_text.
Proof.
  unfold cleanup.
  set (a := squeeze newline 3 2 0 extracted_text).
  set (b := squeeze " "%char 2 1 0 a).
  split; [|split].
  - intros H. apply (occurs_trans _ _ b) in H; [|apply strip_occurs_in].
    apply (occurs_run_le " "%char 2) in H.
    pose proof (squeeze_longest_run " "%char 2 1 0 a ltac:(lia)).
    fold b in H0. lia.
  - intros H. apply (occurs_trans _ _ b) in H; [|apply strip_occurs_in].
    apply (occurs_run_le newline 3) in H.
    pose proof (squeeze_other_run " "%char newline 2 1 0 0 a
                  ltac:(done) ltac:(lia) ltac:(lia)) as Hb.
    pose proof (squeeze_longest_run newline 3 2 0 extracted_text ltac:(lia)).
    unfold longest_run in *. fold a in H0. fold b in Hb. simpl in Hb. lia.
  - apply strip_idem.
Qed.

End CleanupProps.

(** ** Scanned documents *)

Module ExtractMore.

Import Exn Py ExamPrep Pipeline TextRuns PyStrFacts.

Section World.

Variable py_repr : pyval -> str.
Variable float_of_str : str -> option float.
Variable json_loads : str -> result pyval.
Variable groq_chat : str -> result str.
Variable groq_api_key : option str.
Variable fs : str -> option fsnode.
Variable pdf_page_texts : str -> result (list (result str)).
Variable docx_raw_text : str -> result str.
Variable utf8_decode : str -> result str.

Local Abbreviation extract_text_from_file :=
  (extract_text_from_file fs pdf_page_texts docx_raw_text utf8_decode).
Local Abbreviation process_paper :=
  (process_paper py_repr float_of_str json_loads groq_chat groq_api_key fs
     pdf_page_texts docx_raw_text utf8_decode).

Lemma page_parts_blank (pages : list (result str)) :
  Forall blank_page pages -> page_parts pages = [].
Proof.
  induction 1 as [|page pages Hp _ IH]; [done|].
  cbn [page_parts flat_map]. fold (page_parts pages). rewrite IH.
  destruct page as [text|]; [|done]. cbn in Hp. by rewrite Hp.
Qed.

(** A PDF none of whose pages yields text (a scan, say) extracts to the
    empty text, and its paper is reported as a failure: nothing is sent
    to question generation. *)
Theorem scanned_pdf_is_a_failure (p : paper) (file_path bytes : str)
    (pages : list (result str)) :
  let filename := default (lit "unknown") (p_filename p) in
  p_filePath p = Some file_path ->
  file_path <> [] ->
  fs file_path = Some (RegularFile bytes) ->
  lower (splitext filename).2 = lit ".pdf" ->
  pdf_page_texts bytes = Ok pages ->
  Forall blank_page pages ->
  extract_text_from_file file_path filename = Ok []
  /\ process_paper p
     = PaperFailed
         (ValueError
            (lit "Could not extract any readable text from " ++ filename
               ++ lit ". The PDF may be corrupted, scanned "
               ++ lit "(image-based), or encrypted.")).
Proof.
  intros filename Hpath Hne Hfs Hext Hpdf Hblank.
  assert (extract_text_from_file file_path filename = Ok []) as Hex.
  { unfold Pipeline.extract_text_from_file. rewrite Hfs, Hext.
    rewrite bool_decide_eq_true_2 by done.
    unfold read_file. rewrite Hfs. cbn [Exn.bind]. rewrite Hpdf.
    cbn [Exn.bind]. by rewrite page_parts_blank. }
  split; [done|].
  unfold Pipeline.process_paper. rewrite Hpath. fold filename.
  destruct file_path as [|c file_path]; [done|].
  rewrite Hfs, Hex. done.
Qed.

End World.

(** [scanned_pdf_is_a_failure] at a scan of two pages. *)
Lemma scanned_pdf_is_a_failure_witness :
  extract_text_from_file MoreExamples.scan_disk MoreExamples.scan_pages
    Examples.no_docx Examples.utf8_ascii MoreExamples.scan_path
    (lit "Scan.PDF")
  = Ok []
  /\ process_paper Examples.no_repr Examples.no_float Examples.loads_object
       Examples.groq_down (Some (lit "key")) MoreExamples.scan_disk
       MoreExamples.scan_pages Examples.no_docx Examples.utf8_ascii
       MoreExamples.scan_paper
     = PaperFailed
         (ValueError
            (lit "Could not extract any readable text from "
               ++ lit "Scan.PDF"
               ++ lit ". The PDF may be corrupted, scanned "
               ++ lit "(image-based), or encrypted.")).
Proof.
  apply (scanned_pdf_is_a_failure Examples.no_repr Examples.no_float
           Examples.loads_object Examples.groq_down (Some (lit "key"))
           MoreExamples.scan_disk MoreExamples.scan_pages Examples.no_docx
           Examples.utf8_ascii MoreExamples.scan_paper MoreExamples.scan_path
           MoreExamples.scan_bytes
           [Ok (lit "  ");
            Err (LibraryError (lit "page cannot be read"))]).
  - reflexivity.
  - discriminate.
  - vm_compute. reflexivity.
  - vm_compute. reflexivity.
  - reflexivity.
  - constructor; [vm_compute; reflexivity|].
    constructor; [exact I|constructor].
Defined.

End ExtractMore.

(** ** Facts about [find] and [filter] *)

Module FindFacts.

Import PyStrFacts.

Section Find.

Context {A : Type}.

Lemma find_app (p : A -> bool) (l1 l2 : list A) :
  List.find p (l1 ++ l2)
  = match List.find p l1 with
    | Some x => Some x
    | None => List.find p l2
    end.
Proof.
  induction l1 as [|a l1 IH]; [done|]. simpl. by destruct (p a).
Qed.

Lemma find_fmap_stable (p : A -> bool) (f : A -> A) (l : list A) :
  (forall r, p (f r) = p r) ->
  (forall r, p r = true -> f r = r) ->
  List.find p (f <$> l) = List.find p l.
Proof.
  intros Hp Hf. induction l as [|a l IH]; [done|].
  rewrite fmap_cons. simpl. rewrite Hp.
  destruct (p a) eqn:E; [by rewrite Hf|done].
Qed.

Lemma find_filter_keep (p q : A -> bool) (l : list A) :
  (forall r, p r = true -> q r = true) ->
  List.find p (List.filter q l) = List.find p l.
Proof.
  intros H. induction l as [|a l IH]; [done|]. simpl.
  destruct (q a) eqn:Eq; simpl.
  - by destruct (p a).
  - destruct (p a) eqn:Ep; [|done]. apply H in Ep. congruence.
Qed.

Lemma find_filter_none (p q : A -> bool) (l : list A) :
  (forall r, q r = true -> p r = false) ->
  List.find p (List.filter q l) = None.
Proof.
  intros H. induction l as [|a l IH]; [done|]. simpl.
  destruct (q a) eqn:Eq; [|done]. simpl. by rewrite (H a Eq).
Qed.

Lemma find_filter_both (p q : A -> bool) (l : list A) :
  List.find p (List.filter q l) = List.find (fun r => q r && p r) l.
Proof.
  induction l as [|a l IH]; [done|]. simpl.
  destruct (q a); simpl; [by destruct (p a)|done].
Qed.

Lemma find_None_filter (p : A -> bool) (l : list A) :
  List.find p l = None <-> List.filter p l = [].
Proof.
  induction l as [|a l IH]; [done|]. simpl. by destruct (p a).
Qed.

Lemma elem_of_filter_bool (p : A -> bool) (l : list A) (x : A) :
  x ∈ List.filter p l <-> x ∈ l /\ p x = true.
Proof.
  rewrite !list_elem_of_In. apply filter_In.
Qed.

Lemma NoDup_fmap_filter {B} (f : A -> B) (q : A -> bool) (l : list A) :
  NoDup (f <$> l) -> NoDup (f <$> List.filter q l).
Proof.
  induction l as [|a l IH]; [done|]. rewrite fmap_cons.
  intros [Ha Hnd]%NoDup_cons. simpl.
  destruct (q a); [|by apply IH]. rewrite fmap_cons. apply NoDup_cons.
  split; [|by apply IH]. intros Hin. apply Ha.
  apply list_elem_of_fmap in Hin as (y & -> & Hy).
  apply elem_of_filter_bool in Hy as [Hy _]. by apply list_elem_of_fmap_2.
Qed.

End Find.

End FindFacts.

(** ** The user tables ([database.py]) *)

Module DatabaseProps.

Import Exn Py UserStore Database UserStoreProps FindFacts PyStrFacts.

(** [delete_user] reports a deletion exactly when the user was there;
    afterwards the user is not found, every other user is found as
    before, and the table still meets its constraints if it did. *)
Theorem delete_user_removes_the_user (db : table) (cid : str) :
  let db' := (delete_user db cid).1 in
  ((delete_user db cid).2 = true <-> is_Some (get_user_by_clerk_id db cid))
  /\ get_user_by_clerk_id db' cid = None
  /\ (forall other, other <> cid ->
        get_user_by_clerk_id db' other = get_user_by_clerk_id db other)
  /\ (constraints_ok db = true -> constraints_ok db' = true).
Proof.
  unfold delete_user, get_user_by_clerk_id, select_by_clerk_id, rows_of.
  cbn [fst snd]. split; [|split; [|split]].
  - rewrite Z.ltb_lt.
    pose proof (find_None_filter
                  (fun r => bool_decide (clerk_id r = cid)) db) as H.
    destruct (List.find _ db) as [u|].
    + split; [by eexists|]. intros _.
      destruct (List.filter _ db); [|cbn; lia].
      discriminate (proj2 H eq_refl).
    + rewrite (proj1 H eq_refl). cbn. split; [lia|]. by intros [? ?].
  - apply find_filter_none. intros r Hr.
    apply negb_true_iff in Hr. done.
  - intros other Hne. apply find_filter_keep. intros r Hr.
    apply bool_decide_eq_true in Hr. apply negb_true_iff.
    apply bool_decide_eq_false. congruence.
  - rewrite !constraints_ok_spec. intros (H1 & H2 & H3).
    split; [|split]; by apply NoDup_fmap_filter.
Qed.

(** A user that [create_or_update_user] returns is the row found under
    its Clerk id and under its email; it holds the fields of the call;
    the users of other Clerk ids are found as before. *)
Theorem stored_user_is_found (db db' : table) (now : Z) (cid e : str)
    (fn ln full img : option str) (u : user_row) :
  create_or_update_user db now cid e fn ln full img = (db', Ok (Some u)) ->
  get_user_by_clerk_id db' cid = Some u
  /\ get_user_by_email db' e = Some u
  /\ (email u, first_name u, last_name u, full_name u, image_url u,
      updated_at u)
     = (e, fn, ln, full, img, now)
  /\ (forall other, other <> cid ->
        get_user_by_clerk_id db' other = get_user_by_clerk_id db other).
Proof.
  intros Hcall.
  destruct (create_or_update_user_ok _ _ _ _ _ _ _ _ _ _ Hcall)
    as (Hok & Hu & Hcid).
  apply constraints_ok_spec in Hok as (Hids & Hcids & Hemails).
  assert (get_user_by_clerk_id db' cid = Some u) as Hfound.
  { unfold get_user_by_clerk_id, select_by_clerk_id. rewrite <- Hcid.
    by apply (find_key_unique clerk_id). }
  assert ((email u, first_name u, last_name u, full_name u, image_url u,
           updated_at u) = (e, fn, ln, full, img, now)
          /\ forall other, other <> cid ->
               get_user_by_clerk_id db' other
               = get_user_by_clerk_id db other) as [Hfields Hframe].
  { revert Hcall. unfold create_or_update_user.
    destruct (select_by_clerk_id db cid) as [row|] eqn:Hsel.
    - unfold sql_update.
      set (upd := fun r => if bool_decide (clerk_id r = cid)
                           then set_fields e fn ln full img now r else r).
      destruct (constraints_ok (upd <$> db)) eqn:Hok; cbn; [|done].
      intros [= <- _]. split.
      + apply list_elem_of_fmap in Hu as (r & -> & Hr).
        unfold upd in *. destruct (bool_decide (clerk_id r = cid)) eqn:E;
          [done|]. apply bool_decide_eq_false in E. done.
      + intros other Hne. unfold get_user_by_clerk_id, select_by_clerk_id.
        apply find_fmap_stable; intros r; unfold upd.
        * by destruct (bool_decide (clerk_id r = cid)).
        * intros Hr%bool_decide_eq_true.
          rewrite bool_decide_eq_false_2; [done|congruence].
    - unfold sql_insert.
      set (new := {| id := cid; clerk_id := cid; email := e;
                     first_name := fn; last_name := ln; full_name := full;
                     image_url := img; created_at := now;
                     updated_at := now |}).
      destruct (constraints_ok (db ++ [new])) eqn:Hok; cbn; [|done].
      intros [= <- _]. split.
      + assert (u = new) as ->; [|done].
        apply (NoDup_key_inj clerk_id (db ++ [new])); try done.
        apply elem_of_app. right. by apply list_elem_of_singleton.
      + intros other Hne. unfold get_user_by_clerk_id, select_by_clerk_id.
        rewrite find_app. destruct (List.find _ db); [done|]. cbn.
        rewrite bool_decide_eq_false_2; [done|congruence]. }
  split; [done|]. split; [|done].
  unfold get_user_by_email.
  replace e with (email u) by (by injection Hfields).
  by apply (find_key_unique email).
Qed.

Lemma keyed_spec (uid k : str) (r : data_row) :
  keyed uid k r = true <-> user_id r = uid /\ key r = k.
Proof.
  unfold keyed. by rewrite andb_true_iff, !bool_decide_eq_true.
Qed.

Lemma keyed_false (uid k : str) (r : data_row) :
  keyed uid k r = false <-> ~ (user_id r = uid /\ key r = k).
Proof.
  rewrite <- keyed_spec. by destruct (keyed uid k r).
Qed.

Lemma get_user_data_set (t : data_table) (now : Z) (uid k v uid' k' : str) :
  get_user_data (set_user_data t now uid k v) uid' k'
  = if bool_decide (uid' = uid /\ k' = k) then Some v
    else get_user_data t uid' k'.
Proof.
  unfold get_user_data, set_user_data. cbn [data_rows].
  rewrite find_app. case_bool_decide as Hsame.
  - destruct Hsame as [-> ->].
    rewrite find_filter_none by (intros r Hr; by apply negb_true_iff).
    cbn [List.find]. unfold keyed. cbn [user_id key].
    by rewrite !bool_decide_eq_true_2.
  - rewrite find_filter_keep.
    + destruct (List.find _ (data_rows t)); [done|]. cbn [List.find].
      unfold keyed. cbn [user_id key].
      destruct (bool_decide (uid = uid')) eqn:E1;
        destruct (bool_decide (k = k')) eqn:E2; try done.
      apply bool_decide_eq_true in E1, E2. by destruct Hsame.
    + intros r [Hu Hk]%keyed_spec. apply negb_true_iff, keyed_false.
      intros [Hu' Hk']. apply Hsame. split; congruence.
Qed.

Lemma largest_row_id_ge (t : data_table) :
  last_row_id t <= largest_row_id t
  /\ Forall (fun r => row_id r <= largest_row_id t) (data_rows t).
Proof.
  unfold largest_row_id.
  induction (data_rows t) as [|r rows [IH1 IH2]]; [by split|].
  rewrite fmap_cons. cbn [foldr]. split; [lia|].
  constructor; [lia|].
  eapply Forall_impl; [exact IH2|]. cbn. intros x Hx. lia.
Qed.

(** What is stored under a user and a key is what [get_user_data] reads
    back; storing it changes what is read for no other user or key; and
    afterwards the table holds one row for the pair, the last one, under
    a row id that was never used before: it is larger than the id the
    sequence records and than the id of every row, so that the row ids
    stay distinct if they were. *)
Theorem user_data_round_trip (t : data_table) (now : Z)
    (uid k v uid' k' : str) :
  let t' := set_user_data t now uid k v in
  get_user_data t' uid' k'
  = (if bool_decide (uid' = uid /\ k' = k) then Some v
     else get_user_data t uid' k')
  /\ List.filter (keyed uid k) (data_rows t')
     = [{| row_id := last_row_id t'; user_id := uid; key := k;
           value := v; data_created_at := now; data_updated_at := now |}]
  /\ last (data_rows t') = head (List.filter (keyed uid k) (data_rows t'))
  /\ last_row_id t < last_row_id t'
  /\ Forall (fun r => row_id r < last_row_id t') (data_rows t)
  /\ (NoDup (row_id <$> data_rows t) -> NoDup (row_id <$> data_rows t')).
Proof.
  cbn zeta. split; [apply get_user_data_set|].
  assert (List.filter (keyed uid k) (data_rows (set_user_data t now uid k v))
          = [{| row_id := largest_row_id t + 1; user_id := uid; key := k;
                value := v; data_created_at := now;
                data_updated_at := now |}]) as Hrows.
  { unfold set_user_data. cbn [data_rows]. rewrite List.filter_app.
    assert (List.filter (keyed uid k)
              (List.filter (fun r => negb (keyed uid k r)) (data_rows t))
            = []) as ->.
    { induction (data_rows t) as [|r rows IH]; [done|]. cbn [List.filter].
      destruct (keyed uid k r) eqn:E; cbn [negb List.filter];
        [done|by rewrite E]. }
    cbn [app List.filter]. unfold keyed. cbn [user_id key].
    by rewrite !bool_decide_eq_true_2. }
  destruct (largest_row_id_ge t) as [Hseq Hrows_le].
  assert (Forall (fun r => row_id r < largest_row_id t + 1) (data_rows t))
    as Hbelow.
  { eapply Forall_impl; [exact Hrows_le|]. cbn. intros x Hx. lia. }
  split; [done|]. rewrite Hrows. split.
  { unfold set_user_data. cbn [data_rows]. by rewrite last_snoc. }
  unfold set_user_data. cbn [data_rows last_row_id].
  split; [lia|]. split; [done|].
  intros Hnd. rewrite fmap_app. apply NoDup_app.
  split; [by apply NoDup_fmap_filter|].
  split; [|apply NoDup_singleton].
  intros i Hi Hnew. cbn in Hnew. apply list_elem_of_singleton in Hnew as ->.
  apply list_elem_of_fmap in Hi as (r & Hr & Hin).
  apply elem_of_filter_bool in Hin as [Hin _].
  rewrite Forall_forall in Hbelow. specialize (Hbelow r Hin). lia.
Qed.

Lemma data_ok_spec (t : data_table) :
  data_ok t = true
  <-> NoDup ((fun r => (user_id r, key r)) <$> data_rows t).
Proof. unfold data_ok. by rewrite bool_decide_eq_true. Qed.

Lemma set_user_data_ok (t : data_table) (now : Z) (uid k v : str) :
  data_ok t = true -> data_ok (set_user_data t now uid k v) = true.
Proof.
  rewrite !data_ok_spec. intros Hnd. unfold set_user_data. cbn [data_rows].
  rewrite fmap_app. apply NoDup_app. split; [by apply NoDup_fmap_filter|].
  split; [|apply NoDup_singleton].
  intros p Hp Hnew. cbn in Hnew. apply list_elem_of_singleton in Hnew as ->.
  apply list_elem_of_fmap in Hp as (r & Hr & Hin).
  apply elem_of_filter_bool in Hin as [_ Hk].
  apply negb_true_iff, keyed_false in Hk. apply Hk.
  by injection Hr as <- <-.
Qed.

Lemma foldl_insert_lookup (rows : list data_row) (k : str) :
  NoDup (key <$> rows) ->
  foldl (fun d row => <[key row := value row]> d) (∅ : gmap str str) rows
    !! k
  = value <$> List.find (fun r => bool_decide (key r = k)) rows.
Proof.
  induction rows as [|r rows IH] using rev_ind; intros Hnd; [done|].
  rewrite foldl_app, find_app. cbn.
  rewrite fmap_app in Hnd. apply NoDup_app in Hnd as (Hnd & Hfresh & _).
  destruct (decide (key r = k)) as [<- | Hne].
  - rewrite lookup_insert_eq, bool_decide_eq_true_2 by done.
    destruct (List.find _ rows) as [r'|] eqn:E; [|done].
    apply find_some in E as [Hin Hk%bool_decide_eq_true].
    destruct (Hfresh (key r)).
    + rewrite <- Hk. apply list_elem_of_fmap_2. by apply list_elem_of_In.
    + cbn. left.
  - rewrite lookup_insert_ne by done. rewrite IH by done.
    rewrite bool_decide_eq_false_2 by done.
    by destruct (List.find _ rows).
Qed.

Lemma get_all_user_data_lookup (t : data_table) (uid k : str) :
  data_ok t = true ->
  get_all_user_data t uid !! k = get_user_data t uid k.
Proof.
  intros Hok. unfold get_all_user_data, get_user_data.
  apply data_ok_spec in Hok.
  rewrite foldl_insert_lookup.
  - by rewrite find_filter_both.
  - clear -Hok. induction (data_rows t) as [|r rows IH]; [apply NoDup_nil_2|].
    rewrite fmap_cons in Hok. apply NoDup_cons in Hok as [Hr Hnd].
    simpl. case_bool_decide as Hu; [|by apply IH].
    rewrite fmap_cons. apply NoDup_cons. split; [|by apply IH].
    intros Hin. apply Hr.
    apply list_elem_of_fmap in Hin as (y & Hy & Hin).
    apply elem_of_filter_bool in Hin as [Hin Hyu%bool_decide_eq_true].
    apply list_elem_of_fmap. exists y. split; [|done].
    by rewrite Hy, Hu, Hyu.
Qed.

(** Under the table's unique constraint, which [set_user_data] keeps,
    the dictionary of [get_all_user_data] holds under each key what
    [get_user_data] reads for it. *)
Theorem user_data_views_agree (t : data_table) (now : Z) (uid k v : str) :
  data_ok t = true ->
  data_ok (set_user_data t now uid k v) = true
  /\ forall uid' k',
       get_all_user_data t uid' !! k' = get_user_data t uid' k'.
Proof.
  intros Hok. split; [by apply set_user_data_ok|].
  intros uid' k'. by apply get_all_user_data_lookup.
Qed.

(** [stored_user_is_found] for [alice], added to a table that holds
    [bob]. *)
Lemma stored_user_is_found_witness :
  get_user_by_clerk_id [Examples.bob; Examples.alice] (lit "user_a")
  = Some Examples.alice
  /\ get_user_by_email [Examples.bob; Examples.alice] (lit "a@x.org")
     = Some Examples.alice
  /\ (email Examples.alice, first_name Examples.alice,
      last_name Examples.alice, full_name Examples.alice,
      image_url Examples.alice, updated_at Examples.alice)
     = (lit "a@x.org", None, None, None, None, 1)
  /\ (forall other, other <> lit "user_a" ->
        get_user_by_clerk_id [Examples.bob; Examples.alice] other
        = get_user_by_clerk_id [Examples.bob] other).
Proof.
  apply (stored_user_is_found [Examples.bob] [Examples.bob; Examples.alice] 1
           (lit "user_a") (lit "a@x.org") None None None None Examples.alice).
  vm_compute. reflexivity.
Defined.

(** [user_data_views_agree] at a table with one preference. *)
Lemma user_data_views_agree_witness :
  data_ok (set_user_data MoreExamples.prefs 2 (lit "user_a") (lit "theme")
             (lit "light"))
  = true
  /\ forall uid' k',
       get_all_user_data MoreExamples.prefs uid' !! k'
       = get_user_data MoreExamples.prefs uid' k'.
Proof.
  apply (user_data_views_agree MoreExamples.prefs 2 (lit "user_a")
           (lit "theme") (lit "light")).
  vm_compute. reflexivity.
Defined.

End DatabaseProps.

(** ** The account routes ([routes/auth.py]) *)

Module AuthProps.

Import Exn Py UserStore Database Auth.
Import UserStoreProps FindFacts DatabaseProps PyStrFacts.

(** [create_or_update_user] returns a row or raises; when it raises the
    table is as before. *)
Lemma create_or_update_user_cases (db : table) (now : Z) (cid e : str)
    (fn ln full img : option str) :
  match create_or_update_user db now cid e fn ln full img with
  | (_, Ok (Some _)) => True
  | (_, Ok None) => False
  | (db', Err _) => db' = db
  end.
Proof.
  unfold create_or_update_user.
  destruct (select_by_clerk_id db cid) as [row|] eqn:Hsel.
  - unfold sql_update.
    set (upd := fun r => if bool_decide (clerk_id r = cid)
                         then set_fields e fn ln full img now r else r).
    destruct (constraints_ok (upd <$> db)); cbn; [|done].
    destruct (select_by_id (upd <$> db) (id row)) eqn:E; [done|].
    apply find_some in Hsel as [Hin _].
    assert (In (upd row) (upd <$> db)) as Hin'
      by (apply in_map_iff; by exists row).
    pose proof (find_none _ _ E _ Hin') as H. cbn beta in H.
    rewrite bool_decide_eq_true_2 in H; [done|].
    unfold upd. by destruct (bool_decide (clerk_id row = cid)).
  - unfold sql_insert.
    set (new := {| id := cid; clerk_id := cid; email := e;
                   first_name := fn; last_name := ln; full_name := full;
                   image_url := img; created_at := now;
                   updated_at := now |}).
    destruct (constraints_ok (db ++ [new])); cbn; [|done].
    destruct (select_by_id (db ++ [new]) cid) eqn:E; [done|].
    assert (In new (db ++ [new])) as Hin'
      by (apply in_or_app; right; by left).
    pose proof (find_none _ _ E _ Hin') as H. cbn beta in H.
    by rewrite bool_decide_eq_true_2 in H.
Qed.

(** [sync_user] answers 400 exactly when the Clerk id or the email is
    missing or empty; it never answers "Failed to sync user"; unless it
    answers 200 the table is as before; and when it answers 200 the user
    it sends is the one [get_user] then finds, under the Clerk id and the
    email of the request. *)
Theorem sync_user_replies (db : table) (now : Z) (data : sync_body) :
  let db' := (sync_user db now (Some data)).1 in
  let reply := (sync_user db now (Some data)).2 in
  (sync_status reply = 400
   <-> given (b_clerk_id data) = false \/ given (b_email data) = false)
  /\ reply <> SyncNoUser
  /\ (sync_status reply <> 200 -> db' = db)
  /\ (forall user, reply = SyncOk user ->
        exists row,
          get_user db' (s_clerk_id user) = GetOk row
          /\ summary row = user
          /\ b_clerk_id data = Some (s_clerk_id user)
          /\ b_email data = Some (s_email user)).
Proof.
  cbn zeta. unfold sync_user.
  destruct (given (b_clerk_id data)) eqn:Hc; cbn [negb orb fst snd];
    [|repeat split; try done; auto].
  destruct (given (b_email data)) eqn:He; cbn [negb orb fst snd];
    [|repeat split; try done; auto].
  destruct (b_clerk_id data) as [cid|] eqn:Hcid; [|done].
  destruct (b_email data) as [e|] eqn:Hemail; [|done].
  cbn [default from_option]. unfold Datatypes.id.
  set (full := if given (b_full_name data) then b_full_name data
               else b_name data).
  pose proof (create_or_update_user_cases db now cid e (b_first_name data)
                (b_last_name data) full (b_image_url data)) as Hcases.
  destruct (create_or_update_user db now cid e (b_first_name data)
              (b_last_name data) full (b_image_url data))
    as [db' [[u|]|ex]] eqn:Hcall; [|done|]; cbn [fst snd].
  - split; [split; [done|by intros [?|?]]|].
    split; [done|]. split; [done|].
    intros user [= <-].
    destruct (create_or_update_user_ok _ _ _ _ _ _ _ _ _ _ Hcall)
      as (Hok & Hu & Hucid).
    apply constraints_ok_spec in Hok as (_ & Hcids & Hemails).
    exists u. cbn [summary s_clerk_id s_email].
    split; [|split; [done|]].
    + unfold get_user, get_user_by_clerk_id, select_by_clerk_id.
      by rewrite (find_key_unique clerk_id).
    + split; [by rewrite Hucid|].
      revert Hcall Hu Hucid. clear. unfold create_or_update_user.
      destruct (select_by_clerk_id db cid) as [row|] eqn:Hsel.
      * unfold sql_update.
        set (upd := fun r => if bool_decide (clerk_id r = cid)
                             then set_fields e (b_first_name data)
                                    (b_last_name data) full
                                    (b_image_url data) now r
                             else r).
        destruct (constraints_ok (upd <$> db)); cbn; [|done].
        intros [= <- _] Hu Hucid.
        apply list_elem_of_fmap in Hu as (r & -> & Hr). unfold upd in *.
        destruct (bool_decide (clerk_id r = cid)) eqn:E; [done|].
        by apply bool_decide_eq_false in E.
      * unfold sql_insert.
        destruct (constraints_ok _) eqn:Hok; cbn; [|done].
        intros [= <- Hfind] _ _.
        apply (find_key_Some id) in Hfind as [Hin Hid].
        apply constraints_ok_spec in Hok as (Hids & _ & _).
        match type of Hin with
        | u ∈ db ++ [?new] =>
            assert (u = new) as ->; [|done];
            apply (NoDup_key_inj id (db ++ [new])); try done;
            apply elem_of_app; right; by apply list_elem_of_singleton
        end.
  - split; [split; [done|by intros [?|?]]|].
    split; [done|]. split; [done|]. done.
Qed.

Section Routes.

Variable py_repr : pyval -> str.

Local Abbreviation user_data := (user_data py_repr).
Local Abbreviation store_items := (store_items py_repr).

Lemma lit_inj (a b : string) : lit a = lit b -> a = b.
Proof.
  intros H. unfold lit in H.
  rewrite <- (string_of_list_ascii_of_string a),
          <- (string_of_list_ascii_of_string b).
  by rewrite H.
Qed.

(** What [store_items] leaves in the table. *)
Lemma store_items_spec (t : data_table) (now : Z) (uid : str) (data : dict) :
  data_ok t = true ->
  data_ok (store_items t now uid data) = true
  /\ forall (uid' : str) (k : string),
       get_user_data (store_items t now uid data) uid' (lit k)
       = match data !! k with
         | Some v =>
             if bool_decide (uid' = uid) then Some (py_str py_repr v)
             else get_user_data t uid' (lit k)
         | None => get_user_data t uid' (lit k)
         end.
Proof.
  intros Hok. unfold Auth.store_items.
  apply (map_fold_weak_ind
           (fun (t' : data_table) (m : dict) =>
              data_ok t' = true
              /\ forall (uid' : str) (k : string),
                   get_user_data t' uid' (lit k)
                   = match m !! k with
                     | Some v =>
                         if bool_decide (uid' = uid)
                         then Some (py_str py_repr v)
                         else get_user_data t uid' (lit k)
                     | None => get_user_data t uid' (lit k)
                     end)).
  - split; [done|]. intros uid' k. by rewrite lookup_empty.
  - intros i x m t' Hi [Hok' IH]. split; [by apply set_user_data_ok|].
    intros uid' k. rewrite get_user_data_set.
    destruct (decide (k = i)) as [-> | Hne].
    + rewrite lookup_insert_eq.
      case_bool_decide as Hsame.
      * destruct Hsame as [-> _]. by rewrite bool_decide_eq_true_2.
      * rewrite bool_decide_eq_false_2 by (intros ->; by apply Hsame).
        rewrite IH, Hi. done.
    + rewrite lookup_insert_ne by done.
      rewrite bool_decide_eq_false_2; [apply IH|].
      intros [_ Hk]. by apply Hne, lit_inj.
Qed.

(** After a POST or PUT for a known user with a non-empty object, a GET
    serves under each key of the object the [str] of its value, and
    under every other key what was served before; the users are
    untouched. *)
Theorem posted_data_is_served (st : tables) (now now' : Z) (cid : str)
    (method : http_method) (data : dict) (user : user_row) :
  method <> GET ->
  data <> ∅ ->
  get_user_by_clerk_id (users_table st) cid = Some user ->
  data_ok (user_data_table st) = true ->
  exists st' served,
    user_data st now cid method (PyDict data) = (st', DataUpdated)
    /\ users_table st' = users_table st
    /\ user_data st' now' cid GET PyNone = (st', DataAll served)
    /\ forall k : string,
         served !! lit k
         = match data !! k with
           | Some v => Some (py_str py_repr v)
           | None =>
               get_all_user_data (user_data_table st) (id user) !! lit k
           end.
Proof.
  intros Hmethod Hdata Huser Hok.
  destruct (store_items_spec (user_data_table st) now (id user) data Hok)
    as [Hok' Hget].
  eexists _, _. split; [|split; [|split]].
  - unfold Auth.user_data. rewrite Huser.
    assert (truthy_val (PyDict data) = true) as ->
      by (cbn; by rewrite bool_decide_eq_false_2).
    by destruct method.
  - done.
  - unfold Auth.user_data. cbn [users_table]. by rewrite Huser.
  - intros k. cbn [user_data_table].
    rewrite !get_all_user_data_lookup by done.
    rewrite Hget. destruct (data !! k); [|done].
    by rewrite bool_decide_eq_true_2.
Qed.

(** Deleting a user deletes none of the data stored for them: when the
    same Clerk id is synced again, a GET serves what it served before
    the deletion. *)
Theorem deleted_user_keeps_data (st : tables) (now now' : Z) (cid : str)
    (data : sync_body) (user : user_row) (db1 db2 : table)
    (synced : user_summary) :
  get_user_by_clerk_id (users_table st) cid = Some user ->
  id user = cid ->
  b_clerk_id data = Some cid ->
  delete_user_endpoint (users_table st) cid = (db1, DeleteOk) ->
  sync_user db1 now (Some data) = (db2, SyncOk synced) ->
  (user_data {| users_table := db1; user_data_table := user_data_table st |}
     now' cid GET PyNone).2 = DataNoUser
  /\ (user_data {| users_table := db2; user_data_table := user_data_table st |}
        now' cid GET PyNone).2
     = (user_data st now' cid GET PyNone).2.
Proof.
  intros Huser Hid Hcid Hdel Hsync.
  assert (db1 = (delete_user (users_table st) cid).1) as Hdb1.
  { unfold delete_user_endpoint in Hdel.
    destruct (delete_user (users_table st) cid). by injection Hdel as <- _. }
  assert (get_user_by_clerk_id db1 cid = None) as Hgone.
  { rewrite Hdb1. unfold delete_user, get_user_by_clerk_id,
      select_by_clerk_id. cbn [fst].
    apply find_filter_none. intros r Hr. by apply negb_true_iff in Hr. }
  split; [unfold Auth.user_data; cbn [users_table]; by rewrite Hgone|].
  revert Hsync. unfold sync_user. rewrite Hcid.
  destruct (negb (given (Some cid)) || negb (given (b_email data)));
    [done|].
  cbn [default from_option]. unfold Datatypes.id, create_or_update_user.
  unfold get_user_by_clerk_id in Hgone. rewrite Hgone.
  unfold sql_insert. destruct (constraints_ok _) eqn:Hok; cbn; [|done].
  destruct (select_by_id _ cid) as [row|] eqn:Hrow; [|done].
  intros [= <- _].
  apply (find_key_Some id) in Hrow as [Hin Hrid].
  apply constraints_ok_spec in Hok as (_ & Hcids & _).
  unfold Auth.user_data. cbn [users_table user_data_table snd].
  rewrite Huser.
  match type of Hin with
  | row ∈ db1 ++ [?new] =>
      assert (get_user_by_clerk_id (db1 ++ [new]) cid = Some new) as ->
  end.
  { unfold get_user_by_clerk_id, select_by_clerk_id in *.
    rewrite find_app, Hgone. cbn. by rewrite bool_decide_eq_true_2. }
  cbn [snd id]. by rewrite Hid.
Qed.

End Routes.

(** [posted_data_is_served] for [alice], who changes her theme. *)
Lemma posted_data_is_served_witness :
  exists st' served,
    user_data Examples.no_repr MoreExamples.alice_tables 2 (lit "user_a") POST
      (PyDict MoreExamples.light_theme)
    = (st', DataUpdated)
    /\ users_table st' = users_table MoreExamples.alice_tables
    /\ user_data Examples.no_repr st' 3 (lit "user_a") GET PyNone
       = (st', DataAll served)
    /\ forall k : string,
         served !! lit k
         = match MoreExamples.light_theme !! k with
           | Some v => Some (py_str Examples.no_repr v)
           | None =>
               get_all_user_data
                 (user_data_table MoreExamples.alice_tables)
                 (id Examples.alice) !! lit k
           end.
Proof.
  apply (posted_data_is_served Examples.no_repr MoreExamples.alice_tables 2 3
           (lit "user_a") POST MoreExamples.light_theme Examples.alice).
  - discriminate.
  - apply insert_non_empty.
  - reflexivity.
  - vm_compute. reflexivity.
Defined.

(** [deleted_user_keeps_data] for [alice], deleted and synced again. *)
Lemma deleted_user_keeps_data_witness :
  (user_data Examples.no_repr
     {| users_table := [];
        user_data_table := user_data_table MoreExamples.alice_tables |}
     3 (lit "user_a") GET PyNone).2
  = DataNoUser
  /\ (user_data Examples.no_repr
        {| users_table := [Examples.alice];
           user_data_table := user_data_table MoreExamples.alice_tables |}
        3 (lit "user_a") GET PyNone).2
     = (user_data Examples.no_repr MoreExamples.alice_tables 3 (lit "user_a")
          GET PyNone).2.
Proof.
  apply (deleted_user_keeps_data Examples.no_repr MoreExamples.alice_tables
           1 3 (lit "user_a") MoreExamples.alice_body Examples.alice []
           [Examples.alice] (summary Examples.alice)).
  - reflexivity.
  - reflexivity.
  - reflexivity.
  - vm_compute. reflexivity.
  - vm_compute. reflexivity.
Defined.

End AuthProps.

(** ** The routes of [routes/exam_prep.py] *)

Module ExamRoutesProps.

Import Exn Py ExamPrep Pipeline Ids ExamRoutes FindFacts PyStrFacts.

Lemma str_of_int_inj (m n : Z) : str_of_int m = str_of_int n -> m = n.
Proof.
  unfold str_of_int, lit. intros H.
  apply (inj pretty).
  rewrite <- (string_of_list_ascii_of_string (pretty m)),
          <- (string_of_list_ascii_of_string (pretty n)).
  by rewrite H.
Qed.

Section Numbered.

Context {A : Type} (get_id : A -> str).

Lemma numbered_snoc (counter : Z) (l : list A) (x : A) :
  numbered get_id counter l ->
  get_id x = str_of_int counter ->
  numbered get_id (counter + 1) (l ++ [x]).
Proof.
  intros [Hpos Hids] Hx. split; [lia|].
  rewrite fmap_app, Hids. cbn. rewrite Hx.
  replace (counter + 1 - 1) with ((counter - 1) + 1) by lia.
  rewrite seqZ_app by lia. rewrite fmap_app. f_equal.
  rewrite seqZ_cons by lia. rewrite seqZ_nil by lia. cbn.
  do 2 f_equal. lia.
Qed.

Lemma numbered_NoDup (counter : Z) (l : list A) :
  numbered get_id counter l -> NoDup (get_id <$> l).
Proof.
  intros [_ ->]. apply NoDup_fmap_2; [|apply NoDup_seqZ].
  intros m n. apply str_of_int_inj.
Qed.

Lemma numbered_below (counter : Z) (l : list A) (x : A) :
  numbered get_id counter l -> x ∈ l ->
  exists n, 1 <= n < counter /\ get_id x = str_of_int n.
Proof.
  intros [_ Hids] Hx.
  assert (get_id x ∈ str_of_int <$> seqZ 1 (counter - 1)) as Hin
    by (rewrite <- Hids; by apply list_elem_of_fmap_2).
  apply list_elem_of_fmap in Hin as (n & Hn & Hin).
  apply elem_of_seqZ in Hin. exists n. split; [lia|done].
Qed.

End Numbered.

Lemma upload_loop_spec (now : Z) (files : list pyval) (st : store)
    (uploaded_files : list stored_paper) :
  numbered sp_id (paper_id_counter st) (uploaded_papers st) ->
  let st' := (upload_loop now files st uploaded_files).1 in
  numbered sp_id (paper_id_counter st') (uploaded_papers st')
  /\ generated_questions st' = generated_questions st
  /\ questions_id_counter st' = questions_id_counter st
  /\ exists added,
       uploaded_papers st' = uploaded_papers st ++ added
       /\ paper_id_counter st' = paper_id_counter st + Z.of_nat (length added)
       /\ forall result,
            (upload_loop now files st uploaded_files).2 = Ok result ->
            result = uploaded_files ++ added.
Proof.
  revert st uploaded_files.
  induction files as [|file rest IH]; intros st acc Hnum; cbn [upload_loop].
  - cbn [fst snd]. split; [done|]. split; [done|]. split; [done|].
    exists []. rewrite !app_nil_r. split; [done|]. split; [cbn; lia|].
    by intros ? [= <-].
  - destruct file as [| | | | | |file];
      try (cbn [fst snd]; split; [done|]; split; [done|]; split; [done|];
           exists []; rewrite !app_nil_r; split; [done|];
           split; [cbn; lia|done]).
    set (paper := {| sp_id := str_of_int (paper_id_counter st);
                     sp_filename := _; sp_content := _;
                     sp_uploaded_at := now |}).
    set (st1 := {| uploaded_papers := uploaded_papers st ++ [paper];
                   generated_questions := generated_questions st;
                   paper_id_counter := paper_id_counter st + 1;
                   questions_id_counter := questions_id_counter st |}).
    destruct (IH st1 (acc ++ [paper])) as (H1 & H2 & H3 & added & H4 & H5 & H6).
    { by apply numbered_snoc. }
    split; [done|]. split; [done|]. split; [done|].
    exists (paper :: added). split; [|split].
    + rewrite H4. cbn. by rewrite <- app_assoc.
    + rewrite H5. cbn [st1 paper_id_counter length]. lia.
    + intros result Hr. rewrite (H6 result Hr). by rewrite <- app_assoc.
Qed.

(** The stored papers are numbered 1, 2, ... in order, the counter being
    the next number; [upload_papers] keeps it so whatever the request,
    only ever appends to the papers, and answers with the ids and names
    of the papers it appended. *)
Theorem upload_papers_ids (st : store) (now : Z) (data : pyval) :
  numbered sp_id (paper_id_counter st) (uploaded_papers st) ->
  let st' := (upload_papers st now data).1 in
  numbered sp_id (paper_id_counter st') (uploaded_papers st')
  /\ NoDup (sp_id <$> uploaded_papers st')
  /\ generated_questions st' = generated_questions st
  /\ questions_id_counter st' = questions_id_counter st
  /\ exists added,
       uploaded_papers st' = uploaded_papers st ++ added
       /\ paper_id_counter st' = paper_id_counter st + Z.of_nat (length added)
       /\ forall message files,
            (upload_papers st now data).2 = UploadOk message files ->
            files = (fun f => (sp_id f, sp_filename f)) <$> added.
Proof.
  intros Hnum. cbn zeta.
  assert (forall st', (st' = st \/ exists files,
                         st' = (upload_loop now files st []).1) ->
            numbered sp_id (paper_id_counter st') (uploaded_papers st'))
    as Hkeep.
  { intros st' [-> | [files ->]]; [done|].
    by apply (upload_loop_spec now files st []). }
  unfold upload_papers.
  destruct (let* files := request_files data in iterate files)
    as [files|e].
  2:{ cbn [fst snd]. split; [done|].
      split; [by eapply numbered_NoDup|]. split; [done|]. split; [done|].
      exists []. rewrite app_nil_r. split; [done|]. split; [cbn; lia|done]. }
  pose proof (upload_loop_spec now files st [] Hnum) as Hspec.
  cbn zeta in Hspec.
  destruct (upload_loop now files st []) as [st' [uploaded|e]];
    cbn [fst snd] in *;
    destruct Hspec as (H1 & H2 & H3 & added & H4 & H5 & H6);
    (split; [done|]; split; [by eapply numbered_NoDup|];
     split; [done|]; split; [done|];
     exists added; split; [done|]; split; [done|]).
  - intros message f [= _ <-]. by rewrite (H6 uploaded eq_refl).
  - done.
Qed.

Lemma upload_loop_bad (now : Z) (good : list dict) (bad : pyval)
    (rest : list pyval) (st : store) (acc : list stored_paper) :
  (forall d, bad <> PyDict d) ->
  let r := upload_loop now ((PyDict <$> good) ++ bad :: rest) st acc in
  r.2 = Err AttributeError
  /\ Z.of_nat (length (uploaded_papers r.1))
     = Z.of_nat (length (uploaded_papers st)) + Z.of_nat (length good)
  /\ paper_id_counter r.1 = paper_id_counter st + Z.of_nat (length good).
Proof.
  intros Hbad. cbn zeta. revert st acc.
  induction good as [|d good IH]; intros st acc.
  - cbn [fmap list_fmap app upload_loop].
    destruct bad as [| | | | | |d];
      try (cbn; split; [done|]; lia).
    by destruct (Hbad d).
  - rewrite fmap_cons. cbn [app upload_loop].
    match goal with
    | |- context [upload_loop now _ ?st1 ?acc1] =>
        destruct (IH st1 acc1) as (H1 & H2 & H3)
    end.
    split; [done|]. rewrite H2, H3. cbn [uploaded_papers paper_id_counter].
    rewrite length_app. cbn [length]. lia.
Qed.

(** A request one of whose files is no object is answered with 500, yet
    the papers of the files before it have been stored and numbered. *)
Theorem failed_upload_keeps_earlier_papers (st : store) (now : Z)
    (request : dict) (good : list dict) (bad : pyval) (rest : list pyval) :
  request !! "files"%string
  = Some (PyList ((PyDict <$> good) ++ bad :: rest)) ->
  (forall d, bad <> PyDict d) ->
  let st' := (upload_papers st now (PyDict request)).1 in
  (upload_papers st now (PyDict request)).2 = UploadFailed
  /\ Z.of_nat (length (uploaded_papers st'))
     = Z.of_nat (length (uploaded_papers st)) + Z.of_nat (length good)
  /\ paper_id_counter st' = paper_id_counter st + Z.of_nat (length good).
Proof.
  intros Hfiles Hbad. cbn zeta. unfold upload_papers, request_files.
  assert (truthy_val (PyDict request) = true) as ->.
  { cbn. rewrite bool_decide_eq_false_2; [done|].
    intros ->. by rewrite lookup_empty in Hfiles. }
  cbn [negb]. unfold get. rewrite Hfiles.
  cbn [default from_option Exn.bind]. unfold Datatypes.id, iterate.
  pose proof (upload_loop_bad now good bad rest st [] Hbad) as H.
  cbn zeta in H.
  destruct (upload_loop now _ st []) as [st' [r|e]]; cbn [fst snd] in *;
    destruct H as (H1 & H2 & H3); [done|]. done.
Qed.

Section World.

Variable py_repr : pyval -> str.
Variable float_of_str : str -> option float.
Variable json_loads : str -> result pyval.
Variable groq_chat : str -> result str.
Variable groq_api_key : option str.
Variable fs : str -> option fsnode.
Variable pdf_page_texts : str -> result (list (result str)).
Variable docx_raw_text : str -> result str.
Variable utf8_decode : str -> result str.
Variable questions_docx : questions_record -> result str.

Local Abbreviation paper_questions :=
  (paper_questions py_repr float_of_str json_loads groq_chat groq_api_key fs
     pdf_page_texts docx_raw_text utf8_decode).
Local Abbreviation generate_questions :=
  (generate_questions py_repr float_of_str json_loads groq_chat groq_api_key
     fs pdf_page_texts docx_raw_text utf8_decode).
Local Abbreviation download_questions := (download_questions questions_docx).

(** The papers stored by [upload_papers] never yield a question: a
    request that sends no papers of its own is answered with 404 or with
    the 500 of "no questions could be generated", and changes nothing. *)
Theorem stored_papers_yield_nothing (st : store) (now : Z)
    (paper_ids : list str) :
  generate_questions st now [] paper_ids = (st, GenerateNoPapers)
  \/ generate_questions st now [] paper_ids = (st, GenerateNothing).
Proof.
  unfold ExamRoutes.generate_questions, papers_data.
  set (chosen := List.filter _ (uploaded_papers st)).
  destruct chosen as [|p chosen]; [by left|]. right.
  assert (flat_map paper_questions (paper_of_stored <$> p :: chosen) = [])
    as ->; [|done].
  generalize (p :: chosen) as l. intros l.
  induction l as [|x l IH]; [done|]. rewrite fmap_cons. cbn [flat_map].
  by rewrite IH.
Qed.

(** Every question a paper contributes is longer than 10 characters. *)
Lemma paper_questions_valid (p : paper) :
  Forall (fun q => 10 < len (question q)) (paper_questions p).
Proof.
  unfold Pipeline.paper_questions.
  destruct (process_paper _ _ _ _ _ _ _ _ _ p) as [|e|text r] eqn:E;
    [done|done|].
  destruct r as [questions|e]; [|done].
  unfold process_paper in E.
  destruct (p_filePath p) as [[|c path]|]; try done.
  destruct (fs (c :: path)); [|done].
  destruct (extract_text_from_file _ _ _ _ _ _); [|done].
  destruct (_ && _); [done|]. injection E as _ E.
  unfold generate_questions_with_groq in E.
  destruct groq_api_key as [[|? ?]|]; try done. injection E as <-.
  rewrite ExamPrepProps.foldl_process_chunk, app_nil_l.
  apply Forall_forall. intros q Hq.
  apply list_elem_of_In, in_flat_map in Hq as (chunk & _ & Hq).
  apply list_elem_of_In, list_elem_of_filter in Hq as [Hlong _]. done.
Qed.

(** [generate_questions] changes the store only when it answers 200.
    Then it has appended one record, numbered by the counter, which holds
    the questions of the answer; there is at least one question, and each
    is longer than 10 characters.  The records stay numbered in order. *)
Theorem generate_questions_record (st : store) (now : Z)
    (papers : list paper) (paper_ids : list str) :
  numbered qr_id (questions_id_counter st) (generated_questions st) ->
  let st' := (generate_questions st now papers paper_ids).1 in
  numbered qr_id (questions_id_counter st') (generated_questions st')
  /\ uploaded_papers st' = uploaded_papers st
  /\ paper_id_counter st' = paper_id_counter st
  /\ match (generate_questions st now papers paper_ids).2 with
     | GenerateOk _ questions =>
         questions <> []
         /\ Forall (fun q => 10 < len (question q)) questions
         /\ generated_questions st'
            = generated_questions st
                ++ [{| qr_id := str_of_int (questions_id_counter st);
                       qr_questions := questions;
                       qr_generated_at := now |}]
         /\ questions_id_counter st' = questions_id_counter st + 1
     | GenerateNoPapers | GenerateNothing => st' = st
     end.
Proof.
  intros Hnum. cbn zeta. unfold ExamRoutes.generate_questions.
  destruct (papers_data st papers paper_ids) as [|p l]; [done|].
  destruct (flat_map _ (p :: l)) as [|q qs] eqn:E; [done|].
  cbn [fst snd uploaded_papers paper_id_counter generated_questions
       questions_id_counter].
  split; [by apply numbered_snoc|]. split; [done|]. split; [done|].
  split; [done|]. split; [|done].
  rewrite <- E. apply Forall_forall. intros x Hx.
  apply list_elem_of_In, in_flat_map in Hx as (y & _ & Hx).
  pose proof (paper_questions_valid y) as Hvalid.
  rewrite Forall_forall in Hvalid. by apply Hvalid, list_elem_of_In.
Qed.

(** The questions of a 200 answer can be downloaded under the number the
    counter had: [download_questions] renders the record that holds them.
    Every other number is answered as before. *)
Theorem generated_questions_are_served (st st' : store) (now : Z)
    (papers : list paper) (paper_ids : list str) (message : str)
    (questions : list qa) :
  numbered qr_id (questions_id_counter st) (generated_questions st) ->
  generate_questions st now papers paper_ids
  = (st', GenerateOk message questions) ->
  let questions_id := str_of_int (questions_id_counter st) in
  download_questions st questions_id = DownloadNotFound
  /\ download_questions st' questions_id
     = match questions_docx {| qr_id := questions_id;
                               qr_questions := questions;
                               qr_generated_at := now |} with
       | Ok file =>
           DownloadFile
             (lit "exam_questions_" ++ questions_id ++ lit ".docx") file
       | Err e => DownloadError e
       end
  /\ forall other, other <> questions_id ->
       download_questions st' other = download_questions st other.
Proof.
  intros Hnum Hgen questions_id.
  assert (generated_questions st'
          = generated_questions st
              ++ [{| qr_id := questions_id; qr_questions := questions;
                     qr_generated_at := now |}]) as Hrec.
  { revert Hgen. unfold ExamRoutes.generate_questions.
    destruct (papers_data st papers paper_ids); [done|].
    destruct (flat_map _ _); [done|]. by intros [= <- _ <-]. }
  assert (List.find (fun q => bool_decide (qr_id q = questions_id))
            (generated_questions st) = None) as Hfresh.
  { destruct (List.find _ (generated_questions st)) as [r|] eqn:E; [|done].
    apply find_some in E as [Hin Hid%bool_decide_eq_true].
    apply list_elem_of_In in Hin.
    destruct (numbered_below qr_id _ _ r Hnum Hin) as (n & Hn & Hrn).
    rewrite Hrn in Hid. apply str_of_int_inj in Hid. lia. }
  unfold ExamRoutes.download_questions. rewrite Hrec.
  split; [by rewrite Hfresh|]. split.
  - rewrite find_app, Hfresh. cbn [List.find qr_id].
    by rewrite bool_decide_eq_true_2.
  - intros other Hne. rewrite find_app.
    destruct (List.find (fun q => bool_decide (qr_id q = other))
                (generated_questions st)); [done|].
    cbn [List.find qr_id]. rewrite bool_decide_eq_false_2; [done|].
    intros Heq. by apply Hne.
Qed.

End World.

(** [upload_papers_ids] at the first upload, of two files. *)
Lemma upload_papers_ids_witness :
  let st' := (upload_papers MoreExamples.empty_store 5
                MoreExamples.two_files).1 in
  numbered sp_id (paper_id_counter st') (uploaded_papers st')
  /\ NoDup (sp_id <$> uploaded_papers st')
  /\ generated_questions st'
     = generated_questions MoreExamples.empty_store
  /\ questions_id_counter st'
     = questions_id_counter MoreExamples.empty_store
  /\ exists added,
       uploaded_papers st'
       = uploaded_papers MoreExamples.empty_store ++ added
       /\ paper_id_counter st'
          = paper_id_counter MoreExamples.empty_store
            + Z.of_nat (length added)
       /\ forall message files,
            (upload_papers MoreExamples.empty_store 5
               MoreExamples.two_files).2
            = UploadOk message files ->
            files = (fun f => (sp_id f, sp_filename f)) <$> added.
Proof.
  apply (upload_papers_ids MoreExamples.empty_store 5 MoreExamples.two_files).
  split; [vm_compute; discriminate|reflexivity].
Defined.

(** [failed_upload_keeps_earlier_papers] at an upload whose second file
    is a number. *)
Lemma failed_upload_keeps_earlier_papers_witness :
  let st' := (upload_papers MoreExamples.empty_store 5
                (PyDict MoreExamples.broken_files)).1 in
  (upload_papers MoreExamples.empty_store 5
     (PyDict MoreExamples.broken_files)).2
  = UploadFailed
  /\ Z.of_nat (length (uploaded_papers st'))
     = Z.of_nat (length (uploaded_papers MoreExamples.empty_store))
       + Z.of_nat (length [(∅ : dict)])
  /\ paper_id_counter st'
     = paper_id_counter MoreExamples.empty_store
       + Z.of_nat (length [(∅ : dict)]).
Proof.
  apply (failed_upload_keeps_earlier_papers MoreExamples.empty_store 5
           MoreExamples.broken_files [∅] (PyInt 5) []).
  - reflexivity.
  - discriminate.
Defined.

(** [generate_questions_record] at the first generation, from the notes
    of the examples, with a chat endpoint that is down. *)
Lemma generate_questions_record_witness :
  let run :=
    generate_questions Examples.no_repr Examples.no_float
      Examples.loads_object Examples.groq_down (Some (lit "key"))
      Examples.notes_disk Examples.no_pdf Examples.no_docx
      Examples.utf8_ascii MoreExamples.empty_store 5
      [Examples.notes_paper] [] in
  numbered qr_id (questions_id_counter run.1) (generated_questions run.1)
  /\ uploaded_papers run.1 = uploaded_papers MoreExamples.empty_store
  /\ paper_id_counter run.1 = paper_id_counter MoreExamples.empty_store
  /\ match run.2 with
     | GenerateOk _ questions =>
         questions <> []
         /\ Forall (fun q => 10 < len (question q)) questions
         /\ generated_questions run.1
            = generated_questions MoreExamples.empty_store
                ++ [{| qr_id :=
                         str_of_int
                           (questions_id_counter MoreExamples.empty_store);
                       qr_questions := questions;
                       qr_generated_at := 5 |}]
         /\ questions_id_counter run.1
            = questions_id_counter MoreExamples.empty_store + 1
     | GenerateNoPapers | GenerateNothing => run.1 = MoreExamples.empty_store
     end.
Proof.
  apply (generate_questions_record Examples.no_repr Examples.no_float
           Examples.loads_object Examples.groq_down (Some (lit "key"))
           Examples.notes_disk Examples.no_pdf Examples.no_docx
           Examples.utf8_ascii MoreExamples.empty_store 5
           [Examples.notes_paper] []).
  split; [vm_compute; discriminate|reflexivity].
Defined.

(** [generated_questions_are_served] at the first generation, which
    yields the one question of [bare_record]. *)
Lemma generated_questions_are_served_witness :
  download_questions MoreExamples.docx_stub MoreExamples.empty_store
    (lit "1")
  = DownloadNotFound
  /\ download_questions MoreExamples.docx_stub MoreExamples.one_record_store
       (lit "1")
     = DownloadFile (lit "exam_questions_1.docx") (lit "PK")
  /\ forall other, other <> lit "1" ->
       download_questions MoreExamples.docx_stub
         MoreExamples.one_record_store other
       = download_questions MoreExamples.docx_stub MoreExamples.empty_store
           other.
Proof.
  apply (generated_questions_are_served Examples.no_repr Examples.no_float
           MoreExamples.loads_canned MoreExamples.groq_canned
           (Some (lit "key")) Examples.notes_disk Examples.no_pdf
           Examples.no_docx Examples.utf8_ascii MoreExamples.docx_stub
           MoreExamples.empty_store MoreExamples.one_record_store 5
           [Examples.notes_paper] []
           (lit "Generated 1 questions from 1 papers")
           [Examples.bare_normalized]).
  - split; [vm_compute; discriminate|reflexivity].
  - vm_compute. reflexivity.
Defined.

End ExamRoutesProps.

(** ** Formatting and the PDF export *)

Module WordEditorMore.

Import Exn Py WordEditor PdfFonts CleanupProps PyStrFacts.

Section Rendering.

Variable float_of_str : str -> option float.

Local Abbreviation to_float := (py_float float_of_str).
Local Abbreviation float_items := (float_items float_of_str).
Local Abbreviation merge_formatting := (merge_formatting float_of_str).
Local Abbreviation inches := (inches float_of_str).

(** What [float_items] keeps of the sides it was given. *)
Lemma float_items_lookup (value floats : dict) :
  float_items value = Ok floats ->
  forall side : string,
    match value !! side with
    | None | Some PyNone => floats !! side = None
    | Some v => exists f, to_float v = Ok f /\ floats !! side = Some (PyFloat f)
    end.
Proof.
  unfold WordEditor.float_items. revert floats.
  apply (map_fold_weak_ind
           (fun (acc : result dict) (m : dict) =>
              forall floats, acc = Ok floats ->
              forall side : string,
                match m !! side with
                | None | Some PyNone => floats !! side = None
                | Some v =>
                    exists f, to_float v = Ok f
                              /\ floats !! side = Some (PyFloat f)
                end)).
  - intros floats [= <-] side. by rewrite !lookup_empty.
  - intros i x m r Hi IH floats Hf side.
    destruct r as [acc|e]; [|done]. cbn [Exn.bind] in Hf.
    specialize (IH acc eq_refl).
    assert (x = PyNone /\ floats = acc
            \/ x <> PyNone
               /\ exists f, to_float x = Ok f
                            /\ floats = <[i := PyFloat f]> acc) as Hcase.
    { destruct x as [|b|z|fl|s|l|d]; [left; by injection Hf as <-|..];
        right; (split; [done|]);
        (destruct (to_float _) as [f|] eqn:E; [|done]);
        cbn [Exn.bind] in Hf; injection Hf as <-; by exists f. }
    destruct (decide (side = i)) as [-> | Hne].
    + rewrite lookup_insert_eq. specialize (IH i). rewrite Hi in IH.
      destruct Hcase as [[-> ->] | (Hx & f & Hf' & ->)]; [done|].
      destruct x; try done; exists f; by rewrite lookup_insert_eq.
    + rewrite lookup_insert_ne by done. specialize (IH side).
      assert (floats !! side = acc !! side) as ->; [|done].
      destruct Hcase as [[-> ->] | (Hx & f & Hf' & ->)]; [done|].
      by rewrite lookup_insert_ne.
Qed.

(** When [merge_formatting] returns, the result holds under a key the
    request does not name what was there before; under a key it names,
    the value of the request; except that a dictionary of margins is
    merged side by side into the old margins, each side given (and not
    [None]) as a float. *)
Theorem merge_formatting_lookup (existing new_values merged : dict) :
  merge_formatting existing (PyDict new_values) = Ok merged ->
  (forall key, new_values !! key = None -> merged !! key = existing !! key)
  /\ (forall key value,
        new_values !! key = Some value ->
        key <> "margins"%string \/ (forall sides, value <> PyDict sides) ->
        merged !! key = Some value)
  /\ (forall sides,
        new_values !! "margins"%string = Some (PyDict sides) ->
        exists floats old_margins,
          float_items sides = Ok floats
          /\ get existing "margins" (PyDict DEFAULT_MARGINS)
             = PyDict old_margins
          /\ merged !! "margins"%string
             = Some (PyDict (floats ∪ old_margins))
          /\ forall side,
               (floats ∪ old_margins) !! side
               = match floats !! side with
                 | Some f => Some f
                 | None => old_margins !! side
                 end).
Proof.
  unfold WordEditor.merge_formatting.
  destruct (truthy_val (PyDict new_values)) eqn:Hempty; cbn [negb].
  2:{ cbn in Hempty. apply negb_false_iff, bool_decide_eq_true in Hempty.
      subst new_values. intros [= <-].
      split; [done|]. split; intros *; by rewrite lookup_empty. }
  clear Hempty. cbn [as_dict Exn.bind]. revert merged.
  apply (map_fold_weak_ind
           (fun (acc : result dict) (m : dict) =>
              forall merged, acc = Ok merged ->
              (forall key, m !! key = None -> merged !! key = existing !! key)
              /\ (forall key value,
                    m !! key = Some value ->
                    key <> "margins"%string
                    \/ (forall sides, value <> PyDict sides) ->
                    merged !! key = Some value)
              /\ (forall sides,
                    m !! "margins"%string = Some (PyDict sides) ->
                    exists floats old_margins,
                      float_items sides = Ok floats
                      /\ get existing "margins" (PyDict DEFAULT_MARGINS)
                         = PyDict old_margins
                      /\ merged !! "margins"%string
                         = Some (PyDict (floats ∪ old_margins))
                      /\ forall side,
                           (floats ∪ old_margins) !! side
                           = match floats !! side with
                             | Some f => Some f
                             | None => old_margins !! side
                             end))).
  - intros merged [= <-]. split; [done|].
    split; intros *; by rewrite lookup_empty.
  - intros i x m r Hi IH merged Hm.
    destruct r as [formatting|e]; [|done]. cbn [Exn.bind] in Hm.
    destruct (IH formatting eq_refl) as (Hold & Hnew & Hmargins).
    assert ((i <> "margins"%string \/ forall sides, x <> PyDict sides) ->
            merged = <[i := x]> formatting ->
              (forall key, <[i := x]> m !! key = None ->
                 merged !! key = existing !! key)
              /\ (forall key value,
                    <[i := x]> m !! key = Some value ->
                    key <> "margins"%string
                    \/ (forall sides, value <> PyDict sides) ->
                    merged !! key = Some value)
              /\ (forall sides,
                    <[i := x]> m !! "margins"%string = Some (PyDict sides) ->
                    exists floats old_margins,
                      float_items sides = Ok floats
                      /\ get existing "margins" (PyDict DEFAULT_MARGINS)
                         = PyDict old_margins
                      /\ merged !! "margins"%string
                         = Some (PyDict (floats ∪ old_margins))
                      /\ forall side,
                           (floats ∪ old_margins) !! side
                           = match floats !! side with
                             | Some f => Some f
                             | None => old_margins !! side
                             end)) as Hplain.
    { intros Hv ->. split; [|split].
      - intros key Hk. apply lookup_insert_None in Hk as [Hk Hne].
        rewrite lookup_insert_ne by done. by apply Hold.
      - intros key value Hk Hcase.
        destruct (decide (key = i)) as [-> | Hne].
        + rewrite lookup_insert_eq in Hk. injection Hk as <-.
          by rewrite lookup_insert_eq.
        + rewrite lookup_insert_ne in Hk by done.
          rewrite lookup_insert_ne by done. by apply Hnew.
      - intros sides Hs.
        destruct (decide (i = "margins"%string)) as [-> | Hne].
        + rewrite lookup_insert_eq in Hs. injection Hs as ->.
          destruct Hv as [Hv | Hv]; [done|]. by destruct (Hv sides).
        + rewrite lookup_insert_ne in Hs by done.
          rewrite lookup_insert_ne by done. by apply Hmargins. }
    destruct x as [| | | | | |value];
      try (apply Hplain; [by right|by injection Hm as <-]).
    case_bool_decide as Hkey.
    2:{ apply Hplain; [by left|by injection Hm as <-]. }
    subst i.
    destruct (as_dict (get formatting "margins" (PyDict DEFAULT_MARGINS)))
      as [old_margins|] eqn:Hbase; [|done].
    cbn [Exn.bind] in Hm.
    destruct (float_items value) as [floats|] eqn:Hfloats; [|done].
    cbn [Exn.bind] in Hm. injection Hm as <-.
    split; [|split].
    + intros key Hk. apply lookup_insert_None in Hk as [Hk Hne].
      rewrite lookup_insert_ne by done. by apply Hold.
    + intros key v Hk Hcase.
      destruct (decide (key = "margins"%string)) as [-> | Hne].
      * rewrite lookup_insert_eq in Hk. injection Hk as <-.
        destruct Hcase as [Hcase | Hcase]; [done|]. by destruct (Hcase value).
      * rewrite lookup_insert_ne in Hk by done.
        rewrite lookup_insert_ne by done. by apply Hnew.
    + intros sides Hs. rewrite lookup_insert_eq in Hs. injection Hs as <-.
      exists floats, old_margins. split; [done|].
      split.
      { unfold get in *. rewrite <- (Hold "margins"%string Hi).
        destruct (formatting !! "margins"%string) as [v|]; cbn in *;
          [destruct v; try done|]; by injection Hbase as ->. }
      split; [by rewrite lookup_insert_eq|].
      intros side. rewrite lookup_union.
      by destruct (floats !! side), (old_margins !! side).
Qed.

(** [inches(value, 1)] gives a length whatever the margin is, unless the
    conversion overflows: a margin that [float] rejects, and one that is
    not a number, fall back to one inch. *)
Theorem inches_fails_only_by_overflow (value : pyval) :
  match inches value 1 with
  | Ok _ => True
  | Err e => e = OverflowError
  end
  /\ (forall e, to_float value = Err e -> e <> OverflowError ->
        inches value 1 = Ok 914400)
  /\ (forall f, to_float value = Ok f -> Prim2SF f = S754_nan ->
        inches value 1 = Ok 914400).
Proof.
  assert (Inches 1 = Ok 914400) as Hone by (vm_compute; reflexivity).
  assert (forall e, to_float value = Err e ->
            e = OverflowError \/ type_or_value_error e = true) as Hkinds.
  { intros e. destruct value as [|[]|z|f|s|l|d]; cbn; try (intros [= <-]; auto).
    - unfold float_of_Z. destruct (is_infinity _); intros [= <-]; auto.
    - destruct (float_of_str s); intros [= <-]; auto. }
  assert (forall f, match Inches f with
                    | Ok _ => True
                    | Err e => e = OverflowError
                               \/ type_or_value_error e = true
                    end) as Hin.
  { intros f. unfold Inches, int_of_float.
    destruct (Prim2SF _); cbn; auto. }
  split; [|split].
  - unfold WordEditor.inches.
    destruct (to_float value) as [f|e] eqn:E; cbn [Exn.bind].
    + specialize (Hin f). destruct (Inches f) as [n|e]; [done|].
      destruct Hin as [-> | Hk]; [done|]. by rewrite Hk, Hone.
    + destruct (Hkinds e eq_refl) as [-> | Hk]; [done|]. by rewrite Hk, Hone.
  - intros e E Hne. unfold WordEditor.inches. rewrite E. cbn [Exn.bind].
    destruct (Hkinds e E) as [-> | Hk]; [done|]. by rewrite Hk.
  - intros f E Hnan. unfold WordEditor.inches. rewrite E. cbn [Exn.bind].
    assert (Inches f
            = Err (ValueError (lit "cannot convert float NaN to integer")))
      as ->; [|exact Hone].
    unfold Inches, int_of_float. by rewrite mul_spec, Hnan.
Qed.

End Rendering.

(** The font of a PDF is one of the eight standard fonts of its two
    families, whatever the font family and the bold and italic marks are. *)
Theorem pdf_font_is_standard (family : pyval) (base_font : str)
    (bold italic : bool) :
  base_font_of family = Ok base_font ->
  font_variant_of base_font bold italic ∈ STANDARD_FONTS.
Proof.
  intros H.
  assert (base_font = lit "Helvetica" \/ base_font = lit "Times-Roman")
    as [-> | ->].
  { destruct family; try (injection H as <-; by left); try done.
    injection H as <-. repeat case_match; auto. }
  - destruct bold, italic; vm_compute; set_solver.
  - destruct bold, italic; vm_compute; set_solver.
Qed.

Lemma split_char_no_sep (sep : ascii) (s : str) :
  Forall (fun w => sep ∉ w) (split_char sep s).
Proof.
  induction s as [|c s IH]; cbn [split_char].
  - constructor; [apply not_elem_of_nil|done].
  - destruct (ascii_dec c sep) as [-> | Hne].
    + constructor; [apply not_elem_of_nil|done].
    + destruct (split_char sep s) as [|w ws].
      * constructor; [|done]. intros Hin.
        apply list_elem_of_singleton in Hin. done.
      * apply Forall_cons in IH as [Hw Hws]. constructor; [|done].
        intros Hin. apply elem_of_cons in Hin as [-> | Hin]; done.
Qed.

Lemma split_char_not_nil (sep : ascii) (s : str) : split_char sep s <> [].
Proof.
  destruct s as [|c s]; [done|]. cbn.
  destruct (ascii_dec c sep); [done|]. by destruct (split_char sep s).
Qed.

Lemma replace_go_absent (fuel : nat) (c : ascii) (new s : str) :
  c ∉ s -> replace_go fuel [c] new s = s.
Proof.
  revert s. induction fuel as [|fuel IH]; intros s Hc; [done|].
  destruct s as [|x s]; [done|]. cbn [replace_go startswith].
  apply not_elem_of_cons in Hc as [Hx Hc].
  destruct (ascii_dec c x) as [-> | _]; [done|]. by rewrite IH.
Qed.

Lemma occurs_elem_of (u s : str) (c : ascii) : occurs u s -> c ∈ u -> c ∈ s.
Proof.
  intros (pre & post & ->) Hc. rewrite !elem_of_app. auto.
Qed.

Lemma split_char_chars (sep : ascii) (s w : str) (c : ascii) :
  w ∈ split_char sep s -> c ∈ w -> c ∈ s.
Proof.
  revert w. induction s as [|x s IH]; intros w; cbn [split_char].
  - intros Hw%list_elem_of_singleton Hc. by subst w.
  - destruct (ascii_dec x sep) as [-> | Hne].
    + intros [-> | Hw]%elem_of_cons Hc.
      * by apply not_elem_of_nil in Hc.
      * right. by apply (IH w).
    + destruct (split_char sep s) as [|v vs].
      * intros ->%list_elem_of_singleton Hc%list_elem_of_singleton.
        subst c. by left.
      * intros [-> | Hw]%elem_of_cons Hc.
        -- apply elem_of_cons in Hc as [-> | Hc]; [by left|].
           right. apply (IH v); [by left|done].
        -- right. apply (IH w); [by right|done].
Qed.

Lemma markup_free_chars (s t : str) :
  (forall c, c ∈ t -> c ∈ s) -> markup_free s = true -> markup_free t = true.
Proof.
  unfold markup_free. rewrite !forallb_forall. intros Hsub Hs c Hc.
  apply Hs. apply list_elem_of_In, Hsub. by apply list_elem_of_In.
Qed.

Section Flowables.

Variable markup_error : str -> option exn.

Local Abbreviation line_elements := (line_elements markup_error).
Local Abbreviation pdf_lines := (pdf_lines markup_error).
Local Abbreviation pdf_elements := (pdf_elements markup_error).

Local Abbreviation flowables_of font_size style :=
  (fun para : str =>
     if truthy (strip para)
     then [Paragraph (strip para) style; Spacer 1 (font_size * 0.3)%float]
     else [Spacer 1 (font_size * 0.6)%float]).
Local Abbreviation refused :=
  (fun (para : str) (e : exn) =>
     markup_free (strip para) = false /\ markup_error (strip para) = Some e).
Local Abbreviation accepted := (fun para : str => forall e, ~ refused para e).

(** One line of the content: its flowables, or what ReportLab raises. *)
Lemma line_elements_cases (para : str) (font_size : float)
    (style : pdf_style) :
  newline ∉ para ->
  (accepted para
   /\ line_elements para font_size style
      = Ok (flowables_of font_size style para))
  \/ (exists e, refused para e
                /\ line_elements para font_size style = Err e).
Proof.
  intros Hsep. unfold WordEditor.line_elements, make_paragraph.
  assert (replace [newline] (lit "<br/>") (strip para) = strip para) as ->.
  { unfold PyStr.replace. rewrite replace_go_absent; [done|].
    intros Hin. apply Hsep.
    eapply occurs_elem_of; [apply strip_occurs_in|done]. }
  destruct (strip para) as [|c text] eqn:Htext.
  { left. split; [|done]. by intros e [Hfree _]. }
  cbn [truthy negb].
  destruct (markup_free (c :: text)) eqn:Hfree.
  { left. split; [|done]. by intros e [Hfalse _]. }
  destruct (markup_error (c :: text)) as [e|] eqn:Herr.
  - right. by exists e.
  - left. split; [|done]. by intros e [_ Hsome].
Qed.

Lemma pdf_lines_cases (paras : list str) (font_size : float)
    (style : pdf_style) :
  Forall (fun para => newline ∉ para) paras ->
  (Forall accepted paras
   /\ pdf_lines paras font_size style
      = Ok (flat_map (flowables_of font_size style) paras))
  \/ (exists (k : nat) para e,
        paras !! k = Some para /\ Forall accepted (take k paras)
        /\ refused para e /\ pdf_lines paras font_size style = Err e).
Proof.
  induction 1 as [|para paras Hsep _ IH].
  { left. by split. }
  cbn [WordEditor.pdf_lines flat_map].
  destruct (line_elements_cases para font_size style Hsep)
    as [[Hacc ->] | (e & Href & ->)].
  - cbn [Exn.bind].
    destruct IH as [[Hall ->] | (k & p & e & Hk & Hbefore & Href & ->)].
    + left. split; [by constructor|done].
    + right. exists (S k), p, e. cbn [take].
      split; [done|]. split; [by constructor|done].
  - right. exists 0%nat, para, e. cbn [take]. done.
Qed.

(** The flowables of a PDF.  A line that is blank gives a spacer, any
    other line its stripped text and a spacer; the [replace] of line 238
    never finds a line break to replace.  The list is built exactly when
    ReportLab refuses the text of no line, and then it is not empty, so
    that the fallback paragraph of line 241 is never used; otherwise the
    exception of the first line refused is raised.  A content without
    ['<'] and ['&'] is never refused. *)
Theorem pdf_elements_shape (content : str) (font_size : float)
    (style : pdf_style) :
  let lines := split_char newline content in
  let flowables_of para :=
    if truthy (strip para)
    then [Paragraph (strip para) style; Spacer 1 (font_size * 0.3)%float]
    else [Spacer 1 (font_size * 0.6)%float] in
  let refused para e :=
    markup_free (strip para) = false /\ markup_error (strip para) = Some e in
  let accepted para := forall e, ~ refused para e in
  (forall elements,
     pdf_elements content font_size style = Ok elements
     <-> Forall accepted lines /\ elements = flat_map flowables_of lines)
  /\ (forall e,
        pdf_elements content font_size style = Err e
        <-> exists (k : nat) para,
              lines !! k = Some para /\ Forall accepted (take k lines)
              /\ refused para e)
  /\ flat_map flowables_of lines <> []
  /\ (markup_free content = true ->
      pdf_elements content font_size style
      = Ok (flat_map flowables_of lines)).
Proof.
  cbn zeta. unfold WordEditor.pdf_elements.
  pose proof (split_char_no_sep newline content) as Hsep.
  pose proof (split_char_not_nil newline content) as Hne.
  assert (forall (k : nat) para e,
            split_char newline content !! k = Some para ->
            Forall accepted (split_char newline content) ->
            refused para e -> False) as Hclash.
  { intros k para e Hk Hall Href.
    rewrite Forall_forall in Hall.
    apply (Hall para (list_elem_of_lookup_2 _ _ _ Hk) e Href). }
  assert (forall (k j : nat) p q e e',
            split_char newline content !! k = Some p ->
            Forall accepted (take k (split_char newline content)) ->
            refused p e ->
            split_char newline content !! j = Some q ->
            Forall accepted (take j (split_char newline content)) ->
            refused q e' -> e = e') as Hfirst.
  { intros k j p q e e' Hk Hbk Hp Hj Hbj Hq.
    destruct (lt_eq_lt_dec k j) as [[Hlt | ->] | Hlt].
    - rewrite Forall_forall in Hbj. exfalso.
      refine (Hbj p _ e Hp).
      apply (list_elem_of_lookup_2 _ k). by rewrite lookup_take_lt.
    - rewrite Hk in Hj. injection Hj as <-.
      destruct Hp as [_ Hp], Hq as [_ Hq]. congruence.
    - rewrite Forall_forall in Hbk. exfalso.
      refine (Hbk q _ e' Hq).
      apply (list_elem_of_lookup_2 _ j). by rewrite lookup_take_lt. }
  destruct (pdf_lines_cases (split_char newline content) font_size style Hsep)
    as [[Hall Hok] | (k & para & e & Hk & Hbefore & Href & Herr)].
  - rewrite Hok. split; [|split; [|split]].
    + intros elements. split; [by intros [= <-]|by intros [_ ->]].
    + intros e. split; [done|].
      intros (k & para & Hk & _ & Href). by destruct (Hclash k para e).
    + destruct (split_char newline content) as [|w ws]; [done|].
      cbn [flat_map]. by destruct (truthy (strip w)).
    + done.
  - rewrite Herr. split; [|split; [|split]].
    + intros elements. split; [done|].
      intros [Hall _]. by destruct (Hclash k para e).
    + intros e'. split.
      * intros [= <-]. by exists k, para.
      * intros (j & q & Hj & Hbj & Hq). f_equal.
        by apply (Hfirst k j para q e e').
    + destruct (split_char newline content) as [|w ws]; [done|].
      cbn [flat_map]. by destruct (truthy (strip w)).
    + intros Hfree. exfalso. destruct Href as [Hmark _].
      assert (markup_free (strip para) = true) as Hyes; [|congruence].
      apply (markup_free_chars content); [|done].
      intros c Hc.
      apply (split_char_chars newline content para);
        [by eapply list_elem_of_lookup_2|].
      eapply occurs_elem_of; [apply strip_occurs_in|done].
Qed.

End Flowables.

(** A line with a tag that is never closed makes the PDF fail, when
    ReportLab refuses it. *)
Example unclosed_tag_is_refused (font_size : float) (style : pdf_style) :
  pdf_elements Examples.strict_markup MoreExamples.unclosed_tag font_size style
  = Err (ValueError (lit "paragraph text cannot be parsed")).
Proof. reflexivity. Qed.

(** [merge_formatting_lookup] at a request for a top margin of two
    inches. *)
Lemma merge_formatting_lookup_witness :
  (forall key, MoreExamples.wide_top !! key = None ->
     MoreExamples.merged_top !! key = MoreExamples.narrow_top !! key)
  /\ (forall key value,
        MoreExamples.wide_top !! key = Some value ->
        key <> "margins"%string \/ (forall sides, value <> PyDict sides) ->
        MoreExamples.merged_top !! key = Some value)
  /\ (forall sides,
        MoreExamples.wide_top !! "margins"%string = Some (PyDict sides) ->
        exists floats old_margins,
          float_items Examples.no_float sides = Ok floats
          /\ get MoreExamples.narrow_top "margins" (PyDict DEFAULT_MARGINS)
             = PyDict old_margins
          /\ MoreExamples.merged_top !! "margins"%string
             = Some (PyDict (floats ∪ old_margins))
          /\ forall side,
               (floats ∪ old_margins) !! side
               = match floats !! side with
                 | Some f => Some f
                 | None => old_margins !! side
                 end).
Proof.
  apply (merge_formatting_lookup Examples.no_float MoreExamples.narrow_top
           MoreExamples.wide_top MoreExamples.merged_top).
  vm_compute. reflexivity.
Defined.

(** [pdf_font_is_standard] at bold Georgia. *)
Lemma pdf_font_is_standard_witness :
  font_variant_of (lit "Times-Roman") true false ∈ STANDARD_FONTS.
Proof.
  apply (pdf_font_is_standard (PyStr (lit "Georgia")) (lit "Times-Roman")
           true false).
  reflexivity.
Defined.

End WordEditorMore.

(** ** The routes of [routes/word_editor.py] *)

Module EditorRoutesProps.

Import Exn Py WordEditor EditorRoutes.
Import CandidateProps PyStrFacts.

Lemma is_str_spec (v : pyval) (s : str) : is_str v s = true <-> v = PyStr s.
Proof.
  destruct v; cbn; try (split; [done|by intros [=]]).
  rewrite bool_decide_eq_true. split; [by intros ->|by intros [= ->]].
Qed.

Lemma find_document_Some (l : list document) (v : pyval) (k : nat)
    (d : document) :
  find_document l v = Some (k, d) -> l !! k = Some d /\ v = PyStr (doc_id d).
Proof.
  revert k. induction l as [|x l IH]; intros k; [done|]. cbn.
  destruct (is_str v (doc_id x)) eqn:E.
  - intros [= <- <-]. split; [done|]. by apply is_str_spec.
  - destruct (find_document l v) as [[k' d']|]; [|done].
    intros [= <- <-]. by apply IH.
Qed.



Section Routes.

Variable float_of_str : str -> option float.
Variable rgb_from_string : str -> option (Z * Z * Z).
Variable HexColor : pyval -> result (Z * Z * Z).
Variable run_text_error : str -> option exn.
Variable font_name_error : str -> option exn.
Variable markup_error : str -> option exn.

Local Abbreviation edit_doc := (edit_doc float_of_str).
Local Abbreviation download_doc :=
  (download_doc float_of_str rgb_from_string HexColor run_text_error
     font_name_error markup_error).
Local Abbreviation add_run := (add_run run_text_error).
Local Abbreviation docx_paragraph_of :=
  (docx_paragraph_of float_of_str rgb_from_string run_text_error
     font_name_error).
Local Abbreviation docx_body :=
  (docx_body float_of_str rgb_from_string run_text_error font_name_error).
Local Abbreviation build_docx_document :=
  (build_docx_document float_of_str rgb_from_string run_text_error
     font_name_error).






(** [edit_doc] never changes the ids, the file names, the number or the
    numbering of the documents.  Unless it answers 200 it changes
    nothing.  When it answers 200 it has rewritten one document, the one
    named by the request: its formatting is the merged one, its content
    that of the request if the request holds a string, and the preview is
    the content it now has. *)
Theorem edit_doc_outcomes (st : store) (data : pyval) :
  let st' := (edit_doc st data).1 in
  doc_id_counter st' = doc_id_counter st
  /\ doc_id <$> documents st' = doc_id <$> documents st
  /\ doc_filename <$> documents st' = doc_filename <$> documents st
  /\ match (edit_doc st data).2 with
     | EditOk preview =>
         exists request (k : nat) doc doc',
           data = PyDict request
           /\ get request "documentId" PyNone = PyStr (doc_id doc)
           /\ documents st !! k = Some doc
           /\ documents st' = <[k := doc']> (documents st)
           /\ merge_formatting float_of_str (doc_formatting doc)
                (get request "formatting" (PyDict ∅))
              = Ok (doc_formatting doc')
           /\ doc_content doc'
              = match get request "content" PyNone with
                | PyStr content => content
                | _ => doc_content doc
                end
           /\ preview = doc_content doc'
     | EditNotFound | EditError _ => st' = st
     end.
Proof.
  cbn zeta. unfold EditorRoutes.edit_doc.
  destruct (as_dict data) as [request|e] eqn:Hdata; [|done].
  destruct (find_document _ _) as [[k doc]|] eqn:Hfind; [|done].
  destruct (merge_formatting _ _ _) as [merged|e] eqn:Hmerge; [|done].
  cbn [fst snd documents doc_id_counter].
  apply find_document_Some in Hfind as [Hk Hid].
  split; [done|]. split; [|split].
  - rewrite list_fmap_insert. cbn [doc_id].
    apply list_insert_id. by rewrite list_lookup_fmap, Hk.
  - rewrite list_fmap_insert. cbn [doc_filename].
    apply list_insert_id. by rewrite list_lookup_fmap, Hk.
  - eexists request, k, doc, _.
    split; [destruct data; try done; by injection Hdata as ->|].
    split; [done|]. split; [done|].
    split; [done|]. cbn [doc_formatting doc_content]. done.
Qed.

Lemma rfind_last_dot (stem ext : str) :
  "."%char ∉ ext ->
  rfind (lit ".") (stem ++ lit "." ++ ext) = len stem.
Proof.
  intros Hext. set (s := stem ++ lit "." ++ ext).
  assert (startswith (drop (length stem) s) (lit ".") = true) as Hat.
  { unfold s. rewrite drop_app_length. apply startswith_app. }
  assert (length s = S (length stem + length ext)) as Hlen.
  { unfold s. rewrite !length_app. cbn. lia. }
  destruct (rfind_last (lit ".") s)
    as [[_ Hnone] | (k & Hk & Hle & Hstart & Hlast)].
  - rewrite Hnone in Hat; [done|lia].
  - rewrite Hk. unfold len. f_equal.
    destruct (decide (k < length stem)%nat) as [Hlt|Hge].
    { rewrite Hlast in Hat; [done|lia]. }
    destruct (decide (k = length stem)) as [->|Hne]; [done|].
    exfalso. apply Hext.
    assert (drop k s = drop (k - S (length stem)) ext) as Hdrop.
    { unfold s. rewrite drop_app_ge by lia.
      replace (k - length stem)%nat with (S (k - S (length stem))) by lia.
      done. }
    rewrite Hdrop in Hstart.
    apply startswith_char_lookup in Hstart.
    by eapply list_elem_of_lookup_2.
Qed.

Lemma rsplit_dot_stem (stem ext : str) :
  "."%char ∉ ext -> rsplit_dot (stem ++ lit "." ++ ext) = stem.
Proof.
  intros Hext. unfold rsplit_dot. rewrite (rfind_last_dot _ _ Hext).
  pose proof (len_nonneg stem).
  destruct (Z.leb_spec 0 (len stem)); [|lia].
  assert (len (stem ++ lit "." ++ ext) = len stem + 1 + len ext) as Hlen
    by (unfold len; rewrite !length_app; cbn; lia).
  pose proof (len_nonneg ext).
  unfold slice. rewrite (clip_id _ 0), (clip_id _ (len stem)) by lia.
  rewrite Z.sub_0_r. change (Z.to_nat 0) with 0%nat. rewrite drop_0.
  unfold len. rewrite Nat2Z.id. by rewrite take_app_length.
Qed.

Lemma rsplit_dot_whole (name : str) :
  "."%char ∉ name -> rsplit_dot name = name.
Proof.
  intros Hname. unfold rsplit_dot.
  destruct (rfind_last (lit ".") name)
    as [[-> _] | (k & Hk & Hle & Hstart & _)]; [done|].
  exfalso. apply Hname.
  apply startswith_char_lookup in Hstart.
  by eapply list_elem_of_lookup_2.
Qed.

(** The file sent for a document named [stem.ext] is named
    [stem_edited.pdf] when the format asked for is "pdf" in any case of
    letters, and [stem_edited.docx] for every other format; only what
    follows the last dot of the name is dropped, and a name without a dot
    is kept whole. *)
Theorem download_name_keeps_the_stem (st : store) (document_id : str)
    (format : option str) (k : nat) (doc : document) :
  find_document (documents st) (PyStr document_id) = Some (k, doc) ->
  let stem_of name := rsplit_dot name in
  (forall stem ext, "."%char ∉ ext -> stem_of (stem ++ lit "." ++ ext) = stem)
  /\ (forall name, "."%char ∉ name -> stem_of name = name)
  /\ match download_doc st document_id format with
     | SendDocx name _ =>
         name = stem_of (doc_filename doc) ++ lit "_edited.docx"
         /\ lower (default (lit "docx") format) <> lit "pdf"
     | SendPdf name _ =>
         name = stem_of (doc_filename doc) ++ lit "_edited.pdf"
         /\ lower (default (lit "docx") format) = lit "pdf"
     | FileNotFound => False
     | FileError _ => True
     end.
Proof.
  intros Hfind. cbn zeta.
  split; [apply rsplit_dot_stem|]. split; [apply rsplit_dot_whole|].
  unfold EditorRoutes.download_doc. rewrite Hfind.
  case_bool_decide as Hfmt.
  - by destruct (build_pdf_document _ _ _ _).
  - by destruct (WordEditor.build_docx_document _ _ _ _ _).
Qed.

(** A document id that no document has is answered with 404 by both
    routes, and [edit_doc] then leaves the store as it was. *)
Theorem unknown_document_is_not_found (st : store) (request : dict)
    (document_id : str) (format : option str) :
  (forall d, d ∈ documents st -> doc_id d <> document_id) ->
  request !! "documentId"%string = Some (PyStr document_id) ->
  edit_doc st (PyDict request) = (st, EditNotFound)
  /\ download_doc st document_id format = FileNotFound.
Proof.
  intros Hfresh Hreq.
  assert (find_document (documents st) (PyStr document_id) = None) as Hnone.
  { induction (documents st) as [|d l IH]; [done|]. cbn.
    rewrite bool_decide_eq_false_2 by (apply Hfresh; left).
    rewrite IH; [done|]. intros x Hx. apply Hfresh. by right. }
  split.
  - unfold EditorRoutes.edit_doc. cbn [as_dict]. unfold get at 1.
    rewrite Hreq. cbn [default from_option]. unfold Datatypes.id.
    by rewrite Hnone.
  - unfold EditorRoutes.download_doc. by rewrite Hnone.
Qed.

End Routes.


(** A document whose content ends in a control character cannot be
    downloaded under such a python-docx. *)
Example control_character_is_a_failure :
  download_doc Examples.no_float Examples.black_rgb Examples.black_hex
    Examples.lxml_error Examples.lxml_error Examples.strict_markup
    MoreExamples.bell_store (lit "2") None
  = FileError (ValueError (lit "All strings must be XML compatible")).
Proof. vm_compute. reflexivity. Qed.

(** [download_name_keeps_the_stem] at the CV of the examples. *)
Lemma download_name_keeps_the_stem_witness :
  (forall stem ext, "."%char ∉ ext ->
     rsplit_dot (stem ++ lit "." ++ ext) = stem)
  /\ (forall name, "."%char ∉ name -> rsplit_dot name = name)
  /\ match download_doc Examples.no_float Examples.black_rgb
             Examples.black_hex Examples.lxml_error Examples.lxml_error
             Examples.strict_markup MoreExamples.cv_store (lit "1")
             (Some (lit "PDF")) with
     | SendDocx name _ =>
         name
         = rsplit_dot (doc_filename MoreExamples.cv_document)
             ++ lit "_edited.docx"
         /\ lower (default (lit "docx") (Some (lit "PDF"))) <> lit "pdf"
     | SendPdf name _ =>
         name
         = rsplit_dot (doc_filename MoreExamples.cv_document)
             ++ lit "_edited.pdf"
         /\ lower (default (lit "docx") (Some (lit "PDF"))) = lit "pdf"
     | FileNotFound => False
     | FileError _ => True
     end.
Proof.
  apply (download_name_keeps_the_stem Examples.no_float Examples.black_rgb
           Examples.black_hex Examples.lxml_error Examples.lxml_error
           Examples.strict_markup MoreExamples.cv_store (lit "1")
           (Some (lit "PDF")) 0%nat MoreExamples.cv_document).
  reflexivity.
Defined.

(** [unknown_document_is_not_found] at a request for document 7. *)
Lemma unknown_document_is_not_found_witness :
  edit_doc Examples.no_float MoreExamples.cv_store
    (PyDict MoreExamples.unknown_request)
  = (MoreExamples.cv_store, EditNotFound)
  /\ download_doc Examples.no_float Examples.black_rgb Examples.black_hex
       Examples.lxml_error Examples.lxml_error Examples.strict_markup
       MoreExamples.cv_store (lit "7") None
     = FileNotFound.
Proof.
  apply (unknown_document_is_not_found Examples.no_float Examples.black_rgb
           Examples.black_hex Examples.lxml_error Examples.lxml_error
           Examples.strict_markup MoreExamples.cv_store
           MoreExamples.unknown_request (lit "7") None).
  - intros d Hd. apply list_elem_of_singleton in Hd as ->. discriminate.
  - reflexivity.
Defined.

End EditorRoutesProps.
